(** * Nullifier-based double-vote prevention: a shallow embedding

    The development follows the TypeScript sources of the voting DApp:
    - [src/doubleVotePrevention.ts]      (module [DoubleVotePreventionSystem]),
    - [ui/src/services/nullifierService.ts] (module [NullifierService]),
    - [cryptography/secureNullifier.ts]  (modules [SecureCryptographicNullifier]
      and [SecureNullifierRegistry]),
    - [src/zkProofGenerator.ts] and [lib/midnight-mock.ts]
      (modules [MidnightMock] and [ZKProofGenerator]).

    Conventions of the embedding.
    - A JavaScript string is a [string]: a sequence of 8-bit characters
      (the ASCII range of the sources' inputs), so that [String.length] is
      the [.length] of the source and the bytes hashed by crypto-js are the
      characters themselves.
    - A JavaScript number holding an integer is a [Z]; 32-bit operators
      ([<<], [&]) are written out with their wrap-around.
    - [Date.now()] and [crypto.getRandomValues] are inputs of the functions
      that read them ([now], [entropy]).
    - A method is a function of the receiver's state [this] that returns its
      result together with the receiver's state after the call. *)

From Stdlib Require Import ZArith NArith String Ascii List Bool Lia.
From Stdlib Require Import DecimalString HexadecimalString.
From Stdlib Require QArith_base.
From stdpp Require Import base option list strings gmap.

Local Open Scope Z_scope.

(* ===================================================================== *)
(** ** JavaScript primitives used by the sources *)
(* ===================================================================== *)

Module JS.

(** [ToInt32]: the result of a bitwise operator, in [-2^31, 2^31). *)
Definition toInt32 (z : Z) : Z := (z + 2 ^ 31) mod 2 ^ 32 - 2 ^ 31.

(** [x << n] on numbers. *)
Definition shl (x n : Z) : Z := toInt32 (Z.shiftl (toInt32 x) (n mod 32)).

(** [x & y] on numbers. *)
Definition band (x y : Z) : Z := toInt32 (Z.land (toInt32 x) (toInt32 y)).

(** [s.charCodeAt(i)] for each [i], in order. *)
Definition charCodes (s : string) : list Z :=
  map (fun c => Z.of_N (N_of_ascii c)) (list_ascii_of_string s).

(** [n.toString()] for an integer [n]. *)
Definition toString (n : Z) : string :=
  DecimalString.NilZero.string_of_int (Z.to_int n).

(** [n.toString(16)] for an integer [n]. *)
Definition toString16 (n : Z) : string :=
  (if n <? 0 then "-" else "") +:+
  HexadecimalString.NilZero.string_of_uint (N.to_hex_uint (Z.to_N (Z.abs n))).

(** [xs.join(sep)]. *)
Fixpoint join (sep : string) (xs : list string) : string :=
  match xs with
  | [] => ""
  | [x] => x
  | x :: rest => x +:+ sep +:+ join sep rest
  end.

(** [s.substring(0, n)] for [0 <= n]. *)
Definition substring0 (n : nat) (s : string) : string := String.substring 0 n s.

(** The 16 lower-case hexadecimal digits. *)
Definition hexDigit (d : Z) : ascii :=
  match d with
  | 0 => "0" | 1 => "1" | 2 => "2" | 3 => "3" | 4 => "4"
  | 5 => "5" | 6 => "6" | 7 => "7" | 8 => "8" | 9 => "9"
  | 10 => "a" | 11 => "b" | 12 => "c" | 13 => "d" | 14 => "e"
  | _ => "f"
  end%char.

(** [byte.toString(16).padStart(2, '0')] for [0 <= byte < 256]. *)
Definition hexByte (b : Z) : string :=
  String (hexDigit (Z.land (Z.shiftr b 4) 15))
    (String (hexDigit (Z.land b 15)) EmptyString).

End JS.

(* ===================================================================== *)
(** ** crypto-js: SHA-256 (FIPS 180-4) and its hexadecimal rendering *)
(* ===================================================================== *)

Module CryptoJS.

Definition w32 (x : Z) : Z := x mod 2 ^ 32.
Definition add32 (x y : Z) : Z := w32 (x + y).
Definition rotr (n x : Z) : Z := w32 (Z.lor (Z.shiftr x n) (Z.shiftl x (32 - n))).
Definition not32 (x : Z) : Z := Z.lxor x 0xffffffff.

Definition Ch (x y z : Z) : Z := Z.lxor (Z.land x y) (Z.land (not32 x) z).
Definition Maj (x y z : Z) : Z :=
  Z.lxor (Z.lxor (Z.land x y) (Z.land x z)) (Z.land y z).
Definition bsig0 (x : Z) : Z := Z.lxor (Z.lxor (rotr 2 x) (rotr 13 x)) (rotr 22 x).
Definition bsig1 (x : Z) : Z := Z.lxor (Z.lxor (rotr 6 x) (rotr 11 x)) (rotr 25 x).
Definition ssig0 (x : Z) : Z := Z.lxor (Z.lxor (rotr 7 x) (rotr 18 x)) (Z.shiftr x 3).
Definition ssig1 (x : Z) : Z := Z.lxor (Z.lxor (rotr 17 x) (rotr 19 x)) (Z.shiftr x 10).

(** The first 64 primes. *)
Definition primes : list Z :=
  [ 2; 3; 5; 7; 11; 13; 17; 19; 23; 29; 31; 37; 41; 43; 47; 53;
    59; 61; 67; 71; 73; 79; 83; 89; 97; 101; 103; 107; 109; 113; 127; 131;
    137; 139; 149; 151; 157; 163; 167; 173; 179; 181; 191; 193; 197; 199;
    211; 223; 227; 229; 233; 239; 241; 251; 257; 263; 269; 271; 277; 281;
    283; 293; 307; 311 ].

(** The integer cube root of [n < 2^108], one bit at a time from bit
    [bits - 1] down. *)
Fixpoint cubeRoot (bits : nat) (n r : Z) : Z :=
  match bits with
  | O => r
  | S bits' =>
      let r' := r + 2 ^ Z.of_nat bits' in
      cubeRoot bits' n (if r' * r' * r' <=? n then r' else r)
  end.

(** The first 32 bits of the fractional part of the cube root of [p]. *)
Definition cubeRootFraction (p : Z) : Z := w32 (cubeRoot 36 (p * 2 ^ 96) 0).

(** The first 32 bits of the fractional part of the square root of [p]. *)
Definition squareRootFraction (p : Z) : Z := w32 (Z.sqrt (p * 2 ^ 64)).

(** The 64 round constants: the cube roots of the first 64 primes. *)
Definition roundConstants : list Z :=
  Eval vm_compute in map cubeRootFraction primes.

(** The eight working words of the hash. *)
Record Digest : Type := mkDigest
  { d0 : Z; d1 : Z; d2 : Z; d3 : Z; d4 : Z; d5 : Z; d6 : Z; d7 : Z }.

(** The initial hash value: the square roots of the first 8 primes. *)
Definition initialDigest : Digest :=
  Eval vm_compute in
    mkDigest (squareRootFraction 2) (squareRootFraction 3)
             (squareRootFraction 5) (squareRootFraction 7)
             (squareRootFraction 11) (squareRootFraction 13)
             (squareRootFraction 17) (squareRootFraction 19).

(** One round: the working variables after mixing in [k + w]. *)
Definition round (s : Digest) (kw : Z * Z) : Digest :=
  let t1 := add32 (add32 (add32 (add32 (d7 s) (bsig1 (d4 s)))
                                (Ch (d4 s) (d5 s) (d6 s))) (fst kw)) (snd kw) in
  let t2 := add32 (bsig0 (d0 s)) (Maj (d0 s) (d1 s) (d2 s)) in
  mkDigest (add32 t1 t2) (d0 s) (d1 s) (d2 s) (add32 (d3 s) t1) (d4 s) (d5 s) (d6 s).

(** The message schedule, newest word first: [extend n ws] appends [n]
    words to the reversed schedule [ws]. *)
Fixpoint extend (n : nat) (ws : list Z) : list Z :=
  match n with
  | O => ws
  | S n' =>
      let wt := add32 (add32 (add32 (ssig1 (nth 1 ws 0)) (nth 6 ws 0))
                             (ssig0 (nth 14 ws 0))) (nth 15 ws 0) in
      extend n' (wt :: ws)
  end.

Definition schedule (block : list Z) : list Z := rev (extend 48 (rev block)).

Definition compress (h : Digest) (block : list Z) : Digest :=
  let s := fold_left round (combine roundConstants (schedule block)) h in
  mkDigest (add32 (d0 h) (d0 s)) (add32 (d1 h) (d1 s))
           (add32 (d2 h) (d2 s)) (add32 (d3 h) (d3 s))
           (add32 (d4 h) (d4 s)) (add32 (d5 h) (d5 s))
           (add32 (d6 h) (d6 s)) (add32 (d7 h) (d7 s)).

(** Big-endian bytes of a [n]-byte number. *)
Fixpoint bigEndian (n : nat) (x : Z) : list Z :=
  match n with
  | O => []
  | S n' => Z.land (Z.shiftr x (8 * Z.of_nat n')) 255 :: bigEndian n' x
  end.

(** The padded message: the bytes, [0x80], zeros up to 56 modulo 64, and
    the bit length on 8 bytes. *)
Definition pad (bytes : list Z) : list Z :=
  let len := Z.of_nat (List.length bytes) in
  bytes ++ [128] ++ repeat 0 (Z.to_nat ((55 - len) mod 64)) ++ bigEndian 8 (8 * len).

(** Big-endian 32-bit words of a byte sequence. *)
Fixpoint words (fuel : nat) (bytes : list Z) : list Z :=
  match fuel, bytes with
  | S f, a :: b :: c :: d :: rest =>
      (Z.shiftl a 24 + Z.shiftl b 16 + Z.shiftl c 8 + d) :: words f rest
  | _, _ => []
  end.

(** Fold [compress] over the 16-word blocks. *)
Fixpoint blocks (fuel : nat) (h : Digest) (ws : list Z) : Digest :=
  match fuel, ws with
  | S f, _ :: _ => blocks f (compress h (firstn 16 ws)) (skipn 16 ws)
  | _, _ => h
  end.

(** [CryptoJS.SHA256(CryptoJS.lib.WordArray.create(bytes))]. *)
Definition SHA256_bytes (bytes : list Z) : Digest :=
  let p := pad bytes in
  blocks (List.length p) initialDigest (words (List.length p) p).

(** [CryptoJS.SHA256(s)]: the string is hashed as its bytes. *)
Definition SHA256 (s : string) : Digest := SHA256_bytes (JS.charCodes s).

Definition hexWord (x : Z) : string :=
  JS.hexByte (Z.shiftr x 24) +:+ JS.hexByte (Z.land (Z.shiftr x 16) 255) +:+
  JS.hexByte (Z.land (Z.shiftr x 8) 255) +:+ JS.hexByte (Z.land x 255).

(** [hash.toString()]: 64 lower-case hexadecimal digits. *)
Definition toString (h : Digest) : string :=
  hexWord (d0 h) +:+ hexWord (d1 h) +:+ hexWord (d2 h) +:+ hexWord (d3 h) +:+
  hexWord (d4 h) +:+ hexWord (d5 h) +:+ hexWord (d6 h) +:+ hexWord (d7 h).

End CryptoJS.

(* ===================================================================== *)
(** ** The JavaScript [Map] with string keys, in insertion order *)
(* ===================================================================== *)

(** [Map.prototype.keys()] lists the keys in the order of their first
    insertion; [set] on a key that is present replaces the value in place. *)
Module JsMap.

Definition t (V : Type) : Type := list (string * V).

Definition empty {V : Type} : t V := [].

Fixpoint get {V : Type} (k : string) (m : t V) : option V :=
  match m with
  | [] => None
  | (k', v) :: m' => if decide (k = k') then Some v else get k m'
  end.

Definition has {V : Type} (k : string) (m : t V) : bool :=
  match get k m with Some _ => true | None => false end.

Fixpoint set {V : Type} (k : string) (v : V) (m : t V) : t V :=
  match m with
  | [] => [(k, v)]
  | (k', v') :: m' =>
      if decide (k = k') then (k, v) :: m' else (k', v') :: set k v m'
  end.

Definition keys {V : Type} (m : t V) : list string := map fst m.

Definition size {V : Type} (m : t V) : nat := List.length m.

(** [m.delete(k)]. *)
Fixpoint delete {V : Type} (k : string) (m : t V) : t V :=
  match m with
  | [] => []
  | (k', v') :: m' => if decide (k = k') then m' else (k', v') :: delete k m'
  end.

(** [m.keys().next().value]: the key inserted first, if there is one. *)
Definition firstKey {V : Type} (m : t V) : option string :=
  match m with
  | [] => None
  | (k, _) :: _ => Some k
  end.

End JsMap.

(** A function that returns or throws an [Error] with a message. *)
Inductive Result (A : Type) : Type :=
| Ok (value : A)
| Throw (message : string).
Arguments Ok {A} value.
Arguments Throw {A} message.

(* ===================================================================== *)
(** ** src/doubleVotePrevention.ts *)
(* ===================================================================== *)

Module VoteAttempt.
Record t : Type := mk
  { proposalId : string; voterSecret : string; voteChoice : Z; timestamp : Z }.
End VoteAttempt.

Module NullifierRecord.
Record t : Type := mk
  { nullifier : string; proposalId : string; timestamp : Z; blockNumber : Z }.
End NullifierRecord.

Module VoteResult.
(** The object returned by [attemptVote]. *)
Record t : Type := mk
  { success : bool;
    nullifier : string;
    reason : option string;
    previousVote : option NullifierRecord.t }.
End VoteResult.

Module DoubleVotePreventionSystem.

Record t : Type := mk
  { usedNullifiers : gmap string NullifierRecord.t;
    nullifierHistory : list NullifierRecord.t }.

(** [new DoubleVotePreventionSystem()]. *)
Definition new : t := {| usedNullifiers := ∅; nullifierHistory := [] |}.

(** The text that is hashed: the template string of [generateNullifier]. *)
Definition nullifierInput (voterSecret proposalId : string) : string :=
  voterSecret +:+ ":" +:+ proposalId +:+ ":nullifier_salt_2024".

Definition generateNullifier (voterSecret proposalId : string) : string :=
  let input := nullifierInput voterSecret proposalId in
  CryptoJS.toString (CryptoJS.SHA256 input).

Definition getNextBlockNumber (this : t) : Z :=
  Z.of_nat (List.length (nullifierHistory this)) + 1000.

Definition attemptVote (voteAttempt : VoteAttempt.t) (this : t) : VoteResult.t * t :=
  let nullifier :=
    generateNullifier (VoteAttempt.voterSecret voteAttempt)
                      (VoteAttempt.proposalId voteAttempt) in
  match usedNullifiers this !! nullifier with
  | Some existingRecord =>
      ({| VoteResult.success := false;
          VoteResult.nullifier := nullifier;
          VoteResult.reason := Some "Double voting detected";
          VoteResult.previousVote := Some existingRecord |}, this)
  | None =>
      let record :=
        {| NullifierRecord.nullifier := nullifier;
           NullifierRecord.proposalId := VoteAttempt.proposalId voteAttempt;
           NullifierRecord.timestamp := VoteAttempt.timestamp voteAttempt;
           NullifierRecord.blockNumber := getNextBlockNumber this |} in
      ({| VoteResult.success := true;
          VoteResult.nullifier := nullifier;
          VoteResult.reason := None;
          VoteResult.previousVote := None |},
       {| usedNullifiers := <[nullifier := record]> (usedNullifiers this);
          nullifierHistory := nullifierHistory this ++ [record] |})
  end.

Definition isNullifierUsed (nullifier : string) (this : t) : bool :=
  bool_decide (is_Some (usedNullifiers this !! nullifier)).

Definition getProposalNullifiers (proposalId : string) (this : t)
  : list NullifierRecord.t :=
  filter (fun record => NullifierRecord.proposalId record = proposalId)
         (nullifierHistory this).

Definition verifyNullifierProof (nullifier proposalId zkProof : string) (this : t)
  : bool :=
  negb (isNullifierUsed nullifier this) && (0 <? Z.of_nat (String.length zkProof)).

Definition reset (this : t) : t :=
  {| usedNullifiers := ∅; nullifierHistory := [] |}.

(** The nullifiers of the history, oldest first. *)
Definition historyNullifiers (this : t) : list string :=
  map NullifierRecord.nullifier (nullifierHistory this).

(** The map and the history hold the same nullifiers, each once. *)
Definition consistent (this : t) : Prop :=
  (∀ n, is_Some (usedNullifiers this !! n) ↔ n ∈ historyNullifiers this)
  ∧ NoDup (historyNullifiers this).

(** The ledger after a sequence of submissions, with their results. *)
Fixpoint attemptVotes (attempts : list VoteAttempt.t) (this : t)
  : list VoteResult.t * t :=
  match attempts with
  | [] => ([], this)
  | a :: rest =>
      let '(r, this1) := attemptVote a this in
      let '(rs, this2) := attemptVotes rest this1 in
      (r :: rs, this2)
  end.

(** The object returned by [getStats]; [proposalStats] is the object made
    by [Object.fromEntries], read as a map from its keys. *)
Record Stats : Type := mkStats
  { totalVotes : Z;
    uniqueNullifiers : Z;
    proposalStats : gmap string Z;
    preventedDoubleVotes : Z }.

(** One turn of the [forEach] of [getStats]:
    [count = proposalStats.get(id) || 0; proposalStats.set(id, count + 1)]. *)
Definition countRecord (proposalStats : gmap string Z) (record : NullifierRecord.t)
  : gmap string Z :=
  let count := default 0 (proposalStats !! NullifierRecord.proposalId record) in
  <[NullifierRecord.proposalId record := count + 1]> proposalStats.

Definition getStats (this : t) : Stats :=
  let proposalStats := fold_left countRecord (nullifierHistory this) ∅ in
  {| totalVotes := Z.of_nat (List.length (nullifierHistory this));
     uniqueNullifiers := Z.of_nat (size (usedNullifiers this));
     proposalStats := proposalStats;
     preventedDoubleVotes := 0 |}.

(** The summary of [simulateDoubleVoteAttempts]; the rate is the exact
    value of [(prevented / attempts.length) * 100]. *)
Record Summary : Type := mkSummary
  { successful : Z; prevented : Z; preventionRate : QArith_base.Q }.

Record Simulation : Type := mkSimulation
  { attempts : list (VoteAttempt.t * VoteResult.t); summary : Summary }.

(** One [for] loop of the simulation: [make i] is the attempt of turn [i]. *)
Fixpoint simulateLoop (make : nat → VoteAttempt.t) (turns : list nat)
    (attempts : list (VoteAttempt.t * VoteResult.t)) (this : t)
  : list (VoteAttempt.t * VoteResult.t) * t :=
  match turns with
  | [] => (attempts, this)
  | i :: rest =>
      let attempt := make i in
      let '(result, this) := attemptVote attempt this in
      simulateLoop make rest (attempts ++ [(attempt, result)]) this
  end.

(** [random k] is the value of the [k]-th [Math.round(Math.random())] of
    the call and [clock k] its [k]-th reading of [Date.now()]. *)
Definition simulateDoubleVoteAttempts (random clock : nat → Z) (this : t)
  : Simulation * t :=
  let legitimate (i : nat) : VoteAttempt.t :=
    {| VoteAttempt.proposalId := "proposal_1";
       VoteAttempt.voterSecret := "voter_secret_" +:+ JS.toString (Z.of_nat i);
       VoteAttempt.voteChoice := random i;
       VoteAttempt.timestamp := clock i + Z.of_nat i * 1000 |} in
  let again (i : nat) : VoteAttempt.t :=
    {| VoteAttempt.proposalId := "proposal_1";
       VoteAttempt.voterSecret := "voter_secret_" +:+ JS.toString (Z.of_nat i);
       VoteAttempt.voteChoice := 1 - random (5 + i)%nat;
       VoteAttempt.timestamp := clock (5 + i)%nat + (Z.of_nat i + 10) * 1000 |} in
  let '(attempts, this) := simulateLoop legitimate [0; 1; 2; 3; 4]%nat [] this in
  let '(attempts, this) := simulateLoop again [0; 1; 2]%nat attempts this in
  let successful :=
    Z.of_nat (List.length
                (List.filter (fun a => VoteResult.success (snd a)) attempts)) in
  let prevented :=
    Z.of_nat (List.length
                (List.filter (fun a => negb (VoteResult.success (snd a))) attempts)) in
  ({| attempts := attempts;
      summary :=
        {| successful := successful;
           prevented := prevented;
           preventionRate :=
             QArith_base.Qmult
               (QArith_base.Qdiv (QArith_base.inject_Z prevented)
                  (QArith_base.inject_Z (Z.of_nat (List.length attempts))))
               (QArith_base.inject_Z 100) |} |}, this).

End DoubleVotePreventionSystem.

(** The class [DoubleVoteAttackDemo]; [clock k] is the [k]-th reading of
    [Date.now()] of a call. *)
Module DoubleVoteAttackDemo.

Record t : Type := mk { preventionSystem : DoubleVotePreventionSystem.t }.

Definition new : t := {| preventionSystem := DoubleVotePreventionSystem.new |}.

Record BasicDemo : Type := mkBasicDemo
  { basicScenario : string;
    firstVote : VoteResult.t;
    secondVote : VoteResult.t;
    prevention : bool;
    basicExplanation : string }.

Record CrossDemo : Type := mkCrossDemo
  { crossScenario : string;
    vote1 : VoteResult.t;
    vote2 : VoteResult.t;
    bothAllowed : bool;
    crossExplanation : string }.

Record SybilDemo : Type := mkSybilDemo
  { sybilScenario : string;
    results : list (string * VoteResult.t);
    sybilExplanation : string }.

Record AllDemos : Type := mkAllDemos
  { demo1 : BasicDemo;
    demo2 : CrossDemo;
    demo3 : SybilDemo;
    systemStats : DoubleVotePreventionSystem.Stats }.

Definition basicDoubleVoteDemo (clock : nat → Z) (this : t) : BasicDemo * t :=
  let voterSecret := "alice_secret_key_123" in
  let proposalId := "proposal_governance_1" in
  let '(firstVote, system) :=
    DoubleVotePreventionSystem.attemptVote
      (VoteAttempt.mk proposalId voterSecret 1 (clock 0%nat))
      (preventionSystem this) in
  let '(secondVote, system) :=
    DoubleVotePreventionSystem.attemptVote
      (VoteAttempt.mk proposalId voterSecret 0 (clock 1%nat + 5000)) system in
  ({| basicScenario := "Basic Double Vote Prevention";
      firstVote := firstVote;
      secondVote := secondVote;
      prevention := bool_decide (VoteResult.success secondVote = false);
      basicExplanation :=
        "Same voter secret generates same nullifier, preventing double voting" |},
   {| preventionSystem := system |}).

Definition crossProposalDemo (clock : nat → Z) (this : t) : CrossDemo * t :=
  let voterSecret := "bob_secret_key_456" in
  let '(vote1, system) :=
    DoubleVotePreventionSystem.attemptVote
      (VoteAttempt.mk "proposal_1" voterSecret 1 (clock 0%nat))
      (preventionSystem this) in
  let '(vote2, system) :=
    DoubleVotePreventionSystem.attemptVote
      (VoteAttempt.mk "proposal_2" voterSecret 0 (clock 1%nat + 1000)) system in
  ({| crossScenario := "Cross-Proposal Voting";
      vote1 := vote1;
      vote2 := vote2;
      bothAllowed := VoteResult.success vote1 && VoteResult.success vote2;
      crossExplanation :=
        "Same voter can vote on different proposals (different nullifiers)" |},
   {| preventionSystem := system |}).

(** The loop of [sybilAttackDemo]. *)
Fixpoint sybilLoop (clock : nat → Z) (turns : list nat)
    (results : list (string * VoteResult.t)) (system : DoubleVotePreventionSystem.t)
  : list (string * VoteResult.t) * DoubleVotePreventionSystem.t :=
  match turns with
  | [] => (results, system)
  | i :: rest =>
      let fakeSecret := "fake_voter_" +:+ JS.toString (Z.of_nat i) in
      let '(result, system) :=
        DoubleVotePreventionSystem.attemptVote
          (VoteAttempt.mk "proposal_sybil_test" fakeSecret 1
             (clock i + Z.of_nat i * 1000)) system in
      sybilLoop clock rest (results ++ [(fakeSecret, result)]) system
  end.

Definition sybilAttackDemo (clock : nat → Z) (this : t) : SybilDemo * t :=
  let '(results, system) :=
    sybilLoop clock [0; 1; 2; 3; 4]%nat [] (preventionSystem this) in
  ({| sybilScenario := "Sybil Attack Simulation";
      results := results;
      sybilExplanation :=
        "In real system, only pre-registered voter secrets would be valid" |},
   {| preventionSystem := system |}).

(** The readings of the clock go to the three demonstrations in turn. *)
Definition runAllDemos (clock : nat → Z) (this : t) : AllDemos * t :=
  let this :=
    {| preventionSystem := DoubleVotePreventionSystem.reset (preventionSystem this) |} in
  let '(demo1, this) := basicDoubleVoteDemo clock this in
  let '(demo2, this) := crossProposalDemo (fun k => clock (2 + k)%nat) this in
  let '(demo3, this) := sybilAttackDemo (fun k => clock (4 + k)%nat) this in
  ({| demo1 := demo1;
      demo2 := demo2;
      demo3 := demo3;
      systemStats := DoubleVotePreventionSystem.getStats (preventionSystem this) |},
   this).

End DoubleVoteAttackDemo.

(* ===================================================================== *)
(** ** ui/src/services/nullifierService.ts *)
(* ===================================================================== *)

Module ServiceRecord.
(** The interface [NullifierRecord] of the service. *)
Record t : Type := mk
  { nullifier : string; proposalId : string;
    voterIdentifier : string; timestamp : Z }.
End ServiceRecord.

Module VoteAttemptResult.
Record t : Type := mk
  { canVote : bool;
    nullifier : string;
    reason : option string;
    previousVoteTime : option Z }.
End VoteAttemptResult.

Module VoteStatus.
Inductive status : Type := can_vote | already_voted | checking.

Record details : Type := mkDetails
  { nullifier : string;
    previousVoteTime : option Z;
    timeAgo : option string }.

Record t : Type := mk
  { status_of : status; message : string; details_of : option details }.
End VoteStatus.

Module NullifierService.

Record t : Type := mk { usedNullifiers : gmap string ServiceRecord.t }.

(** One turn of the loop: [hash = ((hash << 5) - hash) + char;
    hash = hash & hash]. *)
Definition hashStep (hash char : Z) : Z :=
  let hash := (JS.shl hash 5 - hash) + char in
  JS.band hash hash.

Definition hashLoop (input : string) : Z :=
  fold_left hashStep (JS.charCodes input) 0.

Definition generateNullifier (voterSecret proposalId : string) : string :=
  let input := voterSecret +:+ ":" +:+ proposalId +:+ ":nullifier_salt_2024" in
  let hash := hashLoop input in
  "nullifier_" +:+ JS.toString16 (Z.abs hash).

Definition hashVoterIdentifier (voterSecret : string) : string :=
  let input := "voter_id_" +:+ voterSecret in
  let hash := hashLoop input in
  "voter_" +:+ String.substring 0 8 (JS.toString16 (Z.abs hash)).

Definition checkVoteEligibility (voterSecret proposalId : string) (this : t)
  : VoteAttemptResult.t * t :=
  let nullifier := generateNullifier voterSecret proposalId in
  match usedNullifiers this !! nullifier with
  | Some existingRecord =>
      ({| VoteAttemptResult.canVote := false;
          VoteAttemptResult.nullifier := nullifier;
          VoteAttemptResult.reason := Some "You have already voted on this proposal";
          VoteAttemptResult.previousVoteTime :=
            Some (ServiceRecord.timestamp existingRecord) |}, this)
  | None =>
      ({| VoteAttemptResult.canVote := true;
          VoteAttemptResult.nullifier := nullifier;
          VoteAttemptResult.reason :=
            Some "Ready to vote - this will be your first vote on this proposal";
          VoteAttemptResult.previousVoteTime := None |}, this)
  end.

Definition recordVote (now : Z) (voterSecret proposalId : string) (this : t)
  : VoteAttemptResult.t * t :=
  let '(eligibility, this) := checkVoteEligibility voterSecret proposalId this in
  if negb (VoteAttemptResult.canVote eligibility) then (eligibility, this)
  else
    let record :=
      {| ServiceRecord.nullifier := VoteAttemptResult.nullifier eligibility;
         ServiceRecord.proposalId := proposalId;
         ServiceRecord.voterIdentifier := hashVoterIdentifier voterSecret;
         ServiceRecord.timestamp := now |} in
    ({| VoteAttemptResult.canVote := true;
        VoteAttemptResult.nullifier := VoteAttemptResult.nullifier eligibility;
        VoteAttemptResult.reason := Some "Vote successfully recorded";
        VoteAttemptResult.previousVoteTime := None |},
     {| usedNullifiers :=
          <[VoteAttemptResult.nullifier eligibility := record]> (usedNullifiers this) |}).

(** [`${n} unit${n > 1 ? 's' : ''} ago`]. *)
Definition ago (n : Z) (unit : string) : string :=
  JS.toString n +:+ " " +:+ unit +:+ (if 1 <? n then "s" else "") +:+ " ago".

Definition formatTimeAgo (now timestamp : Z) : string :=
  let diff := now - timestamp in
  let minutes := diff / (1000 * 60) in
  let hours := diff / (1000 * 60 * 60) in
  let days := diff / (1000 * 60 * 60 * 24) in
  if 0 <? days then ago days "day"
  else if 0 <? hours then ago hours "hour"
  else if 0 <? minutes then ago minutes "minute"
  else "just now".

Definition getVoteStatus (now : Z) (voterSecret proposalId : string) (this : t)
  : VoteStatus.t * t :=
  let '(result, this) := checkVoteEligibility voterSecret proposalId this in
  if VoteAttemptResult.canVote result then
    ({| VoteStatus.status_of := VoteStatus.can_vote;
        VoteStatus.message := "✅ Ready to vote";
        VoteStatus.details_of :=
          Some {| VoteStatus.nullifier := VoteAttemptResult.nullifier result;
                  VoteStatus.previousVoteTime := None;
                  VoteStatus.timeAgo := None |} |}, this)
  else
    let timeAgo :=
      match VoteAttemptResult.previousVoteTime result with
      | Some previous =>
          if previous =? 0 then "unknown time" else formatTimeAgo now previous
      | None => "unknown time"
      end in
    ({| VoteStatus.status_of := VoteStatus.already_voted;
        VoteStatus.message := "🚫 Already voted on this proposal";
        VoteStatus.details_of :=
          Some {| VoteStatus.nullifier := VoteAttemptResult.nullifier result;
                  VoteStatus.previousVoteTime :=
                    VoteAttemptResult.previousVoteTime result;
                  VoteStatus.timeAgo := Some timeAgo |} |}, this).

(** One entry of [demoVotes] stored by [initializeDemoData]. *)
Definition storeDemoVote (this : t) (vote : string * string * Z) : t :=
  let '(voterSecret, proposalId, timestamp) := vote in
  let nullifier := generateNullifier voterSecret proposalId in
  let record :=
    {| ServiceRecord.nullifier := nullifier;
       ServiceRecord.proposalId := proposalId;
       ServiceRecord.voterIdentifier := hashVoterIdentifier voterSecret;
       ServiceRecord.timestamp := timestamp |} in
  {| usedNullifiers := <[nullifier := record]> (usedNullifiers this) |}.

(** The three readings of [Date.now()] are [now1], [now2], [now3]. *)
Definition initializeDemoData (now1 now2 now3 : Z) (this : t) : t :=
  let demoVotes :=
    [ ("demo_voter_alice", "3", now1 - 2 * 60 * 60 * 1000);
      ("demo_voter_bob", "3", now2 - 1 * 60 * 60 * 1000);
      ("demo_voter_carol", "3", now3 - 30 * 60 * 1000) ] in
  fold_left storeDemoVote demoVotes this.

(** [NullifierService.getInstance()].  [instance] is the static field:
    [None] until the first call, afterwards the singleton in the state it
    has at the time of the call.  The singleton is made, and filled with the
    demonstration data, by the first call only; the result is the singleton
    and the static field after the call. *)
Definition getInstance (now1 now2 now3 : Z) (instance : option t) : t * option t :=
  match instance with
  | Some existing => (existing, Some existing)
  | None =>
      let created := initializeDemoData now1 now2 now3 {| usedNullifiers := ∅ |} in
      (created, Some created)
  end.

Definition reset (now1 now2 now3 : Z) (this : t) : t :=
  initializeDemoData now1 now2 now3 {| usedNullifiers := ∅ |}.

End NullifierService.

(* ===================================================================== *)
(** ** cryptography/secureNullifier.ts *)
(* ===================================================================== *)

Module SecureVoterCredentials.
Record t : Type := mk
  { voterSecret : string;
    voterCommitment : string;
    merkleIndex : Z;
    merkleProof : list string;
    voterPublicKey : string;
    voterPrivateKey : string }.
End SecureVoterCredentials.

Module SecureNullifierProof.
Record t : Type := mk
  { nullifier : string;
    nullifierProof : string;
    voteCommitment : string;
    rangeProof : string;
    membershipProof : string;
    timestamp : Z;
    nonce : string }.
End SecureNullifierProof.

Module SecureCryptographicNullifier.

Definition CURVE_ORDER : string :=
  "21888242871839275222246405745257275088696311157297823662689037894645226208583".
Definition GENERATOR_POINT : string := "0x01".
Definition PEDERSEN_H : string := "0x02".

Definition modularReduction (value modulus : string) : string :=
  let hash := CryptoJS.SHA256 value in
  JS.substring0 64 (CryptoJS.toString hash).

(** [input] is the content of the [Uint8Array]. *)
Definition hashToField (input : list Z) : string :=
  let hash := CryptoJS.SHA256_bytes input in
  modularReduction (CryptoJS.toString hash) CURVE_ORDER.

Definition poseidonHash (inputs : list string) : string :=
  let combined := JS.join "||" inputs in
  let hash := CryptoJS.SHA256 combined in
  modularReduction (CryptoJS.toString hash) CURVE_ORDER.

Definition pedersenCommit (value blindingFactor : string) : string :=
  let valueHash := CryptoJS.SHA256 (value +:+ GENERATOR_POINT) in
  let blindingHash := CryptoJS.SHA256 (blindingFactor +:+ PEDERSEN_H) in
  CryptoJS.toString
    (CryptoJS.SHA256 (CryptoJS.toString valueHash +:+ CryptoJS.toString blindingHash)).

(** [array] is the 32 bytes that [crypto.getRandomValues] wrote. *)
Definition generateSecureRandom (array : list Z) : string :=
  JS.join "" (map JS.hexByte array).

Definition scalarMultiply (point scalar : string) : string :=
  CryptoJS.toString (CryptoJS.SHA256 (point +:+ scalar)).

Definition concatenateInputs (inputs : list string) : list string :=
  map (fun input => CryptoJS.toString (CryptoJS.SHA256 input)) inputs.

(** The three draws of randomness are [entropy], [additionalEntropy] and
    the bytes [blinding] of the blinding factor. *)
Definition generateSecureVoterCredentials
    (entropy additionalEntropy blinding : list Z) : SecureVoterCredentials.t :=
  let voterPrivateKey := hashToField entropy in
  let voterPublicKey := scalarMultiply GENERATOR_POINT voterPrivateKey in
  let voterSecret := hashToField (entropy ++ additionalEntropy) in
  let blindingFactor := generateSecureRandom blinding in
  let voterCommitment := pedersenCommit voterSecret blindingFactor in
  {| SecureVoterCredentials.voterSecret := voterSecret;
     SecureVoterCredentials.voterCommitment := voterCommitment;
     SecureVoterCredentials.merkleIndex := 0;
     SecureVoterCredentials.merkleProof := [];
     SecureVoterCredentials.voterPublicKey := voterPublicKey;
     SecureVoterCredentials.voterPrivateKey := voterPrivateKey |}.

Definition generateNullifierProof (credentials : SecureVoterCredentials.t)
    (proposalId nullifier nonce : string) : string :=
  let proofInputs :=
    [ SecureVoterCredentials.voterCommitment credentials;
      proposalId; nullifier; nonce ] in
  poseidonHash proofInputs.

Definition generateRangeProof (voteChoice : Z) (blindingFactor : string) : string :=
  let rangeInputs := [ JS.toString voteChoice; blindingFactor; "range_proof_salt" ] in
  poseidonHash rangeInputs.

Definition generateMembershipProof (credentials : SecureVoterCredentials.t) : string :=
  let membershipInputs :=
    [ SecureVoterCredentials.voterCommitment credentials;
      JS.toString (SecureVoterCredentials.merkleIndex credentials);
      "membership_proof_salt" ] in
  poseidonHash membershipInputs.

(** The environment of one call of [generateSecureNullifier]: the bytes of
    the nonce, the reading of [Date.now()], the bytes of the vote's
    blinding factor, in the order the source draws them. *)
Record Env : Type := mkEnv
  { nonceBytes : list Z; now : Z; blindingBytes : list Z }.

Definition generateSecureNullifier (voterCredentials : SecureVoterCredentials.t)
    (proposalId : string) (voteChoice : Z) (env : Env)
  : Result SecureNullifierProof.t :=
  if negb (voteChoice =? 0) && negb (voteChoice =? 1) then
    Throw "Invalid vote choice. Must be 0 or 1."
  else
    let nonce := generateSecureRandom (nonceBytes env) in
    let timestamp := now env in
    let nullifierInput :=
      concatenateInputs
        [ SecureVoterCredentials.voterSecret voterCredentials;
          proposalId; nonce; JS.toString timestamp ] in
    let nullifier := poseidonHash nullifierInput in
    let voteBlindingFactor := generateSecureRandom (blindingBytes env) in
    let voteCommitment := pedersenCommit (JS.toString voteChoice) voteBlindingFactor in
    let nullifierProof :=
      generateNullifierProof voterCredentials proposalId nullifier nonce in
    let rangeProof := generateRangeProof voteChoice voteBlindingFactor in
    let membershipProof := generateMembershipProof voterCredentials in
    Ok {| SecureNullifierProof.nullifier := nullifier;
          SecureNullifierProof.nullifierProof := nullifierProof;
          SecureNullifierProof.voteCommitment := voteCommitment;
          SecureNullifierProof.rangeProof := rangeProof;
          SecureNullifierProof.membershipProof := membershipProof;
          SecureNullifierProof.timestamp := timestamp;
          SecureNullifierProof.nonce := nonce |}.

Definition verifyRangeProof (proof commitment : string) : bool :=
  (String.length proof =? 64)%nat && (String.length commitment =? 64)%nat.

Definition verifyMembershipProof (proof registryRoot : string) : bool :=
  (String.length proof =? 64)%nat && (0 <? String.length registryRoot)%nat.

Definition verifyNullifierStructure (nullifierProof : SecureNullifierProof.t) : bool :=
  (String.length (SecureNullifierProof.nullifier nullifierProof) =? 64)%nat &&
  (String.length (SecureNullifierProof.nullifierProof nullifierProof) =? 64)%nat &&
  (String.length (SecureNullifierProof.voteCommitment nullifierProof) =? 64)%nat &&
  (String.length (SecureNullifierProof.rangeProof nullifierProof) =? 64)%nat &&
  (String.length (SecureNullifierProof.membershipProof nullifierProof) =? 64)%nat &&
  (String.length (SecureNullifierProof.nonce nullifierProof) =? 64)%nat &&
  (0 <? SecureNullifierProof.timestamp nullifierProof).

(** [currentTime] is the reading of [Date.now()].  Nothing in the [try]
    block throws, so the [catch] branch is never taken. *)
Definition verifyNullifierProof (currentTime : Z)
    (nullifierProof : SecureNullifierProof.t)
    (proposalId voterRegistryRoot : string) : bool :=
  let expectedNullifierInput :=
    concatenateInputs
      [ "hidden_voter_secret"; proposalId;
        SecureNullifierProof.nonce nullifierProof;
        JS.toString (SecureNullifierProof.timestamp nullifierProof) ] in
  if negb (verifyRangeProof (SecureNullifierProof.rangeProof nullifierProof)
                            (SecureNullifierProof.voteCommitment nullifierProof))
  then false
  else if negb (verifyMembershipProof
                  (SecureNullifierProof.membershipProof nullifierProof)
                  voterRegistryRoot)
  then false
  else if negb (verifyNullifierStructure nullifierProof)
  then false
  else if 3600000 <? Z.abs (currentTime - SecureNullifierProof.timestamp nullifierProof)
  then false
  else true.

Record Uniqueness : Type := mkUniqueness
  { isUnique : bool; conflictDetected : bool }.

Definition checkNullifierUniqueness (nullifier : string)
    (existingNullifiers : gset string) : Uniqueness :=
  let isUnique := negb (bool_decide (nullifier ∈ existingNullifiers)) in
  {| isUnique := isUnique; conflictDetected := negb isUnique |}.

End SecureCryptographicNullifier.

(** *** The order in which the verifier evaluates its checks *)

Module VerifierTrace.

Inductive Check : Type :=
| RangeProof       (* verifyRangeProof *)
| MembershipProof  (* verifyMembershipProof *)
| Structure        (* verifyNullifierStructure *)
| Freshness        (* the comparison with Date.now() *)
| NullifierBinding (* a check of nullifierProof against proposalId *).

#[export] Instance Check_eq_dec : EqDecision Check.
Proof. solve_decision. Defined.

Import SecureCryptographicNullifier.

(** [verifyNullifierProof] with the same statements in the same order,
    returning also the checks it evaluated, oldest first. *)
Definition verifyNullifierProof (currentTime : Z)
    (nullifierProof : SecureNullifierProof.t)
    (proposalId voterRegistryRoot : string) : list Check * bool :=
  if negb (verifyRangeProof (SecureNullifierProof.rangeProof nullifierProof)
                            (SecureNullifierProof.voteCommitment nullifierProof))
  then ([RangeProof], false)
  else if negb (verifyMembershipProof
                  (SecureNullifierProof.membershipProof nullifierProof)
                  voterRegistryRoot)
  then ([RangeProof; MembershipProof], false)
  else if negb (verifyNullifierStructure nullifierProof)
  then ([RangeProof; MembershipProof; Structure], false)
  else if 3600000 <? Z.abs (currentTime - SecureNullifierProof.timestamp nullifierProof)
  then ([RangeProof; MembershipProof; Structure; Freshness], false)
  else ([RangeProof; MembershipProof; Structure; Freshness], true).

(** Evaluation of a list of named checks in order, stopping at the first
    one that fails. *)
Fixpoint runInOrder (checks : list (Check * bool)) : list Check * bool :=
  match checks with
  | [] => ([], true)
  | (c, true) :: rest => let '(cs, r) := runInOrder rest in (c :: cs, r)
  | (c, false) :: _ => ([c], false)
  end.

(** The verifier's checks with their outcomes, in the order of the source. *)
Definition sourceChecks (currentTime : Z) (nullifierProof : SecureNullifierProof.t)
    (voterRegistryRoot : string) : list (Check * bool) :=
  [ (RangeProof,
     verifyRangeProof (SecureNullifierProof.rangeProof nullifierProof)
                      (SecureNullifierProof.voteCommitment nullifierProof));
    (MembershipProof,
     verifyMembershipProof (SecureNullifierProof.membershipProof nullifierProof)
                           voterRegistryRoot);
    (Structure, verifyNullifierStructure nullifierProof);
    (Freshness,
     negb (3600000 <? Z.abs (currentTime - SecureNullifierProof.timestamp nullifierProof))) ].

(** The order of the checks in the specification: (a) structure,
    (b) freshness, (c) range proof, (d) membership, (e) binding of the
    nullifier to the proposal. *)
Definition specOrder : list Check :=
  [Structure; Freshness; RangeProof; MembershipProof; NullifierBinding].

End VerifierTrace.

Module SecureNullifierRegistry.

Record t : Type := mk
  { nullifiers : JsMap.t SecureNullifierProof.t;
    merkleTree : list string;
    registryRoot : string }.

(** [new SecureNullifierRegistry()]. *)
Definition new : t :=
  {| nullifiers := JsMap.empty; merkleTree := []; registryRoot := "" |}.

(** One level of the tree: [right = leaves[i + 1] || left], where an
    absent or empty right neighbour is replaced by the left one. *)
Fixpoint nextLevel (leaves : list string) : list string :=
  match leaves with
  | [] => []
  | [leftLeaf] => [CryptoJS.toString (CryptoJS.SHA256 (leftLeaf +:+ leftLeaf))]
  | leftLeaf :: next :: rest =>
      let rightLeaf := if decide (next = "") then leftLeaf else next in
      CryptoJS.toString (CryptoJS.SHA256 (leftLeaf +:+ rightLeaf)) :: nextLevel rest
  end.

(** [computeMerkleRoot], the recursion bounded by [fuel] levels. *)
Fixpoint computeMerkleRootFuel (fuel : nat) (leaves : list string) : option string :=
  match leaves with
  | [] => Some ""
  | [leaf] => Some leaf
  | _ =>
      match fuel with
      | O => None
      | S fuel' => computeMerkleRootFuel fuel' (nextLevel leaves)
      end
  end.

(** A level is at most half as long as the one below it, so as many
    levels as there are leaves are enough. *)
Definition computeMerkleRoot (leaves : list string) : string :=
  default "" (computeMerkleRootFuel (List.length leaves) leaves).

Definition updateMerkleTree (this : t) : t :=
  let merkleTree := JsMap.keys (nullifiers this) in
  {| nullifiers := nullifiers this;
     merkleTree := merkleTree;
     registryRoot := computeMerkleRoot merkleTree |}.

(** [currentTime] is the reading of [Date.now()] inside the verifier. *)
Definition addNullifier (currentTime : Z) (nullifierProof : SecureNullifierProof.t)
    (proposalId : string) (this : t) : bool * t :=
  if negb (SecureCryptographicNullifier.verifyNullifierProof
             currentTime nullifierProof proposalId (registryRoot this))
  then (false, this)
  else
    let uniquenessCheck :=
      SecureCryptographicNullifier.checkNullifierUniqueness
        (SecureNullifierProof.nullifier nullifierProof)
        (list_to_set (JsMap.keys (nullifiers this))) in
    if negb (SecureCryptographicNullifier.isUnique uniquenessCheck)
    then (false, this)
    else
      let this :=
        {| nullifiers :=
             JsMap.set (SecureNullifierProof.nullifier nullifierProof)
                       nullifierProof (nullifiers this);
           merkleTree := merkleTree this;
           registryRoot := registryRoot this |} in
      (true, updateMerkleTree this).

(** The registry after the two statements that add a bundle: the [set] on
    the map and [updateMerkleTree]. *)
Definition inserted (b : SecureNullifierProof.t) (this : t) : t :=
  updateMerkleTree
    {| nullifiers := JsMap.set (SecureNullifierProof.nullifier b) b (nullifiers this);
       merkleTree := merkleTree this;
       registryRoot := registryRoot this |}.

Definition verifyRegistryIntegrity (this : t) : bool :=
  forallb (fun entry : string * SecureNullifierProof.t =>
             bool_decide (SecureNullifierProof.nullifier (snd entry) = fst entry))
          (nullifiers this).

(** A submission: the clock reading, the bundle and the proposal. *)
Definition Submission : Type := Z * SecureNullifierProof.t * string.

(** The registry after a sequence of submissions, with their results. *)
Fixpoint addNullifiers (submissions : list Submission) (this : t) : list bool * t :=
  match submissions with
  | [] => ([], this)
  | (currentTime, nullifierProof, proposalId) :: rest =>
      let '(r, this1) := addNullifier currentTime nullifierProof proposalId this in
      let '(rs, this2) := addNullifiers rest this1 in
      (r :: rs, this2)
  end.

End SecureNullifierRegistry.

(* ===================================================================== *)
(** ** lib/midnight-mock.ts and src/zkProofGenerator.ts *)
(* ===================================================================== *)

Module MidnightMock.

(** [class Field]: the private [value]. *)
Record Field : Type := mkField { value : string }.

Definition fromString (value : string) : Field := mkField value.
Definition fromNumber (value : Z) : Field := mkField (JS.toString value).
Definition toString (f : Field) : string := value f.

(** [Poseidon.hash]. *)
Definition hash (inputs : list Field) : Field :=
  let combined := JS.join "" (map toString inputs) in
  let step (hash char : Z) : Z :=
    let hash := (JS.shl hash 5 - hash) + char in
    JS.band hash hash in
  let hash := fold_left step (JS.charCodes combined) 0 in
  mkField (JS.toString (Z.abs hash)).

End MidnightMock.

(** The two platform functions used to print the mock proof. *)
Module Platform.

Definition base64Alphabet : list ascii :=
  list_ascii_of_string
    "ABCDEFGHIJKLMNOPQRSTUVWXYZabcdefghijklmnopqrstuvwxyz0123456789+/".

Definition base64Char (i : Z) : string :=
  String (nth (Z.to_nat i) base64Alphabet "="%char) EmptyString.

(** [Buffer.from(s).toString('base64')] on the bytes of [s]. *)
Fixpoint base64 (bytes : list Z) : string :=
  match bytes with
  | [] => ""
  | [a] =>
      base64Char (Z.shiftr a 2) +:+ base64Char (Z.shiftl (Z.land a 3) 4) +:+ "=="
  | [a; b] =>
      base64Char (Z.shiftr a 2) +:+
      base64Char (Z.lor (Z.shiftl (Z.land a 3) 4) (Z.shiftr b 4)) +:+
      base64Char (Z.shiftl (Z.land b 15) 2) +:+ "="
  | a :: b :: c :: rest =>
      base64Char (Z.shiftr a 2) +:+
      base64Char (Z.lor (Z.shiftl (Z.land a 3) 4) (Z.shiftr b 4)) +:+
      base64Char (Z.lor (Z.shiftl (Z.land b 15) 2) (Z.shiftr c 6)) +:+
      base64Char (Z.land c 63) +:+ base64 rest
  end.

(** One character inside a JSON string: the quote and the reverse solidus
    are escaped, control characters are written with their short escape
    or as a [u00XX] escape. *)
Definition jsonChar (c : ascii) : string :=
  let n := Z.of_N (N_of_ascii c) in
  let escape (rest : string) : string := String (ascii_of_N 92) rest in
  if n =? 34 then escape (String c EmptyString)
  else if n =? 92 then escape (String c EmptyString)
  else if n =? 8 then escape "b"
  else if n =? 12 then escape "f"
  else if n =? 10 then escape "n"
  else if n =? 13 then escape "r"
  else if n =? 9 then escape "t"
  else if n <? 32 then escape ("u00" +:+ JS.hexByte n)
  else String c EmptyString.

(** [JSON.stringify(s)] for a string. *)
Definition jsonString (s : string) : string :=
  let quote := String (ascii_of_N 34) EmptyString in
  quote +:+ JS.join "" (map jsonChar (list_ascii_of_string s)) +:+ quote.

End Platform.

Module VoteProofInputs.
Record t : Type := mk
  { proposalId : string;
    voteChoice : Z;
    voterSecret : string;
    voterNullifier : string;
    merkleRoot : option string;
    merklePath : option (list string);
    merkleIndices : option (list Z) }.
End VoteProofInputs.

Module VoteProofOutputs.
Record t : Type := mk
  { nullifierHash : string; voteCommitment : string; proof : string }.
End VoteProofOutputs.

Module ZKProofGenerator.

(** What one call reads from its environment: [Date.now()] and the text
    of [Math.random().toString(36)]. *)
Record Env : Type := mkEnv { now : Z; random36 : string }.

Definition validateInputs (inputs : VoteProofInputs.t) : Result unit :=
  if decide (VoteProofInputs.proposalId inputs = "") then
    Throw "Proposal ID is required"
  else if negb (VoteProofInputs.voteChoice inputs =? 0)
          && negb (VoteProofInputs.voteChoice inputs =? 1) then
    Throw "Vote choice must be 0 (No) or 1 (Yes)"
  else if decide (VoteProofInputs.voterSecret inputs = "") then
    Throw "Voter secret is required"
  else if decide (VoteProofInputs.voterNullifier inputs = "") then
    Throw "Voter nullifier is required"
  else Ok tt.

Definition computeNullifier (voterSecret nullifier proposalId : string) : string :=
  let inputs :=
    [ MidnightMock.fromString voterSecret;
      MidnightMock.fromString nullifier;
      MidnightMock.fromString proposalId ] in
  MidnightMock.toString (MidnightMock.hash inputs).

Definition computeVoteCommitment (proposalId : string) (voteChoice : Z)
    (nullifier : string) : string :=
  let inputs :=
    [ MidnightMock.fromString proposalId;
      MidnightMock.fromNumber voteChoice;
      MidnightMock.fromNumber 1;
      MidnightMock.fromString nullifier ] in
  MidnightMock.toString (MidnightMock.hash inputs).

Definition generateMockProof (random36 : string) (inputs : VoteProofInputs.t)
    (nullifierHash voteCommitment : string) : string :=
  let proofElements :=
    [ VoteProofInputs.proposalId inputs;
      JS.toString (VoteProofInputs.voteChoice inputs);
      nullifierHash; voteCommitment; random36 ] in
  Platform.base64 (JS.charCodes (JS.join "|" proofElements)).

(** [JSON.stringify(proofData)]. *)
Definition generateZKProof (env : Env) (inputs : VoteProofInputs.t)
    (nullifierHash voteCommitment : string) : string :=
  "{" +:+
  Platform.jsonString "proposalId" +:+ ":" +:+
    Platform.jsonString (VoteProofInputs.proposalId inputs) +:+ "," +:+
  Platform.jsonString "nullifierHash" +:+ ":" +:+
    Platform.jsonString nullifierHash +:+ "," +:+
  Platform.jsonString "voteCommitment" +:+ ":" +:+
    Platform.jsonString voteCommitment +:+ "," +:+
  Platform.jsonString "timestamp" +:+ ":" +:+ JS.toString (now env) +:+ "," +:+
  Platform.jsonString "mockProof" +:+ ":" +:+
    Platform.jsonString
      (generateMockProof (random36 env) inputs nullifierHash voteCommitment) +:+
  "}".

(** The [try] block rethrows every error as the one generic error. *)
Definition generateVoteProof (env : Env) (inputs : VoteProofInputs.t)
  : Result VoteProofOutputs.t :=
  let body :=
    match validateInputs inputs with
    | Throw error => Throw error
    | Ok _ =>
        let nullifierHash :=
          computeNullifier (VoteProofInputs.voterSecret inputs)
                           (VoteProofInputs.voterNullifier inputs)
                           (VoteProofInputs.proposalId inputs) in
        let voteCommitment :=
          computeVoteCommitment (VoteProofInputs.proposalId inputs)
                                (VoteProofInputs.voteChoice inputs)
                                (VoteProofInputs.voterNullifier inputs) in
        let proof := generateZKProof env inputs nullifierHash voteCommitment in
        Ok {| VoteProofOutputs.nullifierHash := nullifierHash;
              VoteProofOutputs.voteCommitment := voteCommitment;
              VoteProofOutputs.proof := proof |}
    end in
  match body with
  | Ok outputs => Ok outputs
  | Throw error => Throw "Zero-knowledge proof generation failed"
  end.

(** [array] is the 32 bytes that [crypto.getRandomValues] wrote. *)
Definition generateSecureRandom (array : list Z) : string :=
  JS.join "" (map JS.hexByte array).

(** The object returned by [generateVoterCredentials], from two draws. *)
Record Credentials : Type := mkCredentials { secret : string; nullifier : string }.

Definition generateVoterCredentials (array1 array2 : list Z) : Credentials :=
  {| secret := generateSecureRandom array1;
     nullifier := generateSecureRandom array2 |}.

End ZKProofGenerator.

(* ===================================================================== *)
(** ** The voter registry and the participation tracker *)
(* ===================================================================== *)

Module VoterRegistration.
Record t : Type := mk
  { voterHash : string; timestamp : Z; eligibilityProof : string }.
End VoterRegistration.

Module RegistryCredentials.
(** The interface [VoterCredentials] of the voter registry. *)
Record t : Type := mk
  { voterSecret : string;
    voterIndex : Z;
    merkleProof : list string;
    merkleIndices : list Z }.
End RegistryCredentials.

Module VoterRegistry.

Record t : Type := mk
  { voters : JsMap.t VoterRegistration.t;
    merkleTree : list string;
    merkleRoot : string }.

(** [new VoterRegistry()]. *)
Definition new : t := {| voters := JsMap.empty; merkleTree := []; merkleRoot := "" |}.

Definition hashVoterCredentials (voterSecret : string) : string :=
  MidnightMock.toString (MidnightMock.hash [MidnightMock.fromString voterSecret]).

(** [Poseidon.hash([Field.fromString(left), Field.fromString(right)]).toString()]. *)
Definition combined (leftNode rightNode : string) : string :=
  MidnightMock.toString
    (MidnightMock.hash [MidnightMock.fromString leftNode; MidnightMock.fromString rightNode]).

(** The inner [for] loop: the next level, with [right = level[i + 1] || left]. *)
Fixpoint nextLevel (currentLevel : list string) : list string :=
  match currentLevel with
  | [] => []
  | [leftNode] => [combined leftNode leftNode]
  | leftNode :: next :: rest =>
      let rightNode := if decide (next = "") then leftNode else next in
      combined leftNode rightNode :: nextLevel rest
  end.

(** The [while (currentLevel.length > 1)] loop of [updateMerkleRoot], for
    at most [fuel] turns. *)
Fixpoint rootLoop (fuel : nat) (currentLevel : list string) : list string :=
  match fuel with
  | O => currentLevel
  | S fuel' =>
      if (1 <? List.length currentLevel)%nat
      then rootLoop fuel' (nextLevel currentLevel)
      else currentLevel
  end.

(** A level is at most half as long as the one before: as many turns as
    there are leaves are enough. *)
Definition updateMerkleRoot (this : t) : t :=
  match merkleTree this with
  | [] => {| voters := voters this; merkleTree := merkleTree this; merkleRoot := "" |}
  | _ =>
      let currentLevel := rootLoop (List.length (merkleTree this)) (merkleTree this) in
      {| voters := voters this;
         merkleTree := merkleTree this;
         merkleRoot := nth 0 currentLevel "" |}
  end.

(** The [while] loop of [generateMerkleProof], for at most [fuel] turns. *)
Fixpoint proofLoop (fuel : nat) (currentIndex : nat) (currentLevel : list string)
    (proof : list string) (indices : list Z) : list string * list Z :=
  match fuel with
  | O => (proof, indices)
  | S fuel' =>
      if (1 <? List.length currentLevel)%nat then
        let isRightNode := (currentIndex mod 2 =? 1)%nat in
        let siblingIndex :=
          if isRightNode then (currentIndex - 1)%nat else (currentIndex + 1)%nat in
        let '(proof, indices) :=
          if (siblingIndex <? List.length currentLevel)%nat then
            (proof ++ [nth siblingIndex currentLevel ""],
             indices ++ [if isRightNode then 0 else 1])
          else (proof, indices) in
        proofLoop fuel' (currentIndex / 2)%nat (nextLevel currentLevel) proof indices
      else (proof, indices)
  end.

Definition generateMerkleProof (index : nat) (this : t) : list string * list Z :=
  proofLoop (List.length (merkleTree this)) index (merkleTree this) [] [].

(** The [for] loop of [verifyMerkleProof]; an index that is missing is
    [undefined], which is not 1. *)
Fixpoint verifyMerkleProof (leaf : string) (proof : list string) (indices : list Z)
  : string :=
  match proof with
  | [] => leaf
  | sibling :: proof' =>
      let isRight := match indices with i :: _ => i =? 1 | [] => false end in
      let current :=
        if isRight then combined sibling leaf else combined leaf sibling in
      verifyMerkleProof current proof' (tl indices)
  end.

Definition verifyVoterEligibility (voterSecret : string) (merkleProof : list string)
    (merkleIndices : list Z) (this : t) : bool :=
  let voterHash := hashVoterCredentials voterSecret in
  let computedRoot := verifyMerkleProof voterHash merkleProof merkleIndices in
  bool_decide (computedRoot = merkleRoot this).

(** [now] is the reading of [Date.now()]. *)
Definition addEligibleVoter (now : Z) (voterSecret eligibilityProof : string) (this : t)
  : RegistryCredentials.t * t :=
  let voterHash := hashVoterCredentials voterSecret in
  let registration :=
    {| VoterRegistration.voterHash := voterHash;
       VoterRegistration.timestamp := now;
       VoterRegistration.eligibilityProof := eligibilityProof |} in
  let voterIndex := List.length (merkleTree this) in
  let this :=
    updateMerkleRoot
      {| voters := JsMap.set voterHash registration (voters this);
         merkleTree := merkleTree this ++ [voterHash];
         merkleRoot := merkleRoot this |} in
  let '(proof, indices) := generateMerkleProof voterIndex this in
  ({| RegistryCredentials.voterSecret := voterSecret;
      RegistryCredentials.voterIndex := Z.of_nat voterIndex;
      RegistryCredentials.merkleProof := proof;
      RegistryCredentials.merkleIndices := indices |}, this).

End VoterRegistry.

Module ParticipationEntry.
Record t : Type := mk { nullifier : string; timestamp : Z; proposalId : string }.
End ParticipationEntry.

Module ParticipationTracker.

Record t : Type := mk
  { usedNullifiers : gset string;
    participationLog : list ParticipationEntry.t }.

(** [new ParticipationTracker()]. *)
Definition new : t := {| usedNullifiers := ∅; participationLog := [] |}.

(** [now] is the reading of [Date.now()]. *)
Definition recordParticipation (now : Z) (nullifier proposalId : string) (this : t)
  : bool * t :=
  if bool_decide (nullifier ∈ usedNullifiers this) then (false, this)
  else
    (true,
     {| usedNullifiers := usedNullifiers this ∪ {[nullifier]};
        participationLog :=
          participationLog this ++
          [ {| ParticipationEntry.nullifier := nullifier;
               ParticipationEntry.timestamp := now;
               ParticipationEntry.proposalId := proposalId |} ] |}).

Record Stats : Type := mkStats
  { totalParticipants : Z;
    participationRate : Z;
    nullifiers : list string;
    timestamps : list Z }.

Definition getParticipationStats (proposalId : string) (this : t) : Stats :=
  let proposalParticipation :=
    filter (fun p => ParticipationEntry.proposalId p = proposalId)
           (participationLog this) in
  {| totalParticipants := Z.of_nat (List.length proposalParticipation);
     participationRate := 0;
     nullifiers := map ParticipationEntry.nullifier proposalParticipation;
     timestamps := map ParticipationEntry.timestamp proposalParticipation |}.

Definition verifyParticipation (nullifier : string) (this : t) : bool :=
  bool_decide (nullifier ∈ usedNullifiers this).

(** The tracker after a sequence of calls (clock, nullifier, proposal),
    with their results. *)
Fixpoint recordAll (calls : list (Z * string * string)) (this : t) : list bool * t :=
  match calls with
  | [] => ([], this)
  | (now, nullifier, proposalId) :: rest =>
      let '(r, this1) := recordParticipation now nullifier proposalId this in
      let '(rs, this2) := recordAll rest this1 in
      (r :: rs, this2)
  end.

End ParticipationTracker.

(* ===================================================================== *)
(** ** src/utils/performanceOptimizations.ts: the cache *)
(* ===================================================================== *)

Module CryptoPerformanceCache.

(** The static fields; [V] is the type of the cached proofs. *)
Record t (V : Type) : Type := mk
  { hashCache : JsMap.t string; proofCache : JsMap.t V }.
Arguments mk {V} hashCache proofCache.
Arguments hashCache {V} _.
Arguments proofCache {V} _.

Definition maxCacheSize : Z := 10000.

(** The class as loaded, and [clearCache]. *)
Definition initial {V : Type} : t V :=
  {| hashCache := JsMap.empty; proofCache := JsMap.empty |}.

(** [input.split('').reverse().join('')]. *)
Definition computeHash (input : string) : string :=
  string_of_list_ascii (rev (list_ascii_of_string input)).

(** The cache after making room: the key inserted first is deleted when
    the cache is full. *)
Definition makeRoom {A : Type} (cache : JsMap.t A) : JsMap.t A :=
  if maxCacheSize <=? Z.of_nat (JsMap.size cache) then
    match JsMap.firstKey cache with
    | Some firstKey => JsMap.delete firstKey cache
    | None => cache
    end
  else cache.

Definition getHashCached {V : Type} (input : string) (this : t V) : string * t V :=
  match JsMap.get input (hashCache this) with
  | Some cached => (cached, this)
  | None =>
      let hash := computeHash input in
      let cache := makeRoom (hashCache this) in
      (hash, {| hashCache := JsMap.set input hash cache;
                proofCache := proofCache this |})
  end.

(** [generator] is called when the key is not cached. *)
Definition getProofCached {V : Type} (key : string) (generator : unit → V) (this : t V)
  : V * t V :=
  match JsMap.get key (proofCache this) with
  | Some cached => (cached, this)
  | None =>
      let proof := generator tt in
      let cache := makeRoom (proofCache this) in
      (proof, {| hashCache := hashCache this;
                 proofCache := JsMap.set key proof cache |})
  end.

Definition clearCache {V : Type} (this : t V) : t V :=
  {| hashCache := JsMap.empty; proofCache := JsMap.empty |}.

Record CacheStats : Type := mkCacheStats
  { hashCacheSize : nat; proofCacheSize : nat }.

Definition getCacheStats {V : Type} (this : t V) : CacheStats :=
  {| hashCacheSize := JsMap.size (hashCache this);
     proofCacheSize := JsMap.size (proofCache this) |}.

(** The cache after a sequence of calls of [getHashCached], with their
    results. *)
Fixpoint getAllHashCached {V : Type} (inputs : list string) (this : t V)
  : list string * t V :=
  match inputs with
  | [] => ([], this)
  | input :: rest =>
      let '(h, this1) := getHashCached input this in
      let '(hs, this2) := getAllHashCached rest this1 in
      (h :: hs, this2)
  end.

(** The entries of the hash cache are hashes of their keys, its keys are
    pairwise different and it holds at most [maxCacheSize] of them. *)
Definition sound {V : Type} (this : t V) : Prop :=
  (∀ k v, JsMap.get k (hashCache this) = Some v → v = computeHash k)
  ∧ NoDup (JsMap.keys (hashCache this))
  ∧ Z.of_nat (JsMap.size (hashCache this)) ≤ maxCacheSize.

End CryptoPerformanceCache.

(* ===================================================================== *)
(** ** Tampering with a bundle, and the inputs of the scenarios *)
(* ===================================================================== *)

Module Tamper.

(** The digest fields of a bundle. *)
Inductive Field : Type :=
| Nullifier | NullifierProof | VoteCommitment | RangeProof | MembershipProof | Nonce.

(** [flipByte i mask s]: the string [s] with the bits [mask] of its
    character at position [i] flipped; the length is kept. *)
Fixpoint flipByte (i : nat) (mask : Z) (s : string) : string :=
  match s with
  | EmptyString => EmptyString
  | String c rest =>
      match i with
      | O => String (ascii_of_N (Z.to_N (Z.lxor (Z.of_N (N_of_ascii c)) mask mod 256))) rest
      | S i' => String c (flipByte i' mask rest)
      end
  end.

(** [{ ...bundle, field: flipped }]. *)
Definition tamper (f : Field) (i : nat) (mask : Z) (b : SecureNullifierProof.t)
  : SecureNullifierProof.t :=
  let flip := flipByte i mask in
  match f with
  | Nullifier =>
      SecureNullifierProof.mk
        (flip (SecureNullifierProof.nullifier b)) (SecureNullifierProof.nullifierProof b)
        (SecureNullifierProof.voteCommitment b) (SecureNullifierProof.rangeProof b)
        (SecureNullifierProof.membershipProof b) (SecureNullifierProof.timestamp b)
        (SecureNullifierProof.nonce b)
  | NullifierProof =>
      SecureNullifierProof.mk
        (SecureNullifierProof.nullifier b) (flip (SecureNullifierProof.nullifierProof b))
        (SecureNullifierProof.voteCommitment b) (SecureNullifierProof.rangeProof b)
        (SecureNullifierProof.membershipProof b) (SecureNullifierProof.timestamp b)
        (SecureNullifierProof.nonce b)
  | VoteCommitment =>
      SecureNullifierProof.mk
        (SecureNullifierProof.nullifier b) (SecureNullifierProof.nullifierProof b)
        (flip (SecureNullifierProof.voteCommitment b)) (SecureNullifierProof.rangeProof b)
        (SecureNullifierProof.membershipProof b) (SecureNullifierProof.timestamp b)
        (SecureNullifierProof.nonce b)
  | RangeProof =>
      SecureNullifierProof.mk
        (SecureNullifierProof.nullifier b) (SecureNullifierProof.nullifierProof b)
        (SecureNullifierProof.voteCommitment b) (flip (SecureNullifierProof.rangeProof b))
        (SecureNullifierProof.membershipProof b) (SecureNullifierProof.timestamp b)
        (SecureNullifierProof.nonce b)
  | MembershipProof =>
      SecureNullifierProof.mk
        (SecureNullifierProof.nullifier b) (SecureNullifierProof.nullifierProof b)
        (SecureNullifierProof.voteCommitment b) (SecureNullifierProof.rangeProof b)
        (flip (SecureNullifierProof.membershipProof b)) (SecureNullifierProof.timestamp b)
        (SecureNullifierProof.nonce b)
  | Nonce =>
      SecureNullifierProof.mk
        (SecureNullifierProof.nullifier b) (SecureNullifierProof.nullifierProof b)
        (SecureNullifierProof.voteCommitment b) (SecureNullifierProof.rangeProof b)
        (SecureNullifierProof.membershipProof b) (SecureNullifierProof.timestamp b)
        (flip (SecureNullifierProof.nonce b))
  end.

End Tamper.

Module Scenario.

(** A credential [C1], from three fixed draws of 32 random bytes. *)
Definition credentials : SecureVoterCredentials.t :=
  SecureCryptographicNullifier.generateSecureVoterCredentials
    (repeat 1 32) (repeat 2 32) (repeat 3 32).

(** The environments of the first and of the second vote on ["p1"], half
    a second apart, with fresh random bytes each. *)
Definition firstEnv : SecureCryptographicNullifier.Env :=
  SecureCryptographicNullifier.mkEnv (repeat 4 32) 1700000000000 (repeat 5 32).
Definition secondEnv : SecureCryptographicNullifier.Env :=
  SecureCryptographicNullifier.mkEnv (repeat 6 32) 1700000000500 (repeat 7 32).

(** The bundle of [generateSecureNullifier(C1, "p1", 1)] in [firstEnv]. *)
Definition firstBundle : SecureNullifierProof.t :=
  {| SecureNullifierProof.nullifier :=
       "8a73009efdf852dc2ddd1811b976fd0dda38aa4a6978a005c88052d90807a4ee";
     SecureNullifierProof.nullifierProof :=
       "896176bed7bbaa9344bb6ba29e37ffbf9dc1a86b5137314861554670e0394eb0";
     SecureNullifierProof.voteCommitment :=
       "4e230cdee11bec4bece96632f1c97311d35190cc670a239b4b965fb8344ab9b6";
     SecureNullifierProof.rangeProof :=
       "92db823fd7241e5ac135fb000411fc601889b016a8c7253616aec38e94aaafcb";
     SecureNullifierProof.membershipProof :=
       "01db96a5c96fa0193e6b834573c51471ffc21808275cbca7a2042443f5aae82a";
     SecureNullifierProof.timestamp := 1700000000000;
     SecureNullifierProof.nonce :=
       "0404040404040404040404040404040404040404040404040404040404040404" |}.

(** The bundle of [generateSecureNullifier(C1, "p1", 0)] in [secondEnv]. *)
Definition secondBundle : SecureNullifierProof.t :=
  {| SecureNullifierProof.nullifier :=
       "8672f7fb619bdb6d11749c21cc3c5dfecb5ff7436c5fa36a58e6a00c6eca008a";
     SecureNullifierProof.nullifierProof :=
       "aef53dd487dd4bcab8431b1aee5b64216ec200dff5612664cc430967b54f6b5e";
     SecureNullifierProof.voteCommitment :=
       "d6a6604196cfc1f7caeb6041f2311714460c4ca38b4d97e80add489766c509eb";
     SecureNullifierProof.rangeProof :=
       "2e3fc28e4875349241a1d05ea2129e58030364a24c17d5286b2e65d6645f76da";
     SecureNullifierProof.membershipProof :=
       "01db96a5c96fa0193e6b834573c51471ffc21808275cbca7a2042443f5aae82a";
     SecureNullifierProof.timestamp := 1700000000500;
     SecureNullifierProof.nonce :=
       "0606060606060606060606060606060606060606060606060606060606060606" |}.

(** [firstBundle] with the lowest bit of the first character of its
    nullifier flipped: the nullifier starts with 9 instead of 8. *)
Definition tamperedBundle : SecureNullifierProof.t :=
  Tamper.tamper Tamper.Nullifier 0 1 firstBundle.

(** A registry with a root that is not empty: the fields are private and
    a registry made by [new] never gets there, the verifier inside
    [addNullifier] needs it. *)
Definition seededRegistry : SecureNullifierRegistry.t :=
  {| SecureNullifierRegistry.nullifiers := JsMap.empty;
     SecureNullifierRegistry.merkleTree := [];
     SecureNullifierRegistry.registryRoot := "test_registry_root" |}.

(** Votes of one voter of [crossProposalDemo] and [basicDoubleVoteDemo]. *)
Definition bobOnProposal1 : VoteAttempt.t :=
  VoteAttempt.mk "proposal_1" "bob_secret_key_456" 1 1700000000000.
Definition bobOnProposal2 : VoteAttempt.t :=
  VoteAttempt.mk "proposal_2" "bob_secret_key_456" 0 1700000001000.
Definition bobAgainOnProposal1 : VoteAttempt.t :=
  VoteAttempt.mk "proposal_1" "bob_secret_key_456" 0 1700000005000.

(** A hash cache that is full: the decimal texts of 9999 down to 0 with
    their hashes, in this order. *)
Definition fullCache : CryptoPerformanceCache.t unit :=
  {| CryptoPerformanceCache.hashCache :=
       snd (Z.iter CryptoPerformanceCache.maxCacheSize
              (fun '(i, cache) =>
                 let input := JS.toString i in
                 (i + 1, (input, CryptoPerformanceCache.computeHash input) :: cache))
              (0, []));
     CryptoPerformanceCache.proofCache := JsMap.empty |}.

End Scenario.

(* ===================================================================== *)
(** * Properties *)
(* ===================================================================== *)

(** The test vectors of FIPS 180-4 for one block, no block and two blocks. *)
Example SHA256_abc :
  CryptoJS.toString (CryptoJS.SHA256 "abc")
  = "ba7816bf8f01cfea414140de5dae2223b00361a396177a9cb410ff61f20015ad".
Proof. vm_compute. reflexivity. Qed.

Example SHA256_empty :
  CryptoJS.toString (CryptoJS.SHA256 "")
  = "e3b0c44298fc1c149afbf4c8996fb92427ae41e4649b934ca495991b7852b855".
Proof. vm_compute. reflexivity. Qed.

Example SHA256_two_blocks :
  CryptoJS.toString
    (CryptoJS.SHA256 "abcdbcdecdefdefgefghfghighijhijkijkljklmklmnlmnomnopnopq")
  = "248d6a61d20638b8e5c026930c3e6039a33ce45964ff2167f6ecedd419db06c1".
Proof. vm_compute. reflexivity. Qed.

(** Every digest prints as 64 characters. *)
Lemma SHA256_toString_length (h : CryptoJS.Digest) :
  String.length (CryptoJS.toString h) = 64%nat.
Proof. destruct h. reflexivity. Qed.

(** The hash functions are evaluated by [vm_compute] on closed inputs only. *)
Arguments CryptoJS.SHA256 : simpl never.
Arguments CryptoJS.SHA256_bytes : simpl never.
Arguments CryptoJS.toString : simpl never.
Arguments DoubleVotePreventionSystem.generateNullifier : simpl never.
Arguments NullifierService.generateNullifier : simpl never.
Arguments NullifierService.formatTimeAgo : simpl never.

(** ** The insertion-ordered map *)

Section JsMapFacts.
Context {V : Type}.
Implicit Types (m : JsMap.t V) (k : string) (v : V).

Lemma JsMap_has_keys k m : JsMap.has k m = true ↔ k ∈ JsMap.keys m.
Proof.
  unfold JsMap.has, JsMap.keys.
  induction m as [|[k' v'] m IH]; simpl.
  - split; [discriminate | intros H; inversion H].
  - destruct (decide (k = k')) as [->|Hne].
    + split; [intros _; apply list_elem_of_here | reflexivity].
    + rewrite IH. split.
      * intros H. by apply list_elem_of_further.
      * intros H. apply elem_of_cons in H as [H|H]; [contradiction | exact H].
Qed.

Lemma JsMap_keys_set_fresh k v m :
  k ∉ JsMap.keys m → JsMap.keys (JsMap.set k v m) = JsMap.keys m ++ [k].
Proof.
  unfold JsMap.keys.
  induction m as [|[k' v'] m IH]; simpl; intros Hk; [reflexivity|].
  apply not_elem_of_cons in Hk as [Hne Hk].
  destruct (decide (k = k')) as [->|_]; [contradiction|].
  simpl. by rewrite IH.
Qed.

Lemma JsMap_keys_set_present k v m :
  k ∈ JsMap.keys m → JsMap.keys (JsMap.set k v m) = JsMap.keys m.
Proof.
  unfold JsMap.keys.
  induction m as [|[k' v'] m IH]; simpl; intros Hk; [inversion Hk|].
  destruct (decide (k = k')) as [->|Hne]; [reflexivity|].
  simpl. f_equal. apply IH.
  apply elem_of_cons in Hk as [Hk|Hk]; [contradiction | exact Hk].
Qed.

Lemma JsMap_keys_set_NoDup k v m :
  NoDup (JsMap.keys m) → NoDup (JsMap.keys (JsMap.set k v m)).
Proof.
  intros Hnd. destruct (decide (k ∈ JsMap.keys m)) as [Hin|Hout].
  - by rewrite JsMap_keys_set_present.
  - rewrite JsMap_keys_set_fresh by exact Hout.
    apply NoDup_app. split; [exact Hnd|]. split.
    + intros x Hx Hx'. apply list_elem_of_singleton in Hx'. by subst.
    + apply NoDup_singleton.
Qed.

Lemma JsMap_get_set_eq k v m : JsMap.get k (JsMap.set k v m) = Some v.
Proof.
  induction m as [|[k' v'] m IH]; simpl.
  - by rewrite decide_True.
  - destruct (decide (k = k')) as [->|Hne]; simpl.
    + by rewrite decide_True.
    + by rewrite decide_False.
Qed.

End JsMapFacts.

(** ** The ledger of [DoubleVotePreventionSystem] *)

Module DoubleVoteFacts.
Import DoubleVotePreventionSystem.

Lemma consistent_new : consistent new.
Proof.
  split; [|apply NoDup_nil_2].
  intros n. unfold new, historyNullifiers; simpl. rewrite lookup_empty. split.
  - intros [x Hx]. discriminate.
  - intros H. inversion H.
Qed.

(** The two outcomes of [attemptVote]. *)
Lemma attemptVote_rejected a this existing :
  usedNullifiers this
    !! generateNullifier (VoteAttempt.voterSecret a) (VoteAttempt.proposalId a)
    = Some existing →
  attemptVote a this =
    ({| VoteResult.success := false;
        VoteResult.nullifier :=
          generateNullifier (VoteAttempt.voterSecret a) (VoteAttempt.proposalId a);
        VoteResult.reason := Some "Double voting detected";
        VoteResult.previousVote := Some existing |}, this).
Proof. intros H. unfold attemptVote. by rewrite H. Qed.

Lemma attemptVote_success_iff a this :
  VoteResult.success (fst (attemptVote a this)) = true ↔
  usedNullifiers this
    !! generateNullifier (VoteAttempt.voterSecret a) (VoteAttempt.proposalId a)
    = None.
Proof.
  unfold attemptVote.
  destruct (usedNullifiers this !! _) as [existing|]; simpl; split; congruence.
Qed.

Lemma attemptVote_result_nullifier a this :
  VoteResult.nullifier (fst (attemptVote a this)) =
  generateNullifier (VoteAttempt.voterSecret a) (VoteAttempt.proposalId a).
Proof. unfold attemptVote. by destruct (usedNullifiers this !! _). Qed.

(** An accepted submission leaves its nullifier in the map. *)
Lemma attemptVote_records a this :
  is_Some (usedNullifiers (snd (attemptVote a this))
    !! generateNullifier (VoteAttempt.voterSecret a) (VoteAttempt.proposalId a)).
Proof.
  unfold attemptVote.
  destruct (usedNullifiers this !! _) as [existing|] eqn:E; simpl.
  - rewrite E. by eexists.
  - rewrite lookup_insert_eq. by eexists.
Qed.

(** No call removes a nullifier from the map. *)
Lemma attemptVote_keeps a this n :
  is_Some (usedNullifiers this !! n) →
  is_Some (usedNullifiers (snd (attemptVote a this)) !! n).
Proof.
  intros Hn. unfold attemptVote.
  destruct (usedNullifiers this !! generateNullifier _ _) as [existing|] eqn:E;
    simpl; [exact Hn|].
  rewrite lookup_insert. case_decide; [by eexists | exact Hn].
Qed.

(** A call leaves the other nullifiers as they are. *)
Lemma attemptVote_other a this n :
  n ≠ generateNullifier (VoteAttempt.voterSecret a) (VoteAttempt.proposalId a) →
  usedNullifiers (snd (attemptVote a this)) !! n = usedNullifiers this !! n.
Proof.
  intros Hn. unfold attemptVote.
  destruct (usedNullifiers this !! generateNullifier _ _) as [existing|] eqn:E;
    cbn [snd usedNullifiers]; [reflexivity|].
  apply lookup_insert_ne. congruence.
Qed.

Lemma attemptVotes_keeps attempts this n :
  is_Some (usedNullifiers this !! n) →
  is_Some (usedNullifiers (snd (attemptVotes attempts this)) !! n).
Proof.
  revert this. induction attempts as [|a rest IH]; intros this Hn; simpl; [exact Hn|].
  pose proof (attemptVote_keeps a this n Hn) as H1.
  destruct (attemptVote a this) as [r this1]; simpl in H1.
  specialize (IH this1 H1).
  destruct (attemptVotes rest this1) as [rs this2]; simpl in *. exact IH.
Qed.

Lemma attemptVote_consistent a this :
  consistent this → consistent (snd (attemptVote a this)).
Proof.
  intros [Hmap Hnd]. unfold attemptVote.
  destruct (usedNullifiers this !! generateNullifier _ _) as [existing|] eqn:E;
    simpl; [by split|].
  set (n0 := generateNullifier _ _) in *.
  assert (n0 ∉ historyNullifiers this) as Hfresh.
  { intros Hin. apply Hmap in Hin as [x Hx]. congruence. }
  split.
  - intros n. unfold historyNullifiers; simpl.
    rewrite map_app, elem_of_app; simpl. rewrite list_elem_of_singleton.
    rewrite lookup_insert. case_decide as Hn.
    + subst. split; [intros _; by right | intros _; by eexists].
    + rewrite Hmap. unfold historyNullifiers. split; [by left|].
      intros [H|H]; [exact H | congruence].
  - unfold historyNullifiers; simpl. rewrite map_app; simpl.
    apply NoDup_app. split; [exact Hnd|]. split.
    + intros x Hx Hx'. apply list_elem_of_singleton in Hx'. subst.
      by apply Hfresh.
    + apply NoDup_singleton.
Qed.

Lemma attemptVotes_consistent attempts this :
  consistent this → consistent (snd (attemptVotes attempts this)).
Proof.
  revert this. induction attempts as [|a rest IH]; intros this Hc; simpl; [exact Hc|].
  pose proof (attemptVote_consistent a this Hc) as H1.
  destruct (attemptVote a this) as [r this1]; simpl in H1.
  specialize (IH this1 H1).
  destruct (attemptVotes rest this1) as [rs this2]; simpl in *. exact IH.
Qed.

End DoubleVoteFacts.

(** ** The verifier of [SecureCryptographicNullifier] *)

Module VerifierFacts.
Import SecureCryptographicNullifier.

(** The verifier accepts exactly when its four checks pass. *)
Lemma verifyNullifierProof_true_iff currentTime b proposalId root :
  verifyNullifierProof currentTime b proposalId root = true ↔
    verifyRangeProof (SecureNullifierProof.rangeProof b)
                     (SecureNullifierProof.voteCommitment b) = true
    ∧ verifyMembershipProof (SecureNullifierProof.membershipProof b) root = true
    ∧ verifyNullifierStructure b = true
    ∧ Z.abs (currentTime - SecureNullifierProof.timestamp b) <= 3600000.
Proof.
  unfold verifyNullifierProof.
  destruct (verifyRangeProof _ _); simpl; [|intuition discriminate].
  destruct (verifyMembershipProof _ _); simpl; [|intuition discriminate].
  destruct (verifyNullifierStructure b); simpl; [|intuition discriminate].
  destruct (Z.ltb_spec 3600000 (Z.abs (currentTime - SecureNullifierProof.timestamp b)));
    split; try discriminate.
  - intros (_ & _ & _ & H'). lia.
  - intros _. repeat split. lia.
  - reflexivity.
Qed.

(** With an empty registry root the membership check fails. *)
Lemma verifyNullifierProof_empty_root currentTime b proposalId :
  verifyNullifierProof currentTime b proposalId "" = false.
Proof.
  apply not_true_is_false. rewrite verifyNullifierProof_true_iff.
  intros (_ & Hm & _). unfold verifyMembershipProof in Hm.
  simpl in Hm. rewrite andb_false_r in Hm. discriminate.
Qed.

(** The proposal plays no part in the verdict, and of the root only
    whether it is empty. *)
Lemma verifyNullifierProof_proposal_irrelevant currentTime b p p' root root' :
  (root = "" ↔ root' = "") →
  verifyNullifierProof currentTime b p root = verifyNullifierProof currentTime b p' root'.
Proof.
  intros Hroot. unfold verifyNullifierProof, verifyMembershipProof.
  assert ((0 <? String.length root)%nat = (0 <? String.length root')%nat) as ->;
    [|reflexivity].
  destruct root as [|c r], root' as [|c' r']; simpl; try reflexivity.
  - destruct Hroot as [H _]. specialize (H eq_refl). discriminate.
  - destruct Hroot as [_ H]. specialize (H eq_refl). discriminate.
Qed.

(** The trace version returns the verdict of the verifier. *)
Lemma trace_verdict currentTime b proposalId root :
  snd (VerifierTrace.verifyNullifierProof currentTime b proposalId root) =
  verifyNullifierProof currentTime b proposalId root.
Proof.
  unfold VerifierTrace.verifyNullifierProof, verifyNullifierProof.
  repeat (match goal with |- context [if ?c then _ else _] => destruct c end;
          simpl; try reflexivity).
Qed.

End VerifierFacts.

(** ** The registry of accepted bundles *)

Module RegistryFacts.
Import SecureNullifierRegistry.

(** [addNullifier] inserts when the verifier accepts and the nullifier is
    not a key yet; otherwise it returns [false] and the same registry. *)
Lemma addNullifier_unfold currentTime b proposalId this :
  addNullifier currentTime b proposalId this =
    if SecureCryptographicNullifier.verifyNullifierProof
         currentTime b proposalId (registryRoot this)
       && negb (bool_decide (SecureNullifierProof.nullifier b ∈ JsMap.keys (nullifiers this)))
    then (true, inserted b this)
    else (false, this).
Proof.
  unfold addNullifier, SecureCryptographicNullifier.checkNullifierUniqueness; simpl.
  destruct (SecureCryptographicNullifier.verifyNullifierProof _ _ _ _); simpl;
    [|reflexivity].
  rewrite (bool_decide_ext _ (SecureNullifierProof.nullifier b ∈ JsMap.keys (nullifiers this)))
    by apply elem_of_list_to_set.
  by destruct (bool_decide _).
Qed.

Lemma addNullifier_false currentTime b proposalId this :
  fst (addNullifier currentTime b proposalId this) = false →
  addNullifier currentTime b proposalId this = (false, this).
Proof.
  rewrite addNullifier_unfold.
  by destruct (_ && _).
Qed.

Lemma addNullifier_true currentTime b proposalId this :
  fst (addNullifier currentTime b proposalId this) = true →
  SecureCryptographicNullifier.verifyNullifierProof
    currentTime b proposalId (registryRoot this) = true
  ∧ (SecureNullifierProof.nullifier b ∉ JsMap.keys (nullifiers this))
  ∧ addNullifier currentTime b proposalId this = (true, inserted b this).
Proof.
  rewrite addNullifier_unfold.
  destruct (SecureCryptographicNullifier.verifyNullifierProof _ _ _ _); simpl;
    [|discriminate].
  case_bool_decide as Hin; simpl; [discriminate|]. by intros _.
Qed.

Lemma addNullifier_present currentTime b proposalId this :
  SecureNullifierProof.nullifier b ∈ JsMap.keys (nullifiers this) →
  addNullifier currentTime b proposalId this = (false, this).
Proof.
  intros Hin. rewrite addNullifier_unfold.
  rewrite (bool_decide_eq_true_2 _ Hin). simpl. by rewrite andb_false_r.
Qed.

Lemma addNullifier_empty_root currentTime b proposalId this :
  registryRoot this = "" →
  addNullifier currentTime b proposalId this = (false, this).
Proof.
  intros Hroot. rewrite addNullifier_unfold, Hroot.
  by rewrite VerifierFacts.verifyNullifierProof_empty_root.
Qed.

Lemma inserted_keys b this :
  SecureNullifierProof.nullifier b ∈ JsMap.keys (nullifiers (inserted b this)).
Proof.
  unfold inserted, updateMerkleTree; simpl.
  apply JsMap_has_keys. unfold JsMap.has. by rewrite JsMap_get_set_eq.
Qed.

Lemma addNullifier_keeps currentTime b proposalId this n :
  n ∈ JsMap.keys (nullifiers this) →
  n ∈ JsMap.keys (nullifiers (snd (addNullifier currentTime b proposalId this))).
Proof.
  intros Hn. rewrite addNullifier_unfold.
  destruct (SecureCryptographicNullifier.verifyNullifierProof _ _ _ _); simpl;
    [|exact Hn].
  case_bool_decide as Hin; simpl; [exact Hn|].
  rewrite JsMap_keys_set_fresh by exact Hin. apply elem_of_app. by left.
Qed.

Lemma addNullifiers_keeps submissions this n :
  n ∈ JsMap.keys (nullifiers this) →
  n ∈ JsMap.keys (nullifiers (snd (addNullifiers submissions this))).
Proof.
  revert this.
  induction submissions as [|[[currentTime b] proposalId] rest IH];
    intros this Hn; simpl; [exact Hn|].
  pose proof (addNullifier_keeps currentTime b proposalId this n Hn) as H1.
  destruct (addNullifier currentTime b proposalId this) as [r this1]; simpl in H1.
  specialize (IH this1 H1).
  destruct (addNullifiers rest this1) as [rs this2]; simpl in *. exact IH.
Qed.

Lemma addNullifier_NoDup currentTime b proposalId this :
  NoDup (JsMap.keys (nullifiers this)) →
  NoDup (JsMap.keys (nullifiers (snd (addNullifier currentTime b proposalId this)))).
Proof.
  intros Hnd. rewrite addNullifier_unfold.
  destruct (_ && _); simpl; [|exact Hnd].
  by apply JsMap_keys_set_NoDup.
Qed.

Lemma addNullifiers_NoDup submissions this :
  NoDup (JsMap.keys (nullifiers this)) →
  NoDup (JsMap.keys (nullifiers (snd (addNullifiers submissions this)))).
Proof.
  revert this.
  induction submissions as [|[[currentTime b] proposalId] rest IH];
    intros this Hnd; simpl; [exact Hnd|].
  pose proof (addNullifier_NoDup currentTime b proposalId this Hnd) as H1.
  destruct (addNullifier currentTime b proposalId this) as [r this1]; simpl in H1.
  specialize (IH this1 H1).
  destruct (addNullifiers rest this1) as [rs this2]; simpl in *. exact IH.
Qed.

(** A registry whose root is empty accepts nothing and stays as it is; the
    registry made by [new] is one. *)
Lemma addNullifiers_empty_root submissions this :
  registryRoot this = "" →
  addNullifiers submissions this =
    (repeat false (List.length submissions), this).
Proof.
  intros Hroot.
  induction submissions as [|[[currentTime b] proposalId] rest IH]; simpl;
    [reflexivity|].
  rewrite addNullifier_empty_root by exact Hroot. by rewrite IH.
Qed.

(** [computeMerkleRoot] never runs out of levels. *)
Lemma nextLevel_length leaves :
  (2 * List.length (nextLevel leaves) <= List.length leaves + 1)%nat
  ∧ ∀ leaf, (2 * List.length (nextLevel (leaf :: leaves))
               <= List.length (leaf :: leaves) + 1)%nat.
Proof.
  induction leaves as [|next rest [IH1 IH2]]; simpl.
  - split; [lia | intros _; simpl; lia].
  - split; [exact (IH2 next)|].
    intros leaf. simpl. lia.
Qed.

Lemma computeMerkleRootFuel_enough fuel leaves :
  (List.length leaves <= S fuel)%nat →
  is_Some (computeMerkleRootFuel fuel leaves).
Proof.
  revert leaves. induction fuel as [|fuel IH]; intros leaves Hlen.
  - destruct leaves as [|a [|b rest]]; simpl in *; [by eexists | by eexists | lia].
  - destruct leaves as [|a [|b rest]]; [by eexists | by eexists |].
    change (is_Some (computeMerkleRootFuel fuel (nextLevel (a :: b :: rest)))).
    apply IH.
    destruct (nextLevel_length (b :: rest)) as [_ H]. specialize (H a).
    simpl in *. lia.
Qed.

Lemma computeMerkleRoot_total leaves :
  computeMerkleRootFuel (List.length leaves) leaves = Some (computeMerkleRoot leaves).
Proof.
  unfold computeMerkleRoot.
  destruct (computeMerkleRootFuel_enough (List.length leaves) leaves) as [root ->];
    [lia | reflexivity].
Qed.

End RegistryFacts.

(** ** Strings *)

Lemma string_length_app (s1 s2 : string) :
  String.length (s1 +:+ s2) = (String.length s1 + String.length s2)%nat.
Proof. induction s1 as [|c s1 IH]; simpl; [reflexivity | by rewrite IH]. Qed.

Lemma string_app_inv_tail (s1 s2 t : string) : s1 +:+ t = s2 +:+ t → s1 = s2.
Proof.
  revert s2. induction s1 as [|c s1 IH]; intros [|c' s2] H; simpl in H.
  - reflexivity.
  - apply (f_equal String.length) in H.
    rewrite !string_length_app in H. simpl in H. lia.
  - apply (f_equal String.length) in H.
    rewrite !string_length_app in H. simpl in H. lia.
  - injection H as -> H. f_equal. by apply IH.
Qed.

(** The text hashed for a nullifier determines the proposal. *)
Lemma nullifierInput_proposal_inj (voterSecret p1 p2 : string) :
  DoubleVotePreventionSystem.nullifierInput voterSecret p1 =
  DoubleVotePreventionSystem.nullifierInput voterSecret p2 → p1 = p2.
Proof.
  unfold DoubleVotePreventionSystem.nullifierInput. intros H.
  apply String.app_inj in H. apply String.app_inj in H.
  by apply string_app_inv_tail in H.
Qed.

(** ** Bundles made by [generateSecureNullifier] *)

Module GeneratorFacts.
Import SecureCryptographicNullifier.

Lemma modularReduction_length value modulus :
  String.length (modularReduction value modulus) = 64%nat.
Proof. unfold modularReduction. destruct (CryptoJS.SHA256 value). reflexivity. Qed.

Lemma poseidonHash_length inputs : String.length (poseidonHash inputs) = 64%nat.
Proof. unfold poseidonHash. cbv zeta. apply modularReduction_length. Qed.

Lemma pedersenCommit_length value blindingFactor :
  String.length (pedersenCommit value blindingFactor) = 64%nat.
Proof. unfold pedersenCommit. cbv zeta. apply SHA256_toString_length. Qed.

Lemma generateSecureRandom_length array :
  String.length (generateSecureRandom array) = (2 * List.length array)%nat.
Proof.
  unfold generateSecureRandom.
  induction array as [|byte [|next rest] IH]; [reflexivity | reflexivity |].
  change (String.length
            (JS.hexByte byte +:+ "" +:+ JS.join "" (map JS.hexByte (next :: rest)))
          = (2 * S (List.length (next :: rest)))%nat).
  rewrite !string_length_app, IH. simpl. lia.
Qed.

(** A bundle made from 32 bytes of nonce at a positive clock reading passes
    the verifier within the hour, for every proposal and every root that
    is not empty. *)
Lemma generated_bundle_verifies credentials proposalId voteChoice env b
    currentTime otherProposal root :
  generateSecureNullifier credentials proposalId voteChoice env = Ok b →
  List.length (nonceBytes env) = 32%nat →
  0 < now env →
  root ≠ "" →
  Z.abs (currentTime - now env) <= 3600000 →
  verifyNullifierProof currentTime b otherProposal root = true.
Proof.
  intros Hgen Hnonce Hnow Hroot Hfresh.
  unfold generateSecureNullifier in Hgen.
  destruct (negb (voteChoice =? 0) && negb (voteChoice =? 1)); [discriminate|].
  injection Hgen as <-.
  apply VerifierFacts.verifyNullifierProof_true_iff.
  unfold verifyRangeProof, verifyMembershipProof, verifyNullifierStructure.
  cbn [SecureNullifierProof.nullifier SecureNullifierProof.nullifierProof
       SecureNullifierProof.voteCommitment SecureNullifierProof.rangeProof
       SecureNullifierProof.membershipProof SecureNullifierProof.timestamp
       SecureNullifierProof.nonce].
  unfold generateNullifierProof, generateRangeProof, generateMembershipProof.
  rewrite !poseidonHash_length, !pedersenCommit_length,
    generateSecureRandom_length, Hnonce.
  assert ((0 <? String.length root)%nat = true) as ->.
  { destruct root; [contradiction | reflexivity]. }
  assert ((0 <? now env) = true) as -> by (apply Z.ltb_lt; exact Hnow).
  split; [reflexivity|]. split; [reflexivity|]. split; [reflexivity | exact Hfresh].
Qed.

End GeneratorFacts.

(** ** Tampering *)

Lemma flipByte_length (i : nat) (mask : Z) (s : string) :
  String.length (Tamper.flipByte i mask s) = String.length s.
Proof.
  revert i. induction s as [|c s IH]; intros [|i]; simpl; try reflexivity.
  by rewrite IH.
Qed.

(** The checks read the lengths of the digest fields only, so a flipped
    byte leaves each of them as it was. *)
Lemma tamper_checks (f : Tamper.Field) (i : nat) (mask : Z)
    (b : SecureNullifierProof.t) (root : string) :
  SecureCryptographicNullifier.verifyRangeProof
    (SecureNullifierProof.rangeProof (Tamper.tamper f i mask b))
    (SecureNullifierProof.voteCommitment (Tamper.tamper f i mask b))
  = SecureCryptographicNullifier.verifyRangeProof
      (SecureNullifierProof.rangeProof b) (SecureNullifierProof.voteCommitment b)
  ∧ SecureCryptographicNullifier.verifyMembershipProof
      (SecureNullifierProof.membershipProof (Tamper.tamper f i mask b)) root
    = SecureCryptographicNullifier.verifyMembershipProof
        (SecureNullifierProof.membershipProof b) root
  ∧ SecureCryptographicNullifier.verifyNullifierStructure (Tamper.tamper f i mask b)
    = SecureCryptographicNullifier.verifyNullifierStructure b
  ∧ SecureNullifierProof.timestamp (Tamper.tamper f i mask b)
    = SecureNullifierProof.timestamp b.
Proof.
  unfold SecureCryptographicNullifier.verifyRangeProof,
    SecureCryptographicNullifier.verifyMembershipProof,
    SecureCryptographicNullifier.verifyNullifierStructure.
  destruct f; cbn [Tamper.tamper SecureNullifierProof.nullifier
    SecureNullifierProof.nullifierProof SecureNullifierProof.voteCommitment
    SecureNullifierProof.rangeProof SecureNullifierProof.membershipProof
    SecureNullifierProof.timestamp SecureNullifierProof.nonce];
    rewrite ?flipByte_length; repeat split; reflexivity.
Qed.

(* ===================================================================== *)
(** * The properties of the specification *)
(* ===================================================================== *)

(** C1 -- At most once per scope.  For every sequence of submissions the
    ledger never holds two accepted entries with the same nullifier (hence
    none with the same nullifier and the same proposal), and once a
    submission has been accepted every later submission with that nullifier
    is rejected as a double vote and the ledger stays as it is.  This holds
    for [DoubleVotePreventionSystem.attemptVote], where the nullifiers of
    the history are pairwise distinct and a repeated one is answered with
    the reason "Double voting detected", and for
    [SecureNullifierRegistry.addNullifier], where the keys of the map stay
    pairwise distinct and a repeated one is answered with [false]. *)
Theorem at_most_once_per_scope :
  (∀ attempts : list VoteAttempt.t,
     NoDup (DoubleVotePreventionSystem.historyNullifiers
              (snd (DoubleVotePreventionSystem.attemptVotes
                      attempts DoubleVotePreventionSystem.new))))
  ∧ (∀ (this : DoubleVotePreventionSystem.t) (first again : VoteAttempt.t)
       (between : list VoteAttempt.t),
       VoteResult.success (fst (DoubleVotePreventionSystem.attemptVote first this)) = true →
       DoubleVotePreventionSystem.generateNullifier
         (VoteAttempt.voterSecret again) (VoteAttempt.proposalId again) =
       DoubleVotePreventionSystem.generateNullifier
         (VoteAttempt.voterSecret first) (VoteAttempt.proposalId first) →
       let ledger :=
         snd (DoubleVotePreventionSystem.attemptVotes between
                (snd (DoubleVotePreventionSystem.attemptVote first this))) in
       VoteResult.success (fst (DoubleVotePreventionSystem.attemptVote again ledger)) = false
       ∧ VoteResult.reason (fst (DoubleVotePreventionSystem.attemptVote again ledger))
         = Some "Double voting detected"
       ∧ snd (DoubleVotePreventionSystem.attemptVote again ledger) = ledger)
  ∧ (∀ (this : SecureNullifierRegistry.t)
       (submissions : list SecureNullifierRegistry.Submission),
       NoDup (JsMap.keys (SecureNullifierRegistry.nullifiers this)) →
       NoDup (JsMap.keys (SecureNullifierRegistry.nullifiers
                (snd (SecureNullifierRegistry.addNullifiers submissions this)))))
  ∧ (∀ (this : SecureNullifierRegistry.t) (t1 t2 : Z)
       (first again : SecureNullifierProof.t) (p1 p2 : string)
       (between : list SecureNullifierRegistry.Submission),
       fst (SecureNullifierRegistry.addNullifier t1 first p1 this) = true →
       SecureNullifierProof.nullifier again = SecureNullifierProof.nullifier first →
       let registry :=
         snd (SecureNullifierRegistry.addNullifiers between
                (snd (SecureNullifierRegistry.addNullifier t1 first p1 this))) in
       SecureNullifierRegistry.addNullifier t2 again p2 registry = (false, registry)).
Proof.
  split; [|split; [|split]].
  - intros attempts.
    apply (DoubleVoteFacts.attemptVotes_consistent attempts),
          DoubleVoteFacts.consistent_new.
  - intros this first again between _ Heq ledger.
    assert (is_Some (DoubleVotePreventionSystem.usedNullifiers ledger
              !! DoubleVotePreventionSystem.generateNullifier
                   (VoteAttempt.voterSecret again) (VoteAttempt.proposalId again)))
      as [existing Hexisting].
    { rewrite Heq. apply DoubleVoteFacts.attemptVotes_keeps,
        DoubleVoteFacts.attemptVote_records. }
    by rewrite (DoubleVoteFacts.attemptVote_rejected _ _ _ Hexisting).
  - intros this submissions. apply RegistryFacts.addNullifiers_NoDup.
  - intros this t1 t2 first again p1 p2 between Haccepted Heq registry.
    apply RegistryFacts.addNullifier_present. rewrite Heq.
    apply RegistryFacts.addNullifiers_keeps.
    apply RegistryFacts.addNullifier_true in Haccepted as (_ & _ & ->).
    apply RegistryFacts.inserted_keys.
Qed.

(** A run of each ledger in which the hypotheses of C1 hold: a voter votes
    on two proposals and tries the first again; a bundle is accepted by a
    registry with a root and replayed after another bundle. *)
Lemma at_most_once_per_scope_witness :
  (let ledger :=
     snd (DoubleVotePreventionSystem.attemptVotes [Scenario.bobOnProposal2]
            (snd (DoubleVotePreventionSystem.attemptVote
                    Scenario.bobOnProposal1 DoubleVotePreventionSystem.new))) in
   VoteResult.success
     (fst (DoubleVotePreventionSystem.attemptVote Scenario.bobAgainOnProposal1 ledger))
     = false
   ∧ VoteResult.reason
       (fst (DoubleVotePreventionSystem.attemptVote Scenario.bobAgainOnProposal1 ledger))
     = Some "Double voting detected"
   ∧ snd (DoubleVotePreventionSystem.attemptVote Scenario.bobAgainOnProposal1 ledger)
     = ledger)
  ∧ (let registry :=
       snd (SecureNullifierRegistry.addNullifiers
              [(1700000000501, Scenario.secondBundle, "p1")]
              (snd (SecureNullifierRegistry.addNullifier
                      1700000000001 Scenario.firstBundle "p1" Scenario.seededRegistry))) in
     SecureNullifierRegistry.addNullifier 1700000000900 Scenario.firstBundle "p1" registry
     = (false, registry)).
Proof.
  destruct at_most_once_per_scope as (_ & Hvote & _ & Hregistry).
  split.
  - apply (Hvote DoubleVotePreventionSystem.new
             Scenario.bobOnProposal1 Scenario.bobAgainOnProposal1
             [Scenario.bobOnProposal2]).
    + vm_compute. reflexivity.
    + vm_compute. reflexivity.
  - apply (Hregistry Scenario.seededRegistry 1700000000001 1700000000900
             Scenario.firstBundle Scenario.firstBundle "p1" "p1"
             [(1700000000501, Scenario.secondBundle, "p1")]).
    + vm_compute. reflexivity.
    + reflexivity.
Defined.

(** C10 -- Atomicity of rejection.  Whenever a submission is rejected, by
    [attemptVote] finding the nullifier in the map or by [addNullifier]
    failing the verification or the uniqueness check, the state after the
    call (the map of used nullifiers and the history; the map, the Merkle
    tree and the root of the registry) is the state before it. *)
Theorem rejection_leaves_ledger_unchanged :
  (∀ (a : VoteAttempt.t) (this : DoubleVotePreventionSystem.t),
     VoteResult.success (fst (DoubleVotePreventionSystem.attemptVote a this)) = false →
     snd (DoubleVotePreventionSystem.attemptVote a this) = this)
  ∧ (∀ (currentTime : Z) (b : SecureNullifierProof.t) (proposalId : string)
       (this : SecureNullifierRegistry.t),
       fst (SecureNullifierRegistry.addNullifier currentTime b proposalId this) = false →
       snd (SecureNullifierRegistry.addNullifier currentTime b proposalId this) = this).
Proof.
  split.
  - intros a this. unfold DoubleVotePreventionSystem.attemptVote.
    destruct (DoubleVotePreventionSystem.usedNullifiers this !! _); simpl;
      [reflexivity | discriminate].
  - intros currentTime b proposalId this H.
    by rewrite (RegistryFacts.addNullifier_false _ _ _ _ H).
Qed.

(** A rejected vote and a rejected bundle: the second vote of a voter on a
    proposal, and a bundle whose membership proof has been cut short. *)
Lemma rejection_leaves_ledger_unchanged_witness :
  (let ledger :=
     snd (DoubleVotePreventionSystem.attemptVote
            Scenario.bobOnProposal1 DoubleVotePreventionSystem.new) in
   snd (DoubleVotePreventionSystem.attemptVote Scenario.bobAgainOnProposal1 ledger)
   = ledger)
  ∧ (let registry :=
       snd (SecureNullifierRegistry.addNullifier
              1700000000001 Scenario.firstBundle "p1" Scenario.seededRegistry) in
     snd (SecureNullifierRegistry.addNullifier
            1700000000002 Scenario.firstBundle "p1" registry) = registry
     ∧ snd (SecureNullifierRegistry.addNullifier
              1700000000002 Scenario.secondBundle "p1" SecureNullifierRegistry.new)
       = SecureNullifierRegistry.new).
Proof.
  destruct rejection_leaves_ledger_unchanged as (Hvote & Hregistry).
  split; [|split].
  - apply Hvote. vm_compute. reflexivity.
  - apply Hregistry. vm_compute. reflexivity.
  - apply Hregistry. vm_compute. reflexivity.
Defined.

(** C3 -- Cross-scope independence fails on texts with a colon.  The
    nullifier is the hash of [voterSecret:proposalId:salt], so the voter
    "alice:2024" on proposal "budget" and the voter "alice" on proposal
    "2024:budget" share one nullifier.  On a new ledger, after the first of
    them has voted, the voter "alice" is accepted on proposal "roadmap"
    and then refused on the different proposal "2024:budget" as a double
    vote, although the ledger holds no record for that proposal; the
    refused vote adds no record to the history. *)
Theorem cross_scope_separator_collision :
  let other := VoteAttempt.mk "budget" "alice:2024" 1 1700000000000 in
  let voteA := VoteAttempt.mk "roadmap" "alice" 1 1700000001000 in
  let voteB := VoteAttempt.mk "2024:budget" "alice" 0 1700000002000 in
  let afterOther :=
    DoubleVotePreventionSystem.attemptVote other DoubleVotePreventionSystem.new in
  let afterA := DoubleVotePreventionSystem.attemptVote voteA (snd afterOther) in
  let afterB := DoubleVotePreventionSystem.attemptVote voteB (snd afterA) in
  VoteResult.success (fst afterOther) = true
  ∧ VoteResult.success (fst afterA) = true
  ∧ DoubleVotePreventionSystem.getProposalNullifiers "2024:budget" (snd afterA) = []
  ∧ VoteResult.success (fst afterB) = false
  ∧ VoteResult.reason (fst afterB) = Some "Double voting detected"
  ∧ VoteResult.nullifier (fst afterB) = VoteResult.nullifier (fst afterOther)
  ∧ VoteResult.nullifier (fst afterB) ≠ VoteResult.nullifier (fst afterA)
  ∧ DoubleVotePreventionSystem.nullifierHistory (snd afterB)
    = DoubleVotePreventionSystem.nullifierHistory (snd afterA).
Proof. vm_compute. repeat split. discriminate. Qed.

(** C9 -- Vote-status query.  For every ledger, voter secret and proposal,
    [getVoteStatus] answers "already-voted" exactly when the nullifier that
    [generateNullifier] derives from them is a key of the map of used
    nullifiers, and "can-vote" exactly when it is not; the ledger after the
    query is the ledger before it. *)
Theorem vote_status_query_correct :
  ∀ (now : Z) (voterSecret proposalId : string) (this : NullifierService.t),
    let nullifier := NullifierService.generateNullifier voterSecret proposalId in
    let answer := NullifierService.getVoteStatus now voterSecret proposalId this in
    (VoteStatus.status_of (fst answer) = VoteStatus.already_voted
       ↔ is_Some (NullifierService.usedNullifiers this !! nullifier))
    ∧ (VoteStatus.status_of (fst answer) = VoteStatus.can_vote
       ↔ NullifierService.usedNullifiers this !! nullifier = None)
    ∧ snd answer = this.
Proof.
  intros now voterSecret proposalId this nullifier answer. subst answer.
  unfold NullifierService.getVoteStatus, NullifierService.checkVoteEligibility.
  fold nullifier.
  destruct (NullifierService.usedNullifiers this !! nullifier) as [record|]; simpl.
  - split; [|split]; [split | split | reflexivity].
    + intros _. by eexists.
    + reflexivity.
    + discriminate.
    + discriminate.
  - split; [|split]; [split | split | reflexivity].
    + discriminate.
    + intros [x Hx]. discriminate.
    + reflexivity.
    + reflexivity.
Qed.

(** C5 -- Freshness boundary.  When the range, membership and structure
    checks hold, [verifyNullifierProof] accepts exactly when
    |now - timestamp| <= 3600000; a bundle stamped now - 3600000 - 1 is
    rejected and one stamped now - 3600000 + 1 is accepted. *)
Theorem freshness_boundary :
  ∀ (now : Z) (b : SecureNullifierProof.t) (proposalId root : string),
    SecureCryptographicNullifier.verifyRangeProof
      (SecureNullifierProof.rangeProof b) (SecureNullifierProof.voteCommitment b) = true →
    SecureCryptographicNullifier.verifyMembershipProof
      (SecureNullifierProof.membershipProof b) root = true →
    SecureCryptographicNullifier.verifyNullifierStructure b = true →
    (SecureCryptographicNullifier.verifyNullifierProof now b proposalId root = true
       ↔ Z.abs (now - SecureNullifierProof.timestamp b) <= 3600000)
    ∧ (SecureNullifierProof.timestamp b = now - 3600000 - 1 →
       SecureCryptographicNullifier.verifyNullifierProof now b proposalId root = false)
    ∧ (SecureNullifierProof.timestamp b = now - 3600000 + 1 →
       SecureCryptographicNullifier.verifyNullifierProof now b proposalId root = true).
Proof.
  intros now b proposalId root Hrange Hmember Hstructure.
  assert (SecureCryptographicNullifier.verifyNullifierProof now b proposalId root = true
            ↔ Z.abs (now - SecureNullifierProof.timestamp b) <= 3600000) as Hiff.
  { rewrite VerifierFacts.verifyNullifierProof_true_iff. tauto. }
  split; [exact Hiff|]. split.
  - intros Hts. apply not_true_is_false. rewrite Hiff. lia.
  - intros Hts. apply Hiff. lia.
Qed.

(** The bundle of the scenario, stamped 1700000000000, read one
    millisecond inside and one millisecond outside the hour. *)
Lemma freshness_boundary_witness :
  SecureCryptographicNullifier.verifyNullifierProof
    (1700000000000 + 3600000 - 1) Scenario.firstBundle "p1" "test_registry_root" = true
  ∧ SecureCryptographicNullifier.verifyNullifierProof
      (1700000000000 + 3600000 + 1) Scenario.firstBundle "p1" "test_registry_root" = false.
Proof.
  split.
  - apply (freshness_boundary (1700000000000 + 3600000 - 1) Scenario.firstBundle
             "p1" "test_registry_root"); reflexivity.
  - apply (freshness_boundary (1700000000000 + 3600000 + 1) Scenario.firstBundle
             "p1" "test_registry_root"); reflexivity.
Defined.

(** C4 -- Tamper detection, on the code.  For every bundle that
    [verifyNullifierProof] accepts, the bundle with one byte of any one
    digest field flipped is accepted as well, and so it is for any other
    proposal: the verifier compares lengths, the time stamp and the clock,
    and never the contents of a field. *)
Theorem tampered_bundle_still_verifies :
  ∀ (now : Z) (b : SecureNullifierProof.t) (proposalId root : string)
    (f : Tamper.Field) (i : nat) (mask : Z),
    SecureCryptographicNullifier.verifyNullifierProof now b proposalId root = true →
    SecureCryptographicNullifier.verifyNullifierProof
      now (Tamper.tamper f i mask b) proposalId root = true
    ∧ ∀ otherProposal : string,
        SecureCryptographicNullifier.verifyNullifierProof
          now (Tamper.tamper f i mask b) otherProposal root = true.
Proof.
  intros now b proposalId root f i mask Hvalid.
  assert (∀ p, SecureCryptographicNullifier.verifyNullifierProof
                 now (Tamper.tamper f i mask b) p root = true) as Hany.
  { intros p. apply VerifierFacts.verifyNullifierProof_true_iff.
    apply VerifierFacts.verifyNullifierProof_true_iff in Hvalid.
    destruct (tamper_checks f i mask b root) as (-> & -> & -> & ->).
    exact Hvalid. }
  split; [apply Hany | exact Hany].
Qed.

(** The bundle of the scenario verifies against the root of the source's
    test; with the first character of its nullifier changed from 8 to 9 it
    is another bundle and verifies too. *)
Lemma tampered_bundle_still_verifies_witness :
  SecureCryptographicNullifier.generateSecureNullifier
    Scenario.credentials "p1" 1 Scenario.firstEnv = Ok Scenario.firstBundle
  ∧ SecureCryptographicNullifier.verifyNullifierProof
      1700000000001 Scenario.firstBundle "p1" "test_registry_root" = true
  ∧ Scenario.tamperedBundle ≠ Scenario.firstBundle
  ∧ SecureNullifierProof.nullifier Scenario.tamperedBundle
    = "9a73009efdf852dc2ddd1811b976fd0dda38aa4a6978a005c88052d90807a4ee"
  ∧ SecureCryptographicNullifier.verifyNullifierProof
      1700000000001 Scenario.tamperedBundle "p1" "test_registry_root" = true.
Proof.
  split; [vm_compute; reflexivity|].
  split; [vm_compute; reflexivity|].
  split; [vm_compute; discriminate|].
  split; [vm_compute; reflexivity|].
  apply (tampered_bundle_still_verifies 1700000000001 Scenario.firstBundle
           "p1" "test_registry_root" Tamper.Nullifier 0%nat 1).
  vm_compute. reflexivity.
Defined.

(** C2 -- Double vote per credential on the secure registry, on the code.
    The credential of the scenario votes 1 and then 0 on "p1", each bundle
    generated with fresh random bytes and a fresh time stamp.  On
    the registry made by [new] the first bundle is already rejected, since
    the root of that registry is the empty string and the membership check
    asks for a root that is not empty; that registry accepts no submission
    at all.  On a registry that has a root both bundles are accepted, since
    their nullifiers differ. *)
Theorem secure_registry_double_vote_scenario :
  SecureCryptographicNullifier.generateSecureNullifier
    Scenario.credentials "p1" 1 Scenario.firstEnv = Ok Scenario.firstBundle
  ∧ SecureCryptographicNullifier.generateSecureNullifier
      Scenario.credentials "p1" 0 Scenario.secondEnv = Ok Scenario.secondBundle
  ∧ SecureNullifierRegistry.addNullifier
      1700000000001 Scenario.firstBundle "p1" SecureNullifierRegistry.new
    = (false, SecureNullifierRegistry.new)
  ∧ (∀ submissions : list SecureNullifierRegistry.Submission,
       SecureNullifierRegistry.addNullifiers submissions SecureNullifierRegistry.new
       = (repeat false (List.length submissions), SecureNullifierRegistry.new))
  ∧ fst (SecureNullifierRegistry.addNullifiers
           [ (1700000000001, Scenario.firstBundle, "p1");
             (1700000000501, Scenario.secondBundle, "p1") ]
           Scenario.seededRegistry)
    = [true; true].
Proof.
  split; [vm_compute; reflexivity|].
  split; [vm_compute; reflexivity|].
  split; [vm_compute; reflexivity|].
  split; [intros submissions; by apply RegistryFacts.addNullifiers_empty_root|].
  vm_compute. reflexivity.
Qed.

(** C7 -- Order of the verifier's checks, as the code has it.  The verifier
    evaluates, in this order, the range-proof check, the membership check,
    the structure check and the freshness check, stops at the first that
    fails and returns [false] there; no check binds the nullifier to the
    proposal. *)
Theorem verifier_check_order :
  ∀ (now : Z) (b : SecureNullifierProof.t) (proposalId root : string),
    let run := VerifierTrace.verifyNullifierProof now b proposalId root in
    run = VerifierTrace.runInOrder (VerifierTrace.sourceChecks now b root)
    ∧ fst run `prefix_of`
        [ VerifierTrace.RangeProof; VerifierTrace.MembershipProof;
          VerifierTrace.Structure; VerifierTrace.Freshness ]
    ∧ snd run = SecureCryptographicNullifier.verifyNullifierProof now b proposalId root.
Proof.
  intros now b proposalId root run. subst run.
  split; [|split].
  - unfold VerifierTrace.verifyNullifierProof, VerifierTrace.sourceChecks,
      VerifierTrace.runInOrder.
    destruct (SecureCryptographicNullifier.verifyRangeProof _ _); [|reflexivity].
    destruct (SecureCryptographicNullifier.verifyMembershipProof _ _); [|reflexivity].
    destruct (SecureCryptographicNullifier.verifyNullifierStructure b); [|reflexivity].
    by destruct (3600000 <? _).
  - unfold VerifierTrace.verifyNullifierProof.
    destruct (SecureCryptographicNullifier.verifyRangeProof _ _); cbn [negb fst];
      [|by eexists [_; _; _]].
    destruct (SecureCryptographicNullifier.verifyMembershipProof _ _); cbn [negb fst];
      [|by eexists [_; _]].
    destruct (SecureCryptographicNullifier.verifyNullifierStructure b); cbn [negb fst];
      [|by eexists [_]].
    destruct (3600000 <? _); cbn [fst]; by exists [].
  - apply VerifierFacts.trace_verdict.
Qed.

(** The order of the specification, (a) structure, (b) freshness, (c) range,
    (d) membership, (e) binding, fails on the valid bundle of the scenario:
    the checks evaluated are range, membership, structure, freshness. *)
Lemma verifier_check_order_counterexample :
  fst (VerifierTrace.verifyNullifierProof
         1700000000001 Scenario.firstBundle "p1" "test_registry_root")
  = [ VerifierTrace.RangeProof; VerifierTrace.MembershipProof;
      VerifierTrace.Structure; VerifierTrace.Freshness ]
  ∧ ¬ (fst (VerifierTrace.verifyNullifierProof
              1700000000001 Scenario.firstBundle "p1" "test_registry_root")
       `prefix_of` VerifierTrace.specOrder).
Proof.
  assert (fst (VerifierTrace.verifyNullifierProof
                 1700000000001 Scenario.firstBundle "p1" "test_registry_root")
          = [ VerifierTrace.RangeProof; VerifierTrace.MembershipProof;
              VerifierTrace.Structure; VerifierTrace.Freshness ]) as Htrace.
  { vm_compute. reflexivity. }
  split; [exact Htrace|].
  rewrite Htrace. intros [rest Hrest]. unfold VerifierTrace.specOrder in Hrest.
  discriminate Hrest.
Qed.

(** C8 -- Purity of the verifier, up to the clock.  Two calls with the same
    bundle, proposal and root return the same boolean whenever their
    readings of the clock fall on the same side of the bundle's freshness
    window, in particular at the same reading.  The verifier takes no
    registry: inside [addNullifier] a failed verification leaves the
    registry as it was, and after any call the registry is either the one
    before or that one with the bundle inserted. *)
Theorem verifier_pure_given_clock :
  (∀ (t1 t2 : Z) (b : SecureNullifierProof.t) (proposalId root : string),
     (Z.abs (t1 - SecureNullifierProof.timestamp b) <= 3600000
        ↔ Z.abs (t2 - SecureNullifierProof.timestamp b) <= 3600000) →
     SecureCryptographicNullifier.verifyNullifierProof t1 b proposalId root
     = SecureCryptographicNullifier.verifyNullifierProof t2 b proposalId root)
  ∧ (∀ (t : Z) (b : SecureNullifierProof.t) (proposalId : string)
       (this : SecureNullifierRegistry.t),
       (SecureCryptographicNullifier.verifyNullifierProof
          t b proposalId (SecureNullifierRegistry.registryRoot this) = false →
        SecureNullifierRegistry.addNullifier t b proposalId this = (false, this))
       ∧ (snd (SecureNullifierRegistry.addNullifier t b proposalId this) = this
          ∨ snd (SecureNullifierRegistry.addNullifier t b proposalId this)
            = SecureNullifierRegistry.inserted b this)).
Proof.
  split.
  - intros t1 t2 b proposalId root Hwindow.
    apply eq_true_iff_eq.
    rewrite !VerifierFacts.verifyNullifierProof_true_iff. tauto.
  - intros t b proposalId this. rewrite RegistryFacts.addNullifier_unfold. split.
    + by intros ->.
    + destruct (_ && _); [by right | by left].
Qed.

(** Two readings of the clock inside the hour of the scenario's bundle. *)
Lemma verifier_pure_given_clock_witness :
  SecureCryptographicNullifier.verifyNullifierProof
    1700000000001 Scenario.firstBundle "p1" "test_registry_root"
  = SecureCryptographicNullifier.verifyNullifierProof
      1700000000777 Scenario.firstBundle "p1" "test_registry_root".
Proof.
  destruct verifier_pure_given_clock as (Hsame & _).
  apply Hsame. vm_compute. split; intros _; discriminate.
Defined.

(** Without the clock the verdict is not determined: the same bundle,
    proposal and root verify one millisecond after the time stamp and no
    longer verify an hour and one millisecond after it. *)
Lemma verifier_purity_counterexample :
  SecureCryptographicNullifier.verifyNullifierProof
    1700000000001 Scenario.firstBundle "p1" "test_registry_root" = true
  ∧ SecureCryptographicNullifier.verifyNullifierProof
      1700003600001 Scenario.firstBundle "p1" "test_registry_root" = false.
Proof. split; vm_compute; reflexivity. Qed.

(** C6 -- The generator of bundles does not check the proposal.  The one
    guard of [generateSecureNullifier] is on the vote choice: for every
    credential, proposal identifier and environment it throws exactly when
    the vote choice is neither 0 nor 1, with the message of that guard.  So
    with the empty proposal identifier and the vote choice 1 it returns a
    bundle, which the verifier accepts for the empty proposal, while
    [validateInputs] of the proof generator rejects the same empty
    identifier. *)
Theorem bundle_generation_skips_proposal_check :
  (∀ (credentials : SecureVoterCredentials.t) (proposalId : string) (voteChoice : Z)
     (env : SecureCryptographicNullifier.Env),
     match SecureCryptographicNullifier.generateSecureNullifier
             credentials proposalId voteChoice env with
     | Ok _ => voteChoice = 0 ∨ voteChoice = 1
     | Throw message =>
         voteChoice ≠ 0 ∧ voteChoice ≠ 1
         ∧ message = "Invalid vote choice. Must be 0 or 1."
     end)
  ∧ (∃ bundle : SecureNullifierProof.t,
       SecureCryptographicNullifier.generateSecureNullifier
         Scenario.credentials "" 1 Scenario.firstEnv = Ok bundle
       ∧ SecureCryptographicNullifier.verifyNullifierProof
           1700000000001 bundle "" "test_registry_root" = true)
  ∧ ZKProofGenerator.validateInputs
      (VoteProofInputs.mk "" 1 "secret" "nullifier" None None None)
    = Throw "Proposal ID is required".
Proof.
  split; [|split].
  - intros credentials proposalId voteChoice env.
    unfold SecureCryptographicNullifier.generateSecureNullifier.
    destruct (Z.eqb_spec voteChoice 0) as [->|H0].
    + cbn [negb andb]. by left.
    + destruct (Z.eqb_spec voteChoice 1) as [->|H1].
      * cbn [negb andb]. by right.
      * cbn [negb andb]. by repeat split.
  - eexists. split; [vm_compute; reflexivity | vm_compute; reflexivity].
  - vm_compute. reflexivity.
Qed.

(* ===================================================================== *)
(** * Further properties of the code *)
(* ===================================================================== *)


(** ** Statistics and history of the ledger *)

Module LedgerFacts.
Import DoubleVotePreventionSystem.

Lemma attemptVote_accepted a this :
  usedNullifiers this
    !! generateNullifier (VoteAttempt.voterSecret a) (VoteAttempt.proposalId a) = None →
  attemptVote a this =
    let nullifier :=
      generateNullifier (VoteAttempt.voterSecret a) (VoteAttempt.proposalId a) in
    let record :=
      {| NullifierRecord.nullifier := nullifier;
         NullifierRecord.proposalId := VoteAttempt.proposalId a;
         NullifierRecord.timestamp := VoteAttempt.timestamp a;
         NullifierRecord.blockNumber := getNextBlockNumber this |} in
    ({| VoteResult.success := true;
        VoteResult.nullifier := nullifier;
        VoteResult.reason := None;
        VoteResult.previousVote := None |},
     {| usedNullifiers := <[nullifier := record]> (usedNullifiers this);
        nullifierHistory := nullifierHistory this ++ [record] |}).
Proof. intros H. unfold attemptVote. by rewrite H. Qed.

(** The case analysis on one call: rejected with the state kept, or
    accepted with one record appended. *)
Lemma attemptVote_cases a this :
  (∃ existing,
     usedNullifiers this
       !! generateNullifier (VoteAttempt.voterSecret a) (VoteAttempt.proposalId a)
       = Some existing
     ∧ VoteResult.success (fst (attemptVote a this)) = false
     ∧ snd (attemptVote a this) = this)
  ∨ (usedNullifiers this
       !! generateNullifier (VoteAttempt.voterSecret a) (VoteAttempt.proposalId a)
       = None
     ∧ VoteResult.success (fst (attemptVote a this)) = true
     ∧ snd (attemptVote a this) =
         {| usedNullifiers :=
              <[generateNullifier (VoteAttempt.voterSecret a) (VoteAttempt.proposalId a) :=
                  {| NullifierRecord.nullifier :=
                       generateNullifier (VoteAttempt.voterSecret a)
                                         (VoteAttempt.proposalId a);
                     NullifierRecord.proposalId := VoteAttempt.proposalId a;
                     NullifierRecord.timestamp := VoteAttempt.timestamp a;
                     NullifierRecord.blockNumber := getNextBlockNumber this |}]>
                (usedNullifiers this);
            nullifierHistory :=
              nullifierHistory this ++
              [{| NullifierRecord.nullifier :=
                    generateNullifier (VoteAttempt.voterSecret a)
                                      (VoteAttempt.proposalId a);
                  NullifierRecord.proposalId := VoteAttempt.proposalId a;
                  NullifierRecord.timestamp := VoteAttempt.timestamp a;
                  NullifierRecord.blockNumber := getNextBlockNumber this |}] |}).
Proof.
  destruct (usedNullifiers this !! generateNullifier _ _) as [existing|] eqn:E.
  - left. exists existing. split; [reflexivity|].
    by rewrite (DoubleVoteFacts.attemptVote_rejected _ _ _ E).
  - right. split; [reflexivity|]. by rewrite (attemptVote_accepted _ _ E).
Qed.

(** What a run of submissions keeps: the map is as large as the history,
    the history grows by the accepted submissions, and the block numbers
    count up from 1000. *)
Lemma attemptVotes_counts attempts this :
  size (usedNullifiers this) = List.length (nullifierHistory this) →
  map NullifierRecord.blockNumber (nullifierHistory this)
    = map (fun i => Z.of_nat i + 1000) (seq 0 (List.length (nullifierHistory this))) →
  let run := attemptVotes attempts this in
  size (usedNullifiers (snd run)) = List.length (nullifierHistory (snd run))
  ∧ List.length (nullifierHistory (snd run))
    = (List.length (nullifierHistory this)
       + List.length (List.filter VoteResult.success (fst run)))%nat
  ∧ map NullifierRecord.blockNumber (nullifierHistory (snd run))
    = map (fun i => Z.of_nat i + 1000)
          (seq 0 (List.length (nullifierHistory (snd run)))).
Proof.
  revert this. induction attempts as [|a rest IH]; intros this Hsize Hblocks; simpl.
  - repeat split; [exact Hsize | lia | exact Hblocks].
  - destruct (attemptVote_cases a this) as
      [(existing & _ & Hres & Hstate) | (Hnone & Hres & Hstate)];
      destruct (attemptVote a this) as [r this1]; simpl in Hres, Hstate; subst this1.
    + specialize (IH this Hsize Hblocks).
      destruct (attemptVotes rest this) as [rs this2]; simpl in *.
      rewrite Hres. exact IH.
    + match goal with |- context [attemptVotes rest ?st] => specialize (IH st) end.
      cbn [usedNullifiers nullifierHistory] in IH.
      rewrite map_size_insert_None in IH by exact Hnone.
      rewrite !length_app in IH. cbn [List.length] in IH.
      rewrite map_app, seq_app, map_app, Hblocks in IH. cbn [map seq] in IH.
      unfold getNextBlockNumber in IH.
      destruct IH as (IH1 & IH2 & IH3); [lia | reflexivity |].
      destruct (attemptVotes rest _) as [rs this2]; simpl in *.
      rewrite Hres. simpl. repeat split; [exact IH1 | lia | exact IH3].
Qed.

End LedgerFacts.

(** X1 -- [getStats] counts the accepted votes.  After every sequence of
    submissions to a new ledger, [totalVotes] equals [uniqueNullifiers] and
    both equal the number of submissions that were accepted. *)
Theorem stats_count_accepted_votes :
  ∀ attempts : list VoteAttempt.t,
    let run :=
      DoubleVotePreventionSystem.attemptVotes attempts DoubleVotePreventionSystem.new in
    let stats := DoubleVotePreventionSystem.getStats (snd run) in
    DoubleVotePreventionSystem.totalVotes stats
    = DoubleVotePreventionSystem.uniqueNullifiers stats
    ∧ DoubleVotePreventionSystem.totalVotes stats
      = Z.of_nat (List.length (List.filter VoteResult.success (fst run))).
Proof.
  intros attempts run stats. subst stats run.
  destruct (LedgerFacts.attemptVotes_counts attempts DoubleVotePreventionSystem.new)
    as (Hsize & Hlen & _); [reflexivity | reflexivity |].
  unfold DoubleVotePreventionSystem.getStats; simpl.
  rewrite Hsize, Hlen. simpl. split; reflexivity.
Qed.

(** X2 -- Block numbers.  After every sequence of submissions to a new
    ledger the records of the history carry the block numbers 1000, 1001,
    ... in the order of their acceptance. *)
Theorem block_numbers_count_from_1000 :
  ∀ attempts : list VoteAttempt.t,
    let ledger :=
      snd (DoubleVotePreventionSystem.attemptVotes
             attempts DoubleVotePreventionSystem.new) in
    map NullifierRecord.blockNumber (DoubleVotePreventionSystem.nullifierHistory ledger)
    = map (fun i => Z.of_nat i + 1000)
          (seq 0 (List.length (DoubleVotePreventionSystem.nullifierHistory ledger))).
Proof.
  intros attempts ledger. subst ledger.
  destruct (LedgerFacts.attemptVotes_counts attempts DoubleVotePreventionSystem.new)
    as (_ & _ & Hblocks); [reflexivity | reflexivity | exact Hblocks].
Qed.

(** The counts of [getStats], for any map to start from. *)
Lemma countRecord_fold (history : list NullifierRecord.t) (stats : gmap string Z)
    (proposalId : string) :
  fold_left DoubleVotePreventionSystem.countRecord history stats !! proposalId
  = let n :=
      List.length
        (filter (fun record => NullifierRecord.proposalId record = proposalId) history) in
    if decide (n = 0%nat) then stats !! proposalId
    else Some (default 0 (stats !! proposalId) + Z.of_nat n).
Proof.
  revert stats. induction history as [|record rest IH]; intros stats; [reflexivity|].
  cbn [fold_left]. rewrite IH. clear IH. cbv zeta.
  unfold DoubleVotePreventionSystem.countRecord.
  destruct (decide (NullifierRecord.proposalId record = proposalId)) as [Heq|Hne].
  - rewrite filter_cons_True by exact Heq. cbn [List.length].
    set (k := List.length (filter _ rest)).
    rewrite Heq, lookup_insert_eq. cbn [default].
    rewrite (decide_False (P := (S k = 0%nat))) by lia.
    destruct (decide (k = 0%nat)) as [Hk|_]; [rewrite Hk|]; apply (f_equal Some);
      unfold id; generalize (default 0 (stats !! proposalId)); intros d; lia.
  - rewrite filter_cons_False by exact Hne.
    by rewrite lookup_insert_ne.
Qed.

(** X3 -- [getStats] per proposal.  For every ledger and proposal, the
    entry of [proposalStats] is the number of records that
    [getProposalNullifiers] returns for the proposal, and there is no entry
    when there is no record. *)
Theorem stats_per_proposal :
  ∀ (this : DoubleVotePreventionSystem.t) (proposalId : string),
    let n :=
      List.length (DoubleVotePreventionSystem.getProposalNullifiers proposalId this) in
    DoubleVotePreventionSystem.proposalStats (DoubleVotePreventionSystem.getStats this)
      !! proposalId
    = if decide (n = 0%nat) then None else Some (Z.of_nat n).
Proof.
  intros this proposalId n. subst n.
  unfold DoubleVotePreventionSystem.getStats,
    DoubleVotePreventionSystem.getProposalNullifiers.
  cbn [DoubleVotePreventionSystem.proposalStats].
  rewrite countRecord_fold. cbv zeta. rewrite lookup_empty. cbn [default].
  by destruct (decide _).
Qed.

(** X4 -- A nullifier that was submitted is used.  After every call of
    [attemptVote], accepted or not, [isNullifierUsed] holds of the
    nullifier in the result and [verifyNullifierProof] rejects it with
    every proof text; an empty proof text is rejected for every nullifier. *)
Theorem submitted_nullifier_is_used :
  ∀ (a : VoteAttempt.t) (this : DoubleVotePreventionSystem.t)
    (nullifier proposalId zkProof : string),
    let after := DoubleVotePreventionSystem.attemptVote a this in
    DoubleVotePreventionSystem.isNullifierUsed
      (VoteResult.nullifier (fst after)) (snd after) = true
    ∧ DoubleVotePreventionSystem.verifyNullifierProof
        (VoteResult.nullifier (fst after)) proposalId zkProof (snd after) = false
    ∧ DoubleVotePreventionSystem.verifyNullifierProof nullifier proposalId "" this
      = false.
Proof.
  intros a this nullifier proposalId zkProof after. subst after.
  assert (DoubleVotePreventionSystem.isNullifierUsed
            (VoteResult.nullifier (fst (DoubleVotePreventionSystem.attemptVote a this)))
            (snd (DoubleVotePreventionSystem.attemptVote a this)) = true) as Hused.
  { rewrite DoubleVoteFacts.attemptVote_result_nullifier.
    apply bool_decide_eq_true_2, DoubleVoteFacts.attemptVote_records. }
  split; [exact Hused|]. split.
  - unfold DoubleVotePreventionSystem.verifyNullifierProof. by rewrite Hused.
  - unfold DoubleVotePreventionSystem.verifyNullifierProof.
    cbn [String.length]. apply andb_false_r.
Qed.

(** X5 -- The per-proposal history.  An accepted vote is appended to the
    list that [getProposalNullifiers] returns for its proposal, as a record
    with the nullifier of the result, the time stamp of the attempt and the
    next block number; the lists of the other proposals, and every list
    after a rejected vote, stay as they were. *)
Theorem proposal_history_grows_by_accepted_votes :
  ∀ (a : VoteAttempt.t) (this : DoubleVotePreventionSystem.t) (proposalId : string),
    let after := DoubleVotePreventionSystem.attemptVote a this in
    DoubleVotePreventionSystem.getProposalNullifiers proposalId (snd after)
    = DoubleVotePreventionSystem.getProposalNullifiers proposalId this
      ++ (if VoteResult.success (fst after)
             && bool_decide (VoteAttempt.proposalId a = proposalId)
          then [ {| NullifierRecord.nullifier := VoteResult.nullifier (fst after);
                    NullifierRecord.proposalId := proposalId;
                    NullifierRecord.timestamp := VoteAttempt.timestamp a;
                    NullifierRecord.blockNumber :=
                      Z.of_nat (List.length
                                  (DoubleVotePreventionSystem.nullifierHistory this))
                      + 1000 |} ]
          else []).
Proof.
  intros a this proposalId after. subst after.
  destruct (LedgerFacts.attemptVote_cases a this) as
    [(existing & _ & Hres & Hstate) | (Hnone & Hres & Hstate)].
  - rewrite Hres, Hstate. cbn [andb]. by rewrite app_nil_r.
  - rewrite Hres, Hstate, DoubleVoteFacts.attemptVote_result_nullifier.
    unfold DoubleVotePreventionSystem.getProposalNullifiers.
    cbn [DoubleVotePreventionSystem.nullifierHistory andb].
    rewrite filter_app. f_equal.
    case_bool_decide as Hp.
    + rewrite filter_cons_True by exact Hp. by rewrite Hp.
    + by rewrite filter_cons_False by exact Hp.
Qed.

(** ** The simulation and the demonstrations *)

Module SimulationFacts.
Import DoubleVotePreventionSystem.

(** A loop of the simulation is a run of [attemptVotes]. *)
Lemma simulateLoop_attemptVotes make turns acc this :
  simulateLoop make turns acc this =
    (acc ++ combine (map make turns) (fst (attemptVotes (map make turns) this)),
     snd (attemptVotes (map make turns) this)).
Proof.
  revert acc this. induction turns as [|i rest IH]; intros acc this; simpl.
  - by rewrite app_nil_r.
  - destruct (attemptVote (make i) this) as [r this1].
    rewrite IH. destruct (attemptVotes (map make rest) this1) as [rs this2]; simpl.
    by rewrite <- app_assoc.
Qed.

Lemma attemptVotes_length attempts this :
  List.length (fst (attemptVotes attempts this)) = List.length attempts.
Proof.
  revert this. induction attempts as [|a rest IH]; intros this; simpl; [reflexivity|].
  destruct (attemptVote a this) as [r this1]. specialize (IH this1).
  destruct (attemptVotes rest this1) as [rs this2]; simpl in *. by rewrite IH.
Qed.

(** Every submission of a run has its nullifier in the map afterwards. *)
Lemma attemptVotes_records attempts this a :
  a ∈ attempts →
  is_Some (usedNullifiers (snd (attemptVotes attempts this))
             !! generateNullifier (VoteAttempt.voterSecret a) (VoteAttempt.proposalId a)).
Proof.
  revert this. induction attempts as [|a' rest IH]; intros this Hin; [inversion Hin|].
  simpl. apply elem_of_cons in Hin as [->|Hin].
  - pose proof (DoubleVoteFacts.attemptVote_records a' this) as H1.
    destruct (attemptVote a' this) as [r this1]; simpl in H1.
    pose proof (DoubleVoteFacts.attemptVotes_keeps rest this1 _ H1) as H2.
    destruct (attemptVotes rest this1) as [rs this2]; simpl in *. exact H2.
  - destruct (attemptVote a' this) as [r this1]. specialize (IH this1 Hin).
    destruct (attemptVotes rest this1) as [rs this2]; simpl in *. exact IH.
Qed.

(** A run of submissions whose nullifiers are all used rejects them all. *)
Lemma attemptVotes_all_rejected attempts this :
  (∀ a, a ∈ attempts →
     is_Some (usedNullifiers this
                !! generateNullifier (VoteAttempt.voterSecret a)
                                     (VoteAttempt.proposalId a))) →
  Forall (fun r => VoteResult.success r = false
                   ∧ VoteResult.reason r = Some "Double voting detected")
         (fst (attemptVotes attempts this))
  ∧ snd (attemptVotes attempts this) = this.
Proof.
  induction attempts as [|a rest IH]; intros Hused; simpl; [by split|].
  destruct (Hused a) as [existing Hexisting]; [by left|].
  rewrite (DoubleVoteFacts.attemptVote_rejected _ _ _ Hexisting).
  destruct IH as [IH1 IH2]; [intros a' Ha'; apply Hused; by right|].
  destruct (attemptVotes rest this) as [rs this2]; simpl in *.
  split; [|exact IH2]. constructor; [by split | exact IH1].
Qed.

Lemma filter_success_partition (l : list (VoteAttempt.t * VoteResult.t)) :
  (List.length (List.filter (fun a => VoteResult.success (snd a)) l)
   + List.length (List.filter (fun a => negb (VoteResult.success (snd a))) l))%nat
  = List.length l.
Proof.
  induction l as [|[a r] l IH]; simpl; [reflexivity|].
  destruct (VoteResult.success r); simpl; lia.
Qed.

Lemma filter_all_rejected (attempts : list VoteAttempt.t) (rs : list VoteResult.t) :
  Forall (fun r => VoteResult.success r = false
                   ∧ VoteResult.reason r = Some "Double voting detected") rs →
  List.filter (fun a => negb (VoteResult.success (snd a))) (combine attempts rs)
  = combine attempts rs.
Proof.
  intros Hrs. revert attempts.
  induction Hrs as [|r rs [Hr _] _ IH]; intros [|a rest]; simpl; try reflexivity.
  rewrite Hr. simpl. by rewrite IH.
Qed.

Lemma rejected_combine (attempts : list VoteAttempt.t) (rs : list VoteResult.t) :
  Forall (fun r => VoteResult.success r = false
                   ∧ VoteResult.reason r = Some "Double voting detected") rs →
  Forall (fun a : VoteAttempt.t * VoteResult.t =>
            VoteResult.success (snd a) = false
            ∧ VoteResult.reason (snd a) = Some "Double voting detected")
         (combine attempts rs).
Proof.
  intros Hrs. revert attempts.
  induction Hrs as [|r rs Hr _ IH]; intros [|a rest]; simpl;
    constructor; [exact Hr | apply IH].
Qed.

End SimulationFacts.

(** X6 -- The simulation.  Whatever the ledger, the random choices and the
    clock, [simulateDoubleVoteAttempts] makes eight attempts, reports
    [successful + prevented = 8], and its last three attempts, the second
    votes of the first three voters, are rejected as double votes, so that
    [prevented >= 3]; on a new ledger it reports 5 successful, 3 prevented
    and the rate 37.5. *)
Theorem simulation_prevents_repeated_votes :
  ∀ (random clock : nat → Z) (this : DoubleVotePreventionSystem.t),
    let simulation :=
      fst (DoubleVotePreventionSystem.simulateDoubleVoteAttempts random clock this) in
    let summary := DoubleVotePreventionSystem.summary simulation in
    let fresh :=
      DoubleVotePreventionSystem.summary
        (fst (DoubleVotePreventionSystem.simulateDoubleVoteAttempts
                random clock DoubleVotePreventionSystem.new)) in
    List.length (DoubleVotePreventionSystem.attempts simulation) = 8%nat
    ∧ DoubleVotePreventionSystem.successful summary
      + DoubleVotePreventionSystem.prevented summary = 8
    ∧ 3 <= DoubleVotePreventionSystem.prevented summary
    ∧ Forall (fun a => VoteResult.success (snd a) = false
                       ∧ VoteResult.reason (snd a) = Some "Double voting detected")
             (skipn 5 (DoubleVotePreventionSystem.attempts simulation))
    ∧ DoubleVotePreventionSystem.successful fresh = 5
    ∧ DoubleVotePreventionSystem.prevented fresh = 3
    ∧ QArith_base.Qeq (DoubleVotePreventionSystem.preventionRate fresh)
                      (QArith_base.Qmake 75 2).
Proof.
  intros random clock this simulation summary fresh.
  assert (DoubleVotePreventionSystem.successful fresh = 5
          ∧ DoubleVotePreventionSystem.prevented fresh = 3
          ∧ QArith_base.Qeq (DoubleVotePreventionSystem.preventionRate fresh)
                            (QArith_base.Qmake 75 2)) as Hfresh.
  { subst fresh. vm_compute. repeat split; reflexivity. }
  clearbody fresh. subst summary simulation.
  unfold DoubleVotePreventionSystem.simulateDoubleVoteAttempts.
  rewrite !SimulationFacts.simulateLoop_attemptVotes. cbn [fst snd].
  set (legitimate := map _ [0; 1; 2; 3; 4]%nat).
  set (again := map _ [0; 1; 2]%nat).
  set (this1 := snd (DoubleVotePreventionSystem.attemptVotes legitimate this)).
  destruct (SimulationFacts.attemptVotes_all_rejected again this1) as [Hrejected _].
  { intros a Ha. subst again legitimate this1. cbn [map] in Ha.
    repeat (apply elem_of_cons in Ha as [->|Ha]);
      [ apply (SimulationFacts.attemptVotes_records _ _
                 (VoteAttempt.mk "proposal_1"
                    ("voter_secret_" +:+ JS.toString (Z.of_nat 0)) (random 0%nat)
                    (clock 0%nat + Z.of_nat 0 * 1000)));
        cbn [map]; repeat constructor
      | apply (SimulationFacts.attemptVotes_records _ _
                 (VoteAttempt.mk "proposal_1"
                    ("voter_secret_" +:+ JS.toString (Z.of_nat 1)) (random 1%nat)
                    (clock 1%nat + Z.of_nat 1 * 1000)));
        cbn [map]; repeat constructor
      | apply (SimulationFacts.attemptVotes_records _ _
                 (VoteAttempt.mk "proposal_1"
                    ("voter_secret_" +:+ JS.toString (Z.of_nat 2)) (random 2%nat)
                    (clock 2%nat + Z.of_nat 2 * 1000)));
        cbn [map]; repeat constructor
      | inversion Ha ]. }
  set (rs1 := fst (DoubleVotePreventionSystem.attemptVotes legitimate this)) in *.
  set (rs2 := fst (DoubleVotePreventionSystem.attemptVotes again this1)) in *.
  assert (List.length rs1 = 5%nat) as Hlen1
    by (subst rs1; by rewrite SimulationFacts.attemptVotes_length).
  assert (List.length rs2 = 3%nat) as Hlen2
    by (subst rs2; by rewrite SimulationFacts.attemptVotes_length).
  cbn [DoubleVotePreventionSystem.attempts DoubleVotePreventionSystem.summary
       DoubleVotePreventionSystem.successful DoubleVotePreventionSystem.prevented].
  rewrite app_nil_l.
  assert (List.length (combine legitimate rs1) = 5%nat) as Hc1
    by (rewrite length_combine, Hlen1; reflexivity).
  assert (List.length (combine again rs2) = 3%nat) as Hc2
    by (rewrite length_combine, Hlen2; reflexivity).
  split; [by rewrite length_app, Hc1, Hc2|].
  split.
  { pose proof (SimulationFacts.filter_success_partition
                  (combine legitimate rs1 ++ combine again rs2)) as Hp.
    rewrite length_app, Hc1, Hc2 in Hp. lia. }
  split.
  { rewrite List.filter_app, length_app,
      (SimulationFacts.filter_all_rejected again rs2 Hrejected), Hc2. lia. }
  split; [|exact Hfresh].
  rewrite skipn_app, Hc1. replace (5 - 5)%nat with 0%nat by reflexivity.
  rewrite skipn_all2 by lia. cbn [app skipn].
  by apply SimulationFacts.rejected_combine.
Qed.

(** X7 -- The demonstrations.  [basicDoubleVoteDemo] reports
    [prevention = true] on every state of the system and for every clock:
    its second vote is always rejected.  [runAllDemos], which resets the
    system first, reports for every state and clock that the first vote
    was accepted and the second prevented, that both cross-proposal votes
    were allowed, that all five made-up identities of the Sybil
    demonstration were accepted, and a total of eight votes under eight
    nullifiers. *)
Theorem demonstrations_outcome :
  ∀ (clock : nat → Z) (this : DoubleVoteAttackDemo.t),
    DoubleVoteAttackDemo.prevention
      (fst (DoubleVoteAttackDemo.basicDoubleVoteDemo clock this)) = true
    ∧ let all := fst (DoubleVoteAttackDemo.runAllDemos clock this) in
      VoteResult.success (DoubleVoteAttackDemo.firstVote (DoubleVoteAttackDemo.demo1 all))
      = true
      ∧ DoubleVoteAttackDemo.prevention (DoubleVoteAttackDemo.demo1 all) = true
      ∧ DoubleVoteAttackDemo.bothAllowed (DoubleVoteAttackDemo.demo2 all) = true
      ∧ map (fun r => VoteResult.success (snd r))
            (DoubleVoteAttackDemo.results (DoubleVoteAttackDemo.demo3 all))
        = [true; true; true; true; true]
      ∧ DoubleVotePreventionSystem.totalVotes (DoubleVoteAttackDemo.systemStats all) = 8
      ∧ DoubleVotePreventionSystem.uniqueNullifiers
          (DoubleVoteAttackDemo.systemStats all) = 8.
Proof.
  intros clock this. split.
  - unfold DoubleVoteAttackDemo.basicDoubleVoteDemo.
    set (first := VoteAttempt.mk _ _ 1 _). set (second := VoteAttempt.mk _ _ 0 _).
    pose proof (DoubleVoteFacts.attemptVote_records first
                  (DoubleVoteAttackDemo.preventionSystem this)) as [existing Hexisting].
    destruct (DoubleVotePreventionSystem.attemptVote first _) as [r1 system1].
    cbn [snd] in Hexisting.
    change (DoubleVotePreventionSystem.generateNullifier
              (VoteAttempt.voterSecret first) (VoteAttempt.proposalId first))
      with (DoubleVotePreventionSystem.generateNullifier
              (VoteAttempt.voterSecret second) (VoteAttempt.proposalId second))
      in Hexisting.
    rewrite (DoubleVoteFacts.attemptVote_rejected _ _ _ Hexisting).
    reflexivity.
  - vm_compute. repeat split; reflexivity.
Qed.

(** ** The 32-bit hash of the service and of the mock SDK *)

Lemma toInt32_range (z : Z) : - 2 ^ 31 <= JS.toInt32 z < 2 ^ 31.
Proof.
  unfold JS.toInt32.
  pose proof (Z.mod_pos_bound (z + 2 ^ 31) (2 ^ 32) ltac:(lia)). lia.
Qed.

Lemma toInt32_small (z : Z) : - 2 ^ 31 <= z < 2 ^ 31 → JS.toInt32 z = z.
Proof. intros H. unfold JS.toInt32. rewrite Z.mod_small; lia. Qed.

(** [toInt32] sees its argument modulo 2^32. *)
Lemma toInt32_congr (x y k : Z) : x = y + 2 ^ 32 * k → JS.toInt32 x = JS.toInt32 y.
Proof.
  intros ->. unfold JS.toInt32. f_equal.
  replace (y + 2 ^ 32 * k + 2 ^ 31) with (y + 2 ^ 31 + k * 2 ^ 32) by lia.
  apply Z_mod_plus_full.
Qed.

Lemma toInt32_shift (z : Z) : ∃ k, JS.toInt32 z = z + 2 ^ 32 * k.
Proof.
  exists (- ((z + 2 ^ 31) / 2 ^ 32)). unfold JS.toInt32.
  pose proof (Z.div_mod (z + 2 ^ 31) (2 ^ 32) ltac:(lia)). lia.
Qed.

(** One turn of the loop computes [31 * hash + char] on 32 bits. *)
Lemma hashStep_polynomial (p c : Z) :
  NullifierService.hashStep (JS.toInt32 p) c = JS.toInt32 (31 * p + c).
Proof.
  unfold NullifierService.hashStep, JS.band, JS.shl.
  rewrite Z.land_diag.
  rewrite (toInt32_small (JS.toInt32 _)) by apply toInt32_range.
  rewrite (toInt32_small (JS.toInt32 p)) by apply toInt32_range.
  replace (5 mod 32) with 5 by reflexivity. rewrite Z.shiftl_mul_pow2 by lia.
  destruct (toInt32_shift p) as [k Hk].
  destruct (toInt32_shift (JS.toInt32 p * 2 ^ 5)) as [k' Hk'].
  apply (toInt32_congr _ _ (k' + 31 * k)). rewrite Hk', Hk. lia.
Qed.

Lemma fold_left_cons_eq {A B : Type} (f : A → B → A) (x : B) (l : list B) (a : A) :
  fold_left f (x :: l) a = fold_left f l (f a x).
Proof. reflexivity. Qed.

Lemma hashLoop_polynomial (codes : list Z) (p : Z) :
  fold_left NullifierService.hashStep codes (JS.toInt32 p)
  = JS.toInt32 (fold_left (fun h c => 31 * h + c) codes p).
Proof.
  revert p. induction codes as [|c rest IH]; intros p; [reflexivity|].
  rewrite !fold_left_cons_eq, hashStep_polynomial. apply IH.
Qed.

(** X8 -- The hash of the nullifier service.  For every text the loop of
    [generateNullifier] and [hashVoterIdentifier] returns the polynomial
    [c0 * 31^(n-1) + ... + c(n-1)] of the character codes reduced to a
    signed 32-bit integer, so it lies in [-2^31, 2^31) and its absolute
    value is at most 2^31; [Poseidon.hash] of the mock SDK is the decimal
    text of the same number for the concatenation of its fields. *)
Theorem hashLoop_is_polynomial_mod_2_32 :
  ∀ input : string,
    NullifierService.hashLoop input
    = JS.toInt32 (fold_left (fun h c => 31 * h + c) (JS.charCodes input) 0)
    ∧ - 2 ^ 31 <= NullifierService.hashLoop input < 2 ^ 31
    ∧ 0 <= Z.abs (NullifierService.hashLoop input) <= 2 ^ 31
    ∧ ∀ fields : list MidnightMock.Field,
        MidnightMock.toString (MidnightMock.hash fields)
        = JS.toString
            (Z.abs (NullifierService.hashLoop
                      (JS.join "" (map MidnightMock.toString fields)))).
Proof.
  intros input.
  assert (NullifierService.hashLoop input
          = JS.toInt32 (fold_left (fun h c => 31 * h + c) (JS.charCodes input) 0)) as H.
  { pose proof (hashLoop_polynomial (JS.charCodes input) 0) as Hp.
    rewrite (toInt32_small 0) in Hp by lia. exact Hp. }
  pose proof (toInt32_range (fold_left (fun h c => 31 * h + c) (JS.charCodes input) 0))
    as Hrange.
  rewrite <- H in Hrange.
  split; [exact H|]. split; [exact Hrange|]. split; [lia|].
  intros fields.
  unfold MidnightMock.hash, NullifierService.hashLoop, NullifierService.hashStep.
  cbv zeta. unfold MidnightMock.toString at 1. cbn [MidnightMock.value].
  reflexivity.
Qed.

(** ** Recording votes in the service *)

Lemma string_app_assoc (s1 s2 s3 : string) : (s1 +:+ s2) +:+ s3 = s1 +:+ (s2 +:+ s3).
Proof.
  induction s1 as [|c s1 IH]; [reflexivity|].
  change (String c ((s1 +:+ s2) +:+ s3) = String c (s1 +:+ (s2 +:+ s3))).
  by rewrite IH.
Qed.

Module ServiceFacts.
Import NullifierService.

Lemma recordVote_cases now voterSecret proposalId this :
  (∃ existing,
     usedNullifiers this !! generateNullifier voterSecret proposalId = Some existing
     ∧ recordVote now voterSecret proposalId this =
         ({| VoteAttemptResult.canVote := false;
             VoteAttemptResult.nullifier := generateNullifier voterSecret proposalId;
             VoteAttemptResult.reason := Some "You have already voted on this proposal";
             VoteAttemptResult.previousVoteTime :=
               Some (ServiceRecord.timestamp existing) |}, this))
  ∨ (usedNullifiers this !! generateNullifier voterSecret proposalId = None
     ∧ recordVote now voterSecret proposalId this =
         ({| VoteAttemptResult.canVote := true;
             VoteAttemptResult.nullifier := generateNullifier voterSecret proposalId;
             VoteAttemptResult.reason := Some "Vote successfully recorded";
             VoteAttemptResult.previousVoteTime := None |},
          {| usedNullifiers :=
               <[generateNullifier voterSecret proposalId :=
                   {| ServiceRecord.nullifier := generateNullifier voterSecret proposalId;
                      ServiceRecord.proposalId := proposalId;
                      ServiceRecord.voterIdentifier := hashVoterIdentifier voterSecret;
                      ServiceRecord.timestamp := now |}]> (usedNullifiers this) |})).
Proof.
  unfold recordVote, checkVoteEligibility.
  destruct (usedNullifiers this !! generateNullifier voterSecret proposalId)
    as [existing|] eqn:E.
  - left. by exists existing.
  - right. by split.
Qed.

Lemma getVoteStatus_status now voterSecret proposalId this :
  VoteStatus.status_of (fst (getVoteStatus now voterSecret proposalId this))
  = match usedNullifiers this !! generateNullifier voterSecret proposalId with
    | Some _ => VoteStatus.already_voted
    | None => VoteStatus.can_vote
    end.
Proof.
  unfold getVoteStatus, checkVoteEligibility.
  by destruct (usedNullifiers this !! generateNullifier voterSecret proposalId).
Qed.

End ServiceFacts.

(** The secret and the proposal are joined with a colon that either of
    them may contain. *)
Lemma scoped_text_ambiguity (s1 s2 p salt : string) :
  (s1 +:+ ":" +:+ s2) +:+ ":" +:+ p +:+ salt
  = s1 +:+ ":" +:+ (s2 +:+ ":" +:+ p) +:+ salt.
Proof. by rewrite !string_app_assoc. Qed.

(** X9 -- The colon between secret and proposal is ambiguous.  For all
    texts s1, s2 and p, the voter "s1:s2" on proposal "p" and the voter
    "s1" on proposal "s2:p" get the same nullifier, in the service and in
    [DoubleVotePreventionSystem]; so once the first has voted, the status
    of the second is "already-voted" and its vote is rejected. *)
Theorem nullifier_separator_ambiguity :
  ∀ s1 s2 p : string,
    NullifierService.generateNullifier (s1 +:+ ":" +:+ s2) p
    = NullifierService.generateNullifier s1 (s2 +:+ ":" +:+ p)
    ∧ DoubleVotePreventionSystem.generateNullifier (s1 +:+ ":" +:+ s2) p
      = DoubleVotePreventionSystem.generateNullifier s1 (s2 +:+ ":" +:+ p)
    ∧ (∀ (now t : Z) (this : NullifierService.t),
         VoteStatus.status_of
           (fst (NullifierService.getVoteStatus t s1 (s2 +:+ ":" +:+ p)
                   (snd (NullifierService.recordVote now (s1 +:+ ":" +:+ s2) p this))))
         = VoteStatus.already_voted)
    ∧ (∀ (c1 c2 t1 t2 : Z) (this : DoubleVotePreventionSystem.t),
         VoteResult.success
           (fst (DoubleVotePreventionSystem.attemptVote
                   (VoteAttempt.mk (s2 +:+ ":" +:+ p) s1 c2 t2)
                   (snd (DoubleVotePreventionSystem.attemptVote
                           (VoteAttempt.mk p (s1 +:+ ":" +:+ s2) c1 t1) this))))
         = false).
Proof.
  intros s1 s2 p.
  assert (NullifierService.generateNullifier (s1 +:+ ":" +:+ s2) p
          = NullifierService.generateNullifier s1 (s2 +:+ ":" +:+ p)) as Hservice.
  { unfold NullifierService.generateNullifier. cbv zeta.
    by rewrite scoped_text_ambiguity. }
  assert (DoubleVotePreventionSystem.generateNullifier (s1 +:+ ":" +:+ s2) p
          = DoubleVotePreventionSystem.generateNullifier s1 (s2 +:+ ":" +:+ p)) as Hledger.
  { unfold DoubleVotePreventionSystem.generateNullifier,
      DoubleVotePreventionSystem.nullifierInput. cbv zeta.
    by rewrite scoped_text_ambiguity. }
  split; [exact Hservice|]. split; [exact Hledger|]. split.
  - intros now t this. rewrite ServiceFacts.getVoteStatus_status, <- Hservice.
    destruct (ServiceFacts.recordVote_cases now (s1 +:+ ":" +:+ s2) p this)
      as [(existing & Hused & ->) | (_ & ->)]; cbn [snd NullifierService.usedNullifiers].
    + by rewrite Hused.
    + by rewrite lookup_insert_eq.
  - intros c1 c2 t1 t2 this.
    pose proof (DoubleVoteFacts.attemptVote_records
                  (VoteAttempt.mk p (s1 +:+ ":" +:+ s2) c1 t1) this) as [existing Hused].
    cbn [VoteAttempt.voterSecret VoteAttempt.proposalId] in Hused.
    rewrite Hledger in Hused.
    by rewrite (DoubleVoteFacts.attemptVote_rejected
                  (VoteAttempt.mk (s2 +:+ ":" +:+ p) s1 c2 t2) _ _ Hused).
Qed.

(** X10 -- Recording and querying.  After [recordVote] for a voter and a
    proposal, on any state, the status of that voter on that proposal is
    "already-voted"; a second [recordVote] is refused, reports as previous
    time the clock of the first call when that one recorded the vote, and
    leaves the state as it is. *)
Theorem recorded_vote_is_reported :
  ∀ (now t : Z) (voterSecret proposalId : string) (this : NullifierService.t),
    let recorded := NullifierService.recordVote now voterSecret proposalId this in
    let again :=
      NullifierService.recordVote t voterSecret proposalId (snd recorded) in
    VoteStatus.status_of
      (fst (NullifierService.getVoteStatus t voterSecret proposalId (snd recorded)))
    = VoteStatus.already_voted
    ∧ VoteAttemptResult.canVote (fst again) = false
    ∧ VoteAttemptResult.previousVoteTime (fst again)
      = (if VoteAttemptResult.canVote (fst recorded) then Some now
         else VoteAttemptResult.previousVoteTime (fst recorded))
    ∧ snd again = snd recorded.
Proof.
  intros now t voterSecret proposalId this recorded again. subst again recorded.
  rewrite ServiceFacts.getVoteStatus_status.
  destruct (ServiceFacts.recordVote_cases now voterSecret proposalId this)
    as [(existing & Hused & ->) | (Hfree & ->)]; cbn [fst snd].
  - destruct (ServiceFacts.recordVote_cases t voterSecret proposalId this)
      as [(existing' & Hused' & ->) | (Hfree' & _)]; [|congruence].
    rewrite Hused. cbn. split; [reflexivity|]. split; [reflexivity|].
    split; [congruence | reflexivity].
  - match goal with |- context [NullifierService.recordVote t _ _ ?st] =>
      destruct (ServiceFacts.recordVote_cases t voterSecret proposalId st)
        as [(existing' & Hused' & ->) | (Hfree' & _)]
    end; cbn [NullifierService.usedNullifiers] in *.
    + rewrite lookup_insert_eq in Hused'. injection Hused' as <-.
      rewrite lookup_insert_eq. cbn. repeat split.
    + rewrite lookup_insert_eq in Hfree'. discriminate.
Qed.

(** X11 -- Recording leaves the other voters alone.  A [recordVote] for
    one nullifier does not change the status of any voter and proposal
    with another nullifier. *)
Theorem recorded_vote_changes_one_status :
  ∀ (now t : Z) (voterSecret proposalId otherSecret otherProposal : string)
    (this : NullifierService.t),
    NullifierService.generateNullifier otherSecret otherProposal
    ≠ NullifierService.generateNullifier voterSecret proposalId →
    fst (NullifierService.getVoteStatus t otherSecret otherProposal
           (snd (NullifierService.recordVote now voterSecret proposalId this)))
    = fst (NullifierService.getVoteStatus t otherSecret otherProposal this).
Proof.
  intros now t voterSecret proposalId otherSecret otherProposal this Hne.
  unfold NullifierService.getVoteStatus, NullifierService.checkVoteEligibility.
  destruct (ServiceFacts.recordVote_cases now voterSecret proposalId this)
    as [(existing & Hused & ->) | (Hfree & ->)]; cbn [snd]; [reflexivity|].
  cbn [NullifierService.usedNullifiers].
  rewrite lookup_insert_ne by congruence.
  by destruct (NullifierService.usedNullifiers this
                 !! NullifierService.generateNullifier otherSecret otherProposal).
Qed.

(** A voter of the demonstration data and a new voter. *)
Lemma recorded_vote_changes_one_status_witness :
  fst (NullifierService.getVoteStatus 1700000000500 "demo_voter_alice" "3"
         (snd (NullifierService.recordVote 1700000000000 "dave" "3"
                 (fst (NullifierService.getInstance
                         1700000000000 1700000000000 1700000000000 None)))))
  = fst (NullifierService.getVoteStatus 1700000000500 "demo_voter_alice" "3"
           (fst (NullifierService.getInstance
                   1700000000000 1700000000000 1700000000000 None))).
Proof.
  apply recorded_vote_changes_one_status. vm_compute. discriminate.
Defined.

(** X12 -- [formatTimeAgo].  With d = now - timestamp the text is
    "just now" when d < 60000, which includes every time stamp in the
    future; else the whole minutes when d < 3600000, else the whole hours
    when d < 86400000, else the whole days; the unit takes an "s" exactly
    when the number is above 1, and the number is never 0. *)
Theorem formatTimeAgo_thresholds :
  ∀ now timestamp : Z,
    let d := now - timestamp in
    NullifierService.formatTimeAgo now timestamp
    = (if d <? 60000 then "just now"
       else if d <? 3600000 then NullifierService.ago (d / 60000) "minute"
       else if d <? 86400000 then NullifierService.ago (d / 3600000) "hour"
       else NullifierService.ago (d / 86400000) "day")
    ∧ (60000 <= d → 1 <= d / 60000)
    ∧ (3600000 <= d → 1 <= d / 3600000)
    ∧ (86400000 <= d → 1 <= d / 86400000).
Proof.
  intros now timestamp d.
  unfold NullifierService.formatTimeAgo. fold d.
  replace (1000 * 60 * 60 * 24) with 86400000 by reflexivity.
  replace (1000 * 60 * 60) with 3600000 by reflexivity.
  replace (1000 * 60) with 60000 by reflexivity. cbv zeta.
  pose proof (Z.div_mod d 60000 ltac:(lia)) as Hm.
  pose proof (Z.mod_pos_bound d 60000 ltac:(lia)) as Hm'.
  pose proof (Z.div_mod d 3600000 ltac:(lia)) as Hh.
  pose proof (Z.mod_pos_bound d 3600000 ltac:(lia)) as Hh'.
  pose proof (Z.div_mod d 86400000 ltac:(lia)) as Hd.
  pose proof (Z.mod_pos_bound d 86400000 ltac:(lia)) as Hd'.
  split; [|repeat split; lia].
  destruct (Z.ltb_spec 0 (d / 86400000)), (Z.ltb_spec 0 (d / 3600000)),
    (Z.ltb_spec 0 (d / 60000)), (Z.ltb_spec d 60000), (Z.ltb_spec d 3600000),
    (Z.ltb_spec d 86400000); try reflexivity; lia.
Qed.

(** Half a minute, ninety seconds and three days ago; and a time stamp in
    the future. *)
Example formatTimeAgo_examples :
  NullifierService.formatTimeAgo 1700000000000 1699999970000 = "just now"
  ∧ NullifierService.formatTimeAgo 1700000000000 1699999910000 = "1 minute ago"
  ∧ NullifierService.formatTimeAgo 1700000000000 1699740800000 = "3 days ago"
  ∧ NullifierService.formatTimeAgo 1700000000000 1700000500000 = "just now".
Proof. repeat split; vm_compute; reflexivity. Qed.

(** X13 -- The demonstration data and the singleton.  [reset], whatever
    the state before and the clock, leaves exactly three used nullifiers,
    those of the three demonstration voters on proposal "3": after [reset]
    a voter's status is "already-voted" exactly when the voter's nullifier
    is one of the three, so every vote recorded before is forgotten.
    [getInstance] makes that same state only when there is no instance yet;
    once there is one it returns it as it is, so that a vote recorded on
    the singleton is still reported after [getInstance]. *)
Theorem reset_restores_demo_data :
  ∀ (now1 now2 now3 now t : Z) (this : NullifierService.t)
    (voterSecret proposalId : string),
    let demo :=
      [ NullifierService.generateNullifier "demo_voter_alice" "3";
        NullifierService.generateNullifier "demo_voter_bob" "3";
        NullifierService.generateNullifier "demo_voter_carol" "3" ] in
    let fresh := NullifierService.reset now1 now2 now3 this in
    let recorded :=
      snd (NullifierService.recordVote now voterSecret proposalId this) in
    demo = [ "nullifier_28ed8728"; "nullifier_20d11023"; "nullifier_459ae99" ]
    ∧ size (NullifierService.usedNullifiers fresh) = 3%nat
    ∧ (VoteStatus.status_of
         (fst (NullifierService.getVoteStatus t voterSecret proposalId fresh))
       = VoteStatus.already_voted
       ↔ NullifierService.generateNullifier voterSecret proposalId ∈ demo)
    ∧ NullifierService.getInstance now1 now2 now3 None = (fresh, Some fresh)
    ∧ NullifierService.getInstance now1 now2 now3 (Some recorded)
      = (recorded, Some recorded)
    ∧ VoteStatus.status_of
        (fst (NullifierService.getVoteStatus t voterSecret proposalId
                (fst (NullifierService.getInstance now1 now2 now3 (Some recorded)))))
      = VoteStatus.already_voted.
Proof.
  intros now1 now2 now3 now t this voterSecret proposalId demo fresh recorded.
  assert (demo = [ "nullifier_28ed8728"; "nullifier_20d11023"; "nullifier_459ae99" ])
    as Hdemo by (vm_compute; reflexivity).
  split; [exact Hdemo|]. split; [vm_compute; reflexivity|].
  split; [|split; [reflexivity|split; [reflexivity|]]].
  - rewrite ServiceFacts.getVoteStatus_status. subst fresh.
    unfold NullifierService.reset, NullifierService.initializeDemoData,
      NullifierService.storeDemoVote.
    cbn [fold_left NullifierService.usedNullifiers].
    subst demo. clear Hdemo.
    generalize (NullifierService.generateNullifier voterSecret proposalId) as n.
    generalize (NullifierService.generateNullifier "demo_voter_alice" "3") as k1.
    generalize (NullifierService.generateNullifier "demo_voter_bob" "3") as k2.
    generalize (NullifierService.generateNullifier "demo_voter_carol" "3") as k3.
    intros k3 k2 k1 n.
    rewrite !lookup_insert, lookup_empty.
    rewrite !elem_of_cons, elem_of_nil.
    destruct (decide (k3 = n)) as [H3|H3]; [intuition congruence|].
    destruct (decide (k2 = n)) as [H2|H2]; [intuition congruence|].
    destruct (decide (k1 = n)) as [H1|H1]; [intuition congruence|].
    split; [discriminate | intros [H|[H|[H|[]]]]; congruence].
  - cbn [NullifierService.getInstance fst].
    rewrite ServiceFacts.getVoteStatus_status. subst recorded.
    destruct (ServiceFacts.recordVote_cases now voterSecret proposalId this)
      as [(existing & Hused & ->) | (Hfree & ->)]; cbn [snd].
    + by rewrite Hused.
    + cbn [NullifierService.usedNullifiers]. by rewrite lookup_insert_eq.
Qed.

(** ** Random texts, credentials and generated bundles *)

Lemma hexDigit_inj (d e : Z) :
  0 <= d < 16 → 0 <= e < 16 → JS.hexDigit d = JS.hexDigit e → d = e.
Proof.
  intros Hd He.
  assert (d = 0 ∨ d = 1 ∨ d = 2 ∨ d = 3 ∨ d = 4 ∨ d = 5 ∨ d = 6 ∨ d = 7 ∨ d = 8
          ∨ d = 9 ∨ d = 10 ∨ d = 11 ∨ d = 12 ∨ d = 13 ∨ d = 14 ∨ d = 15) as Hd'
    by lia.
  assert (e = 0 ∨ e = 1 ∨ e = 2 ∨ e = 3 ∨ e = 4 ∨ e = 5 ∨ e = 6 ∨ e = 7 ∨ e = 8
          ∨ e = 9 ∨ e = 10 ∨ e = 11 ∨ e = 12 ∨ e = 13 ∨ e = 14 ∨ e = 15) as He'
    by lia.
  clear Hd He.
  repeat (destruct Hd' as [->|Hd']); try subst d;
    repeat (destruct He' as [->|He']); try subst e;
    intros H; first [reflexivity | discriminate H].
Qed.

Lemma hexByte_inj (x y : Z) :
  0 <= x < 256 → 0 <= y < 256 → JS.hexByte x = JS.hexByte y → x = y.
Proof.
  intros Hx Hy H. unfold JS.hexByte in H. injection H as Hhigh Hlow.
  change 15 with (Z.ones 4) in Hhigh, Hlow.
  rewrite !Z.land_ones in Hhigh, Hlow by lia.
  rewrite !Z.shiftr_div_pow2 in Hhigh by lia.
  change (2 ^ 4) with 16 in Hhigh, Hlow.
  pose proof (Z.div_mod x 16 ltac:(lia)). pose proof (Z.div_mod y 16 ltac:(lia)).
  pose proof (Z.mod_pos_bound x 16 ltac:(lia)).
  pose proof (Z.mod_pos_bound y 16 ltac:(lia)).
  assert (0 <= x / 16 < 16) by (split; [apply Z.div_pos | apply Z.div_lt_upper_bound]; lia).
  assert (0 <= y / 16 < 16) by (split; [apply Z.div_pos | apply Z.div_lt_upper_bound]; lia).
  rewrite (Z.mod_small (x / 16)), (Z.mod_small (y / 16)) in Hhigh by lia.
  apply hexDigit_inj in Hhigh; [|lia|lia].
  apply hexDigit_inj in Hlow; [|lia|lia]. lia.
Qed.

Lemma hexByte_app_inj (x y : Z) (s t : string) :
  JS.hexByte x +:+ s = JS.hexByte y +:+ t → JS.hexByte x = JS.hexByte y ∧ s = t.
Proof.
  unfold JS.hexByte.
  change (String (JS.hexDigit (Z.land (Z.shiftr x 4) 15))
            (String (JS.hexDigit (Z.land x 15)) s)
          = String (JS.hexDigit (Z.land (Z.shiftr y 4) 15))
              (String (JS.hexDigit (Z.land y 15)) t)
          → String (JS.hexDigit (Z.land (Z.shiftr x 4) 15))
              (String (JS.hexDigit (Z.land x 15)) "")
            = String (JS.hexDigit (Z.land (Z.shiftr y 4) 15))
                (String (JS.hexDigit (Z.land y 15)) "")
            ∧ s = t).
  intros H. injection H as H1 H2 H3. by rewrite H1, H2, H3.
Qed.

Lemma generateSecureRandom_cons (x : Z) (rest : list Z) :
  SecureCryptographicNullifier.generateSecureRandom (x :: rest)
  = JS.hexByte x +:+ SecureCryptographicNullifier.generateSecureRandom rest.
Proof.
  unfold SecureCryptographicNullifier.generateSecureRandom.
  destruct rest as [|y rest]; reflexivity.
Qed.

(** X14 -- The text of random bytes.  [generateSecureRandom] writes two
    hexadecimal digits per byte, so 32 bytes give the 64 characters that
    the structure check asks of a nonce, and arrays of bytes that differ
    give texts that differ. *)
Theorem generateSecureRandom_faithful :
  ∀ array1 array2 : list Z,
    Forall (fun byte => 0 <= byte < 256) array1 →
    Forall (fun byte => 0 <= byte < 256) array2 →
    String.length (SecureCryptographicNullifier.generateSecureRandom array1)
    = (2 * List.length array1)%nat
    ∧ ZKProofGenerator.generateSecureRandom array1
      = SecureCryptographicNullifier.generateSecureRandom array1
    ∧ (SecureCryptographicNullifier.generateSecureRandom array1
       = SecureCryptographicNullifier.generateSecureRandom array2 →
       array1 = array2).
Proof.
  intros array1 array2 H1 H2.
  split; [apply GeneratorFacts.generateSecureRandom_length|].
  split; [reflexivity|].
  revert array2 H2. induction H1 as [|x rest Hx _ IH]; intros array2 H2 Heq.
  - destruct H2 as [|y rest' _ _]; [reflexivity|].
    rewrite generateSecureRandom_cons in Heq. discriminate Heq.
  - destruct H2 as [|y rest' Hy H2].
    + rewrite generateSecureRandom_cons in Heq. discriminate Heq.
    + rewrite !generateSecureRandom_cons in Heq.
      assert (JS.hexByte x = JS.hexByte y
              ∧ SecureCryptographicNullifier.generateSecureRandom rest
                = SecureCryptographicNullifier.generateSecureRandom rest') as [Hb Hr].
      { by apply hexByte_app_inj. }
      f_equal; [by apply hexByte_inj | by apply IH].
Qed.

(** Two arrays of two bytes. *)
Lemma generateSecureRandom_faithful_witness :
  String.length (SecureCryptographicNullifier.generateSecureRandom [0; 255]) = 4%nat
  ∧ SecureCryptographicNullifier.generateSecureRandom [0; 255] = "00ff".
Proof.
  destruct (generateSecureRandom_faithful [0; 255] [0; 255]) as (Hlen & _ & _).
  - repeat constructor; lia.
  - repeat constructor; lia.
  - split; [exact Hlen | reflexivity].
Defined.

(** X15 -- Credentials.  Whatever the random bytes, the secret, the
    commitment and the two keys made by [generateSecureVoterCredentials]
    are texts of 64 characters, the Merkle index is 0 and the Merkle proof
    is empty; the secret depends on both draws of entropy and the private
    key on the first only. *)
Theorem credentials_have_fixed_width :
  ∀ entropy additionalEntropy blinding : list Z,
    let c :=
      SecureCryptographicNullifier.generateSecureVoterCredentials
        entropy additionalEntropy blinding in
    String.length (SecureVoterCredentials.voterSecret c) = 64%nat
    ∧ String.length (SecureVoterCredentials.voterCommitment c) = 64%nat
    ∧ String.length (SecureVoterCredentials.voterPublicKey c) = 64%nat
    ∧ String.length (SecureVoterCredentials.voterPrivateKey c) = 64%nat
    ∧ SecureVoterCredentials.merkleIndex c = 0
    ∧ SecureVoterCredentials.merkleProof c = []
    ∧ SecureVoterCredentials.voterPrivateKey c
      = SecureCryptographicNullifier.hashToField entropy
    ∧ SecureVoterCredentials.voterSecret c
      = SecureCryptographicNullifier.hashToField (entropy ++ additionalEntropy).
Proof.
  intros entropy additionalEntropy blinding c. subst c.
  unfold SecureCryptographicNullifier.generateSecureVoterCredentials. cbv zeta.
  cbn [SecureVoterCredentials.voterSecret SecureVoterCredentials.voterCommitment
       SecureVoterCredentials.voterPublicKey SecureVoterCredentials.voterPrivateKey
       SecureVoterCredentials.merkleIndex SecureVoterCredentials.merkleProof].
  unfold SecureCryptographicNullifier.hashToField,
    SecureCryptographicNullifier.scalarMultiply. cbv zeta.
  rewrite !GeneratorFacts.modularReduction_length,
    GeneratorFacts.pedersenCommit_length, SHA256_toString_length.
  repeat split.
Qed.

(** X16 -- Generated bundles verify.  Every bundle that
    [generateSecureNullifier] makes from 32 bytes of nonce at a positive
    reading of the clock carries that reading as its time stamp and is
    accepted by [verifyNullifierProof] at every reading of the clock within
    the hour, for every proposal, the one it was made for or another, and
    every root that is not empty. *)
Theorem generated_bundles_verify :
  ∀ (credentials : SecureVoterCredentials.t) (proposalId otherProposal root : string)
    (voteChoice currentTime : Z) (env : SecureCryptographicNullifier.Env)
    (b : SecureNullifierProof.t),
    SecureCryptographicNullifier.generateSecureNullifier
      credentials proposalId voteChoice env = Ok b →
    List.length (SecureCryptographicNullifier.nonceBytes env) = 32%nat →
    0 < SecureCryptographicNullifier.now env →
    root ≠ "" →
    Z.abs (currentTime - SecureCryptographicNullifier.now env) <= 3600000 →
    SecureNullifierProof.timestamp b = SecureCryptographicNullifier.now env
    ∧ SecureCryptographicNullifier.verifyNullifierProof currentTime b proposalId root
      = true
    ∧ SecureCryptographicNullifier.verifyNullifierProof currentTime b otherProposal root
      = true.
Proof.
  intros credentials proposalId otherProposal root voteChoice currentTime env b
    Hgen Hnonce Hnow Hroot Hfresh.
  split.
  - unfold SecureCryptographicNullifier.generateSecureNullifier in Hgen.
    destruct (negb (voteChoice =? 0) && negb (voteChoice =? 1)); [discriminate|].
    by injection Hgen as <-.
  - split; eapply GeneratorFacts.generated_bundle_verifies; eassumption.
Qed.

(** The first vote of the scenario, verified half a second later for its
    own proposal and for another one. *)
Lemma generated_bundles_verify_witness :
  SecureCryptographicNullifier.verifyNullifierProof
    1700000000500 Scenario.firstBundle "p1" "test_registry_root" = true
  ∧ SecureCryptographicNullifier.verifyNullifierProof
      1700000000500 Scenario.firstBundle "p2" "test_registry_root" = true.
Proof.
  apply (generated_bundles_verify Scenario.credentials "p1" "p2" "test_registry_root"
           1 1700000000500 Scenario.firstEnv Scenario.firstBundle).
  - vm_compute. reflexivity.
  - reflexivity.
  - reflexivity.
  - discriminate.
  - vm_compute. discriminate.
Defined.

(** ** The registry: stored bundles, integrity and the Merkle root *)

Module RegistryMoreFacts.
Import SecureNullifierRegistry.

Lemma JsMap_get_set_ne {V : Type} (k k' : string) (v : V) (m : JsMap.t V) :
  k ≠ k' → JsMap.get k' (JsMap.set k v m) = JsMap.get k' m.
Proof.
  intros Hne. induction m as [|[k0 v0] m IH]; simpl.
  - by rewrite decide_False by congruence.
  - destruct (decide (k = k0)) as [->|Hk]; simpl.
    + by rewrite !decide_False by congruence.
    + destruct (decide (k' = k0)); [reflexivity | exact IH].
Qed.

Lemma JsMap_get_keys {V : Type} (k : string) (v : V) (m : JsMap.t V) :
  JsMap.get k m = Some v → k ∈ JsMap.keys m.
Proof.
  intros H. apply JsMap_has_keys. unfold JsMap.has. by rewrite H.
Qed.

(** An entry that is stored stays as it is. *)
Lemma addNullifier_keeps_entry currentTime b proposalId this k v :
  JsMap.get k (nullifiers this) = Some v →
  JsMap.get k (nullifiers (snd (addNullifier currentTime b proposalId this))) = Some v.
Proof.
  intros Hk. rewrite RegistryFacts.addNullifier_unfold.
  destruct (SecureCryptographicNullifier.verifyNullifierProof _ _ _ _); [|exact Hk].
  case_bool_decide as Hin; [exact Hk|]. cbn [andb negb snd].
  unfold inserted, updateMerkleTree. cbn [nullifiers].
  rewrite JsMap_get_set_ne; [exact Hk|].
  intros Heq. apply Hin. rewrite Heq. by eapply JsMap_get_keys.
Qed.

Lemma addNullifiers_keeps_entry submissions this k v :
  JsMap.get k (nullifiers this) = Some v →
  JsMap.get k (nullifiers (snd (addNullifiers submissions this))) = Some v.
Proof.
  revert this.
  induction submissions as [|[[currentTime b] proposalId] rest IH];
    intros this Hk; simpl; [exact Hk|].
  pose proof (addNullifier_keeps_entry currentTime b proposalId this k v Hk) as H1.
  destruct (addNullifier currentTime b proposalId this) as [r this1]; simpl in H1.
  specialize (IH this1 H1).
  destruct (addNullifiers rest this1) as [rs this2]; simpl in *. exact IH.
Qed.

Lemma integrity_set (b : SecureNullifierProof.t) (m : JsMap.t SecureNullifierProof.t) :
  forallb (fun entry : string * SecureNullifierProof.t =>
             bool_decide (SecureNullifierProof.nullifier (snd entry) = fst entry)) m
  = true →
  forallb (fun entry : string * SecureNullifierProof.t =>
             bool_decide (SecureNullifierProof.nullifier (snd entry) = fst entry))
          (JsMap.set (SecureNullifierProof.nullifier b) b m)
  = true.
Proof.
  induction m as [|[k0 v0] m IH]; simpl.
  - intros _. by rewrite bool_decide_eq_true_2.
  - intros H. apply andb_true_iff in H as [H0 Hm].
    destruct (decide (SecureNullifierProof.nullifier b = k0)); simpl.
    + by rewrite bool_decide_eq_true_2, Hm.
    + by rewrite H0, IH.
Qed.

Lemma addNullifier_integrity currentTime b proposalId this :
  verifyRegistryIntegrity this = true →
  verifyRegistryIntegrity (snd (addNullifier currentTime b proposalId this)) = true.
Proof.
  intros H. rewrite RegistryFacts.addNullifier_unfold.
  destruct (_ && _); [|exact H].
  unfold verifyRegistryIntegrity, inserted, updateMerkleTree. cbn [snd nullifiers].
  by apply integrity_set.
Qed.

(** The hashes of a level have 64 characters. *)
Lemma nextLevel_widths leaves :
  Forall (fun node => String.length node = 64%nat) (nextLevel leaves)
  ∧ ∀ leaf, Forall (fun node => String.length node = 64%nat) (nextLevel (leaf :: leaves)).
Proof.
  induction leaves as [|next rest [IH1 IH2]].
  - split; [constructor|]. intros leaf. simpl.
    constructor; [apply SHA256_toString_length | constructor].
  - split; [apply IH2|]. intros leaf.
    change (nextLevel (leaf :: next :: rest))
      with (CryptoJS.toString
              (CryptoJS.SHA256 (leaf +:+ (if decide (next = "") then leaf else next)))
            :: nextLevel rest).
    constructor; [apply SHA256_toString_length | exact IH1].
Qed.

Lemma nextLevel_nonempty leaf leaves : nextLevel (leaf :: leaves) ≠ [].
Proof. destruct leaves; discriminate. Qed.

(** The root of leaves that are 64 characters wide, or of two leaves and
    more, is 64 characters wide. *)
Lemma computeMerkleRootFuel_width fuel leaves root :
  leaves ≠ [] →
  (Forall (fun node => String.length node = 64%nat) leaves
   ∨ (2 <= List.length leaves)%nat) →
  computeMerkleRootFuel fuel leaves = Some root →
  String.length root = 64%nat.
Proof.
  revert leaves. induction fuel as [|fuel IH]; intros leaves Hne Hwide Hroot.
  - destruct leaves as [|a [|b rest]]; [congruence | | discriminate Hroot].
    injection Hroot as <-. destruct Hwide as [Hw | Hlen]; [|simpl in Hlen; lia].
    by inversion Hw.
  - destruct leaves as [|a [|b rest]]; [congruence | |].
    + injection Hroot as <-. destruct Hwide as [Hw | Hlen]; [|simpl in Hlen; lia].
      by inversion Hw.
    + change (computeMerkleRootFuel fuel (nextLevel (a :: b :: rest)) = Some root)
        in Hroot.
      apply (IH (nextLevel (a :: b :: rest))); [apply nextLevel_nonempty | | exact Hroot].
      left. apply nextLevel_widths.
Qed.

End RegistryMoreFacts.

(** X17 -- Integrity of the registry.  [verifyRegistryIntegrity] holds of
    a new registry and, once it holds, it holds after every sequence of
    calls of [addNullifier]: each bundle is stored under its own
    nullifier. *)
Theorem registry_integrity_is_kept :
  ∀ (submissions : list SecureNullifierRegistry.Submission)
    (this : SecureNullifierRegistry.t),
    SecureNullifierRegistry.verifyRegistryIntegrity this = true →
    SecureNullifierRegistry.verifyRegistryIntegrity
      (snd (SecureNullifierRegistry.addNullifiers submissions this)) = true
    ∧ SecureNullifierRegistry.verifyRegistryIntegrity SecureNullifierRegistry.new = true.
Proof.
  intros submissions this H. split; [|reflexivity].
  revert this H.
  induction submissions as [|[[currentTime b] proposalId] rest IH];
    intros this H; simpl; [exact H|].
  pose proof (RegistryMoreFacts.addNullifier_integrity currentTime b proposalId this H)
    as H1.
  destruct (SecureNullifierRegistry.addNullifier currentTime b proposalId this)
    as [r this1]; simpl in H1.
  specialize (IH this1 H1).
  destruct (SecureNullifierRegistry.addNullifiers rest this1) as [rs this2];
    simpl in *. exact IH.
Qed.

(** Two accepted bundles and a replay on a registry that has a root. *)
Lemma registry_integrity_is_kept_witness :
  SecureNullifierRegistry.verifyRegistryIntegrity
    (snd (SecureNullifierRegistry.addNullifiers
            [ (1700000000001, Scenario.firstBundle, "p1");
              (1700000000501, Scenario.secondBundle, "p1");
              (1700000000601, Scenario.firstBundle, "p1") ]
            Scenario.seededRegistry)) = true.
Proof.
  apply registry_integrity_is_kept. reflexivity.
Defined.

(** X18 -- What an accepted bundle changes.  When [addNullifier] returns
    [true], the bundle is stored under its nullifier, the Merkle tree is
    the list of the keys, that is the keys before followed by the new
    nullifier, the root is the Merkle root of that list, and the root has
    64 characters: a registry that accepted a bundle can accept the next. *)
Theorem accepted_bundle_updates_registry :
  ∀ (currentTime : Z) (b : SecureNullifierProof.t) (proposalId : string)
    (this : SecureNullifierRegistry.t),
    fst (SecureNullifierRegistry.addNullifier currentTime b proposalId this) = true →
    let after := snd (SecureNullifierRegistry.addNullifier currentTime b proposalId this) in
    JsMap.get (SecureNullifierProof.nullifier b) (SecureNullifierRegistry.nullifiers after)
    = Some b
    ∧ SecureNullifierRegistry.merkleTree after
      = JsMap.keys (SecureNullifierRegistry.nullifiers this)
        ++ [SecureNullifierProof.nullifier b]
    ∧ SecureNullifierRegistry.merkleTree after
      = JsMap.keys (SecureNullifierRegistry.nullifiers after)
    ∧ SecureNullifierRegistry.registryRoot after
      = SecureNullifierRegistry.computeMerkleRoot
          (SecureNullifierRegistry.merkleTree after)
    ∧ String.length (SecureNullifierRegistry.registryRoot after) = 64%nat.
Proof.
  intros currentTime b proposalId this Haccepted after. subst after.
  apply RegistryFacts.addNullifier_true in Haccepted as (Hvalid & Hfresh & ->).
  cbn [snd]. unfold SecureNullifierRegistry.inserted,
    SecureNullifierRegistry.updateMerkleTree.
  cbn [SecureNullifierRegistry.nullifiers SecureNullifierRegistry.merkleTree
       SecureNullifierRegistry.registryRoot].
  rewrite JsMap_keys_set_fresh by exact Hfresh.
  split; [apply JsMap_get_set_eq|]. split; [reflexivity|]. split; [reflexivity|].
  split; [reflexivity|].
  set (leaves := JsMap.keys (SecureNullifierRegistry.nullifiers this)
                 ++ [SecureNullifierProof.nullifier b]).
  apply (RegistryMoreFacts.computeMerkleRootFuel_width (List.length leaves) leaves).
  - subst leaves. by destruct (JsMap.keys _).
  - apply VerifierFacts.verifyNullifierProof_true_iff in Hvalid as (_ & _ & Hs & _).
    unfold SecureCryptographicNullifier.verifyNullifierStructure in Hs.
    rewrite !andb_true_iff, !Nat.eqb_eq in Hs.
    destruct Hs as ((((((Hn & _) & _) & _) & _) & _) & _).
    subst leaves.
    destruct (JsMap.keys (SecureNullifierRegistry.nullifiers this)) as [|k ks].
    + left. by repeat constructor.
    + right. rewrite length_app. simpl. lia.
  - apply RegistryFacts.computeMerkleRoot_total.
Qed.

(** The first bundle of the scenario on a registry that has a root. *)
Lemma accepted_bundle_updates_registry_witness :
  let after :=
    snd (SecureNullifierRegistry.addNullifier
           1700000000001 Scenario.firstBundle "p1" Scenario.seededRegistry) in
  SecureNullifierRegistry.merkleTree after
  = [SecureNullifierProof.nullifier Scenario.firstBundle]
  ∧ String.length (SecureNullifierRegistry.registryRoot after) = 64%nat.
Proof.
  destruct (accepted_bundle_updates_registry
              1700000000001 Scenario.firstBundle "p1" Scenario.seededRegistry)
    as (_ & Htree & _ & _ & Hroot).
  - vm_compute. reflexivity.
  - split; [exact Htree | exact Hroot].
Defined.

(** X19 -- The stored bundle is never replaced.  Once [addNullifier] has
    accepted a bundle, the map returns that bundle for its nullifier after
    every later sequence of submissions, whatever they carry. *)
Theorem accepted_bundle_is_kept :
  ∀ (currentTime : Z) (b : SecureNullifierProof.t) (proposalId : string)
    (this : SecureNullifierRegistry.t)
    (later : list SecureNullifierRegistry.Submission),
    fst (SecureNullifierRegistry.addNullifier currentTime b proposalId this) = true →
    JsMap.get (SecureNullifierProof.nullifier b)
      (SecureNullifierRegistry.nullifiers
         (snd (SecureNullifierRegistry.addNullifiers later
                 (snd (SecureNullifierRegistry.addNullifier
                         currentTime b proposalId this)))))
    = Some b.
Proof.
  intros currentTime b proposalId this later Haccepted.
  apply RegistryMoreFacts.addNullifiers_keeps_entry.
  apply RegistryFacts.addNullifier_true in Haccepted as (_ & _ & ->).
  apply JsMap_get_set_eq.
Qed.

(** The first bundle of the scenario stays when the second is accepted and
    the first is submitted again. *)
Lemma accepted_bundle_is_kept_witness :
  JsMap.get (SecureNullifierProof.nullifier Scenario.firstBundle)
    (SecureNullifierRegistry.nullifiers
       (snd (SecureNullifierRegistry.addNullifiers
               [ (1700000000501, Scenario.secondBundle, "p1");
                 (1700000000601, Scenario.firstBundle, "p1") ]
               (snd (SecureNullifierRegistry.addNullifier
                       1700000000001 Scenario.firstBundle "p1"
                       Scenario.seededRegistry)))))
  = Some Scenario.firstBundle.
Proof.
  apply accepted_bundle_is_kept. vm_compute. reflexivity.
Defined.

Module MerkleFacts.
Import SecureNullifierRegistry.

(** More levels than needed change nothing. *)
Lemma computeMerkleRootFuel_more fuel leaves root :
  computeMerkleRootFuel fuel leaves = Some root →
  computeMerkleRootFuel (S fuel) leaves = Some root.
Proof.
  revert leaves. induction fuel as [|fuel IH]; intros leaves H.
  - destruct leaves as [|a [|b rest]]; [exact H | exact H | discriminate H].
  - destruct leaves as [|a [|b rest]]; [exact H | exact H |].
    change (computeMerkleRootFuel (S fuel) (nextLevel (a :: b :: rest)) = Some root).
    apply IH. exact H.
Qed.

Lemma computeMerkleRootFuel_ge fuel fuel' leaves root :
  (fuel <= fuel')%nat →
  computeMerkleRootFuel fuel leaves = Some root →
  computeMerkleRootFuel fuel' leaves = Some root.
Proof.
  intros Hle H. induction Hle as [|fuel' _ IH]; [exact H|].
  by apply computeMerkleRootFuel_more.
Qed.

(** With any number of levels that is enough, the root is the same. *)
Lemma computeMerkleRootFuel_root fuel leaves :
  (List.length leaves <= S fuel)%nat →
  computeMerkleRootFuel fuel leaves = Some (computeMerkleRoot leaves).
Proof.
  intros Hlen.
  destruct (RegistryFacts.computeMerkleRootFuel_enough fuel leaves Hlen) as [root Hroot].
  pose proof (RegistryFacts.computeMerkleRoot_total leaves) as Htotal.
  destruct (Nat.le_ge_cases fuel (List.length leaves)) as [Hle|Hge].
  - pose proof (computeMerkleRootFuel_ge _ _ _ _ Hle Hroot) as H. congruence.
  - by apply (computeMerkleRootFuel_ge _ _ _ _ Hge).
Qed.

(** A last leaf without a neighbour is hashed with itself, as if it were
    there twice. *)
Lemma nextLevel_duplicate_last (n : nat) (leaves : list string) (c : string) :
  List.length leaves = (2 * n)%nat →
  nextLevel (leaves ++ [c]) = nextLevel (leaves ++ [c; c]).
Proof.
  revert leaves. induction n as [|n IH]; intros leaves Hlen.
  - destruct leaves; [|discriminate Hlen]. simpl.
    by destruct (decide (c = "")).
  - destruct leaves as [|a [|b rest]]; [discriminate Hlen | simpl in Hlen; lia |].
    change (CryptoJS.toString
              (CryptoJS.SHA256 (a +:+ (if decide (b = "") then a else b)))
            :: nextLevel (rest ++ [c])
            = CryptoJS.toString
                (CryptoJS.SHA256 (a +:+ (if decide (b = "") then a else b)))
              :: nextLevel (rest ++ [c; c])).
    f_equal. apply IH. simpl in Hlen. lia.
Qed.

End MerkleFacts.

(** X20 -- The Merkle root does not tell a repeated last leaf.  For an
    odd number of leaves, three or more, [computeMerkleRoot] returns the
    same root when the last leaf is appended once more; and an empty text
    as the right one of two leaves counts as the left one again. *)
Theorem merkle_root_duplicate_last_leaf :
  ∀ (leaves : list string) (c : string),
    leaves ≠ [] →
    Nat.Even (List.length leaves) →
    SecureNullifierRegistry.computeMerkleRoot (leaves ++ [c])
    = SecureNullifierRegistry.computeMerkleRoot (leaves ++ [c; c])
    ∧ ∀ a : string,
        SecureNullifierRegistry.computeMerkleRoot [a; ""]
        = SecureNullifierRegistry.computeMerkleRoot [a; a].
Proof.
  intros leaves c Hne [n Hn]. split.
  - destruct leaves as [|a [|b rest]]; [congruence | simpl in Hn; lia |].
    assert (Some (SecureNullifierRegistry.computeMerkleRoot ((a :: b :: rest) ++ [c]))
            = Some (SecureNullifierRegistry.computeMerkleRoot
                      ((a :: b :: rest) ++ [c; c]))) as H; [|by injection H].
    rewrite <- (MerkleFacts.computeMerkleRootFuel_root
                  (S (S (List.length ((a :: b :: rest) ++ [c])))))
      by lia.
    rewrite <- (MerkleFacts.computeMerkleRootFuel_root
                  (S (S (List.length ((a :: b :: rest) ++ [c]))))
                  ((a :: b :: rest) ++ [c; c]))
      by (rewrite !length_app; simpl; lia).
    change (SecureNullifierRegistry.computeMerkleRootFuel
              (S (List.length ((a :: b :: rest) ++ [c])))
              (SecureNullifierRegistry.nextLevel ((a :: b :: rest) ++ [c]))
            = SecureNullifierRegistry.computeMerkleRootFuel
                (S (List.length ((a :: b :: rest) ++ [c])))
                (SecureNullifierRegistry.nextLevel ((a :: b :: rest) ++ [c; c]))).
    by rewrite (MerkleFacts.nextLevel_duplicate_last n).
  - intros a. unfold SecureNullifierRegistry.computeMerkleRoot.
    cbn [List.length SecureNullifierRegistry.computeMerkleRootFuel
         SecureNullifierRegistry.nextLevel].
    rewrite decide_True by reflexivity.
    by destruct (decide (a = "")) as [->|].
Qed.

(** Three leaves, and the same three with the last one twice. *)
Lemma merkle_root_duplicate_last_leaf_witness :
  SecureNullifierRegistry.computeMerkleRoot (["a"; "b"] ++ ["c"])
  = SecureNullifierRegistry.computeMerkleRoot (["a"; "b"] ++ ["c"; "c"]).
Proof.
  destruct (merkle_root_duplicate_last_leaf ["a"; "b"] "c") as [H _].
  - discriminate.
  - exists 1%nat. reflexivity.
  - exact H.
Defined.

(** ** The generator of proofs *)

(** X21 -- Which inputs make a proof.  [generateVoteProof] returns
    outputs exactly when the proposal identifier, the voter secret and the
    voter nullifier are not empty and the vote choice is 0 or 1; in every
    other case it throws the one generic error, whichever input is at
    fault. *)
Theorem proof_generation_accepts_valid_inputs_only :
  ∀ (env : ZKProofGenerator.Env) (inputs : VoteProofInputs.t),
    let valid :=
      VoteProofInputs.proposalId inputs ≠ ""
      ∧ (VoteProofInputs.voteChoice inputs = 0 ∨ VoteProofInputs.voteChoice inputs = 1)
      ∧ VoteProofInputs.voterSecret inputs ≠ ""
      ∧ VoteProofInputs.voterNullifier inputs ≠ "" in
    ((∃ outputs, ZKProofGenerator.generateVoteProof env inputs = Ok outputs) ↔ valid)
    ∧ (¬ valid →
       ZKProofGenerator.generateVoteProof env inputs
       = Throw "Zero-knowledge proof generation failed").
Proof.
  intros env inputs valid. subst valid.
  unfold ZKProofGenerator.generateVoteProof, ZKProofGenerator.validateInputs.
  destruct (decide (VoteProofInputs.proposalId inputs = "")) as [Hp|Hp].
  { split; [split|]; [intros [o Ho]; discriminate Ho | tauto | reflexivity]. }
  destruct (Z.eqb_spec (VoteProofInputs.voteChoice inputs) 0) as [H0|H0];
    destruct (Z.eqb_spec (VoteProofInputs.voteChoice inputs) 1) as [H1|H1];
    cbn [negb andb];
    try (split; [split|]; [intros [o Ho]; discriminate Ho | tauto | reflexivity]).
  all: destruct (decide (VoteProofInputs.voterSecret inputs = "")) as [Hs|Hs];
    [split; [split|]; [intros [o Ho]; discriminate Ho | tauto | reflexivity]|].
  all: destruct (decide (VoteProofInputs.voterNullifier inputs = "")) as [Hn|Hn];
    [split; [split|]; [intros [o Ho]; discriminate Ho | tauto | reflexivity]|].
  all: split; [split|]; [intros _; tauto | intros _; by eexists | tauto].
Qed.

Lemma string_app_nil_l (s : string) : "" +:+ s = s.
Proof. reflexivity. Qed.

(** X22 -- The mock Poseidon hash joins its fields without a separator.
    The hash of a list of fields depends on the concatenation of their
    texts only.  So [computeNullifier] gives the same nullifier hash when
    characters move from the end of the voter secret to the start of the
    voter nullifier, or from the end of the voter nullifier to the start
    of the proposal identifier. *)
Theorem mock_poseidon_joins_fields :
  (∀ fields1 fields2 : list MidnightMock.Field,
     JS.join "" (map MidnightMock.toString fields1)
     = JS.join "" (map MidnightMock.toString fields2) →
     MidnightMock.hash fields1 = MidnightMock.hash fields2)
  ∧ ∀ voterSecret moved voterNullifier proposalId : string,
      ZKProofGenerator.computeNullifier (voterSecret +:+ moved) voterNullifier proposalId
      = ZKProofGenerator.computeNullifier voterSecret (moved +:+ voterNullifier) proposalId
      ∧ ZKProofGenerator.computeNullifier voterSecret (voterNullifier +:+ moved) proposalId
        = ZKProofGenerator.computeNullifier voterSecret voterNullifier (moved +:+ proposalId).
Proof.
  assert (∀ fields1 fields2 : list MidnightMock.Field,
            JS.join "" (map MidnightMock.toString fields1)
            = JS.join "" (map MidnightMock.toString fields2) →
            MidnightMock.hash fields1 = MidnightMock.hash fields2) as Hjoin.
  { intros fields1 fields2 H. unfold MidnightMock.hash. cbv zeta. by rewrite H. }
  split; [exact Hjoin|].
  intros voterSecret moved voterNullifier proposalId.
  unfold ZKProofGenerator.computeNullifier. cbv zeta.
  split; apply (f_equal MidnightMock.toString); apply Hjoin;
    cbn [map JS.join MidnightMock.toString MidnightMock.fromString MidnightMock.value];
    by rewrite !string_app_nil_l, !string_app_assoc.
Qed.

(** A nullifier hash shared by two voters: "alice" with nullifier "1x" and
    "alice1" with nullifier "x". *)
Lemma mock_poseidon_joins_fields_witness :
  ZKProofGenerator.computeNullifier "alice1" "x" "p1"
  = ZKProofGenerator.computeNullifier "alice" "1x" "p1".
Proof.
  destruct mock_poseidon_joins_fields as [Hjoin _].
  unfold ZKProofGenerator.computeNullifier.
  apply (f_equal MidnightMock.toString). apply Hjoin. reflexivity.
Defined.

(** ** The participation tracker *)

Module TrackerFacts.
Import ParticipationTracker.

Lemma recordParticipation_cases now nullifier proposalId this :
  (nullifier ∈ usedNullifiers this
   ∧ recordParticipation now nullifier proposalId this = (false, this))
  ∨ ((nullifier ∉ usedNullifiers this)
     ∧ recordParticipation now nullifier proposalId this =
         (true,
          {| usedNullifiers := usedNullifiers this ∪ {[nullifier]};
             participationLog :=
               participationLog this ++
               [ {| ParticipationEntry.nullifier := nullifier;
                    ParticipationEntry.timestamp := now;
                    ParticipationEntry.proposalId := proposalId |} ] |})).
Proof.
  unfold recordParticipation. case_bool_decide; [left | right]; by split.
Qed.

Lemma recordParticipation_keeps now nullifier proposalId this n :
  n ∈ usedNullifiers this →
  n ∈ usedNullifiers (snd (recordParticipation now nullifier proposalId this)).
Proof.
  intros Hn.
  destruct (recordParticipation_cases now nullifier proposalId this)
    as [(_ & ->) | (_ & ->)]; cbn [snd usedNullifiers]; [exact Hn | set_solver].
Qed.

Lemma recordAll_keeps calls this n :
  n ∈ usedNullifiers this → n ∈ usedNullifiers (snd (recordAll calls this)).
Proof.
  revert this. induction calls as [|[[now nullifier] proposalId] rest IH];
    intros this Hn; simpl; [exact Hn|].
  pose proof (recordParticipation_keeps now nullifier proposalId this n Hn) as H1.
  destruct (recordParticipation now nullifier proposalId this) as [r this1].
  specialize (IH this1 H1).
  destruct (recordAll rest this1) as [rs this2]; simpl in *. exact IH.
Qed.

Lemma recordParticipation_records now nullifier proposalId this :
  nullifier ∈ usedNullifiers (snd (recordParticipation now nullifier proposalId this)).
Proof.
  destruct (recordParticipation_cases now nullifier proposalId this)
    as [(Hin & ->) | (_ & ->)]; cbn [snd usedNullifiers]; [exact Hin | set_solver].
Qed.

(** The log lists the set, each nullifier once. *)
Lemma recordAll_log calls this :
  NoDup (map ParticipationEntry.nullifier (participationLog this)) →
  (∀ n, n ∈ usedNullifiers this
        ↔ n ∈ map ParticipationEntry.nullifier (participationLog this)) →
  NoDup (map ParticipationEntry.nullifier (participationLog (snd (recordAll calls this))))
  ∧ ∀ n, n ∈ usedNullifiers (snd (recordAll calls this))
         ↔ n ∈ map ParticipationEntry.nullifier
                 (participationLog (snd (recordAll calls this))).
Proof.
  revert this. induction calls as [|[[now nullifier] proposalId] rest IH];
    intros this Hnd Hset; simpl; [by split|].
  destruct (recordParticipation_cases now nullifier proposalId this)
    as [(Hin & ->) | (Hout & ->)].
  - specialize (IH this Hnd Hset).
    destruct (recordAll rest this) as [rs this2]; simpl in *. exact IH.
  - match goal with |- context [recordAll rest ?st] => specialize (IH st) end.
    cbn [usedNullifiers participationLog] in IH.
    destruct IH as [IH1 IH2].
    + rewrite map_app. cbn [map ParticipationEntry.nullifier].
      apply NoDup_app. split; [exact Hnd|]. split; [|apply NoDup_singleton].
      intros x Hx Hx'. apply list_elem_of_singleton in Hx'. subst x.
      apply Hout, Hset, Hx.
    + intros n. rewrite map_app, elem_of_app, elem_of_union, Hset.
      cbn [map ParticipationEntry.nullifier].
      by rewrite elem_of_singleton, list_elem_of_singleton.
    + destruct (recordAll rest _) as [rs this2]; simpl in *. by split.
Qed.

End TrackerFacts.

(** X23 -- The participation tracker admits a nullifier once, for all
    proposals together.  After every sequence of calls on a new tracker the
    log holds each nullifier once and holds the nullifiers of the set; and
    once a nullifier has been submitted, [verifyParticipation] holds of it
    and every later [recordParticipation] with it, for the same proposal or
    for another, returns [false] and changes nothing. *)
Theorem tracker_admits_a_nullifier_once :
  (∀ calls : list (Z * string * string),
     let tracker := snd (ParticipationTracker.recordAll calls ParticipationTracker.new) in
     NoDup (map ParticipationEntry.nullifier
              (ParticipationTracker.participationLog tracker))
     ∧ ∀ n, n ∈ ParticipationTracker.usedNullifiers tracker
            ↔ n ∈ map ParticipationEntry.nullifier
                    (ParticipationTracker.participationLog tracker))
  ∧ (∀ (now later : Z) (nullifier proposalId otherProposal : string)
       (between : list (Z * string * string)) (this : ParticipationTracker.t),
       let tracker :=
         snd (ParticipationTracker.recordAll between
                (snd (ParticipationTracker.recordParticipation
                        now nullifier proposalId this))) in
       ParticipationTracker.verifyParticipation nullifier tracker = true
       ∧ ParticipationTracker.recordParticipation later nullifier otherProposal tracker
         = (false, tracker)).
Proof.
  split.
  - intros calls tracker. subst tracker.
    apply TrackerFacts.recordAll_log; [apply NoDup_nil_2|].
    intros n. cbn. set_solver.
  - intros now later nullifier proposalId otherProposal between this tracker.
    assert (nullifier ∈ ParticipationTracker.usedNullifiers tracker) as Hin.
    { subst tracker. apply TrackerFacts.recordAll_keeps,
        TrackerFacts.recordParticipation_records. }
    split.
    + unfold ParticipationTracker.verifyParticipation.
      by apply bool_decide_eq_true_2.
    + unfold ParticipationTracker.recordParticipation.
      by rewrite bool_decide_eq_true_2.
Qed.

(** X24 -- The statistics of the tracker.  An accepted call appends its
    nullifier and its clock reading to the lists that
    [getParticipationStats] returns for its proposal, a refused call and
    the other proposals leave them as they were, and [totalParticipants]
    is the length of both lists. *)
Theorem tracker_stats_follow_accepted_calls :
  ∀ (now : Z) (nullifier proposalId queried : string) (this : ParticipationTracker.t),
    let call := ParticipationTracker.recordParticipation now nullifier proposalId this in
    let before := ParticipationTracker.getParticipationStats queried this in
    let after := ParticipationTracker.getParticipationStats queried (snd call) in
    let counted := fst call && bool_decide (proposalId = queried) in
    ParticipationTracker.nullifiers after
    = ParticipationTracker.nullifiers before ++ (if counted then [nullifier] else [])
    ∧ ParticipationTracker.timestamps after
      = ParticipationTracker.timestamps before ++ (if counted then [now] else [])
    ∧ ParticipationTracker.totalParticipants after
      = Z.of_nat (List.length (ParticipationTracker.nullifiers after))
    ∧ ParticipationTracker.totalParticipants after
      = Z.of_nat (List.length (ParticipationTracker.timestamps after)).
Proof.
  intros now nullifier proposalId queried this call before after counted.
  subst counted after before call.
  unfold ParticipationTracker.getParticipationStats.
  cbn [ParticipationTracker.nullifiers ParticipationTracker.timestamps
       ParticipationTracker.totalParticipants].
  rewrite !length_map.
  destruct (TrackerFacts.recordParticipation_cases now nullifier proposalId this)
    as [(_ & ->) | (_ & ->)]; cbn [fst snd andb ParticipationTracker.participationLog].
  - by rewrite !app_nil_r.
  - rewrite filter_app, !map_app. case_bool_decide as Hp.
    + rewrite filter_cons_True by exact Hp. by repeat split.
    + rewrite filter_cons_False by exact Hp. by repeat split.
Qed.

(** ** The voter registry *)

Arguments VoterRegistry.hashVoterCredentials : simpl never.
Arguments VoterRegistry.combined : simpl never.

Module VoterRegistryFacts.
Import VoterRegistry.

Lemma toString_nonempty (n : Z) : JS.toString n ≠ "".
Proof.
  unfold JS.toString. destruct (Z.to_int n) as [d | d]; [|discriminate].
  destruct d; discriminate.
Qed.

Lemma hashVoterCredentials_nonempty voterSecret :
  hashVoterCredentials voterSecret ≠ "".
Proof. apply toString_nonempty. Qed.

Lemma nextLevel_length_le : ∀ (n : nat) (level : list string),
  (List.length level ≤ n)%nat →
  (2 ≤ List.length level)%nat →
  (1 ≤ List.length (nextLevel level) < List.length level)%nat.
Proof.
  induction n as [n IH] using lt_wf_ind. intros level Hn Hlen.
  destruct level as [|a [|b rest]]; simpl in Hlen; try lia.
  cbn [nextLevel List.length].
  destruct rest as [|c [|d rest']].
  - simpl. lia.
  - simpl. lia.
  - assert (1 ≤ List.length (nextLevel (c :: d :: rest'))
            < List.length (c :: d :: rest'))%nat as H.
    { apply (IH (List.length (c :: d :: rest'))); simpl in *; lia. }
    simpl in *. lia.
Qed.

(** The loop of [updateMerkleRoot] ends on one node, and turns that are
    left over change nothing. *)
Lemma rootLoop_ends : ∀ (fuel : nat) (level : list string),
  (List.length level ≤ fuel)%nat → level ≠ [] →
  ∃ root, rootLoop fuel level = [root]
          ∧ ∀ more, rootLoop (fuel + more) level = [root].
Proof.
  induction fuel as [|fuel IH]; intros level Hfuel Hne.
  - destruct level; [done | simpl in Hfuel; lia].
  - cbn [rootLoop Nat.add]. destruct (1 <? List.length level)%nat eqn:Hguard.
    + apply Nat.ltb_lt in Hguard.
      destruct (nextLevel_length_le (List.length level) level) as [H1 H2]; [lia..|].
      destruct (IH (nextLevel level)) as (root & Hroot & Hmore).
      * lia.
      * intros Heq. rewrite Heq in H1. simpl in H1. lia.
      * exists root. split; [exact Hroot|].
        intros more. cbn [rootLoop]. apply Hmore.
    + apply Nat.ltb_ge in Hguard.
      destruct level as [|root [|b rest]]; [done | | simpl in Hguard; lia].
      exists root. split; [done|]. intros more. reflexivity.
Qed.

End VoterRegistryFacts.

(** X25 -- What [addEligibleVoter] does to a registry in any state.  The
    hash of the secret is appended to the leaves, its former position is
    the [voterIndex] returned, the registration is stored under the hash
    with the clock reading, and the loop of [updateMerkleRoot] has ended on
    one node, which is the new root. *)
Theorem addEligibleVoter_registers :
  ∀ (now : Z) (voterSecret eligibilityProof : string) (this : VoterRegistry.t),
    let voterHash := VoterRegistry.hashVoterCredentials voterSecret in
    let credentials :=
      fst (VoterRegistry.addEligibleVoter now voterSecret eligibilityProof this) in
    let after :=
      snd (VoterRegistry.addEligibleVoter now voterSecret eligibilityProof this) in
    let leaves := VoterRegistry.merkleTree this ++ [voterHash] in
    RegistryCredentials.voterSecret credentials = voterSecret
    ∧ RegistryCredentials.voterIndex credentials
      = Z.of_nat (List.length (VoterRegistry.merkleTree this))
    ∧ VoterRegistry.merkleTree after = leaves
    ∧ JsMap.get voterHash (VoterRegistry.voters after)
      = Some {| VoterRegistration.voterHash := voterHash;
                VoterRegistration.timestamp := now;
                VoterRegistration.eligibilityProof := eligibilityProof |}
    ∧ ∀ more : nat,
        VoterRegistry.rootLoop (List.length leaves + more) leaves
        = [VoterRegistry.merkleRoot after].
Proof.
  intros now voterSecret eligibilityProof this voterHash credentials after leaves.
  subst credentials after. unfold VoterRegistry.addEligibleVoter. cbv zeta.
  fold voterHash.
  destruct (VoterRegistry.generateMerkleProof _ _) as [proof indices].
  cbn [fst snd RegistryCredentials.voterSecret RegistryCredentials.voterIndex].
  split; [reflexivity|]. split; [reflexivity|].
  unfold VoterRegistry.updateMerkleRoot.
  cbn [VoterRegistry.merkleTree VoterRegistry.voters]. fold leaves.
  destruct (VoterRegistryFacts.rootLoop_ends (List.length leaves) leaves)
    as (root & Hroot & Hmore); [lia | subst leaves; by destruct (VoterRegistry.merkleTree this) |].
  assert (leaves ≠ []) as Hne
    by (subst leaves; by destruct (VoterRegistry.merkleTree this)).
  destruct leaves as [|leaf rest] eqn:Hleaves; [done|].
  cbn [VoterRegistry.merkleTree VoterRegistry.voters VoterRegistry.merkleRoot].
  split; [reflexivity|]. split; [apply JsMap_get_set_eq|].
  intros more. rewrite Hroot. cbn [nth]. apply Hmore.
Qed.

(** X26 -- The first voter of a registry is eligible.  In a new registry
    the credentials returned by [addEligibleVoter] have index 0 and an
    empty proof, the root is the hash of the secret, and
    [verifyVoterEligibility] accepts the credentials; with the empty proof
    it accepts exactly the secrets that have the same hash. *)
Theorem first_voter_is_eligible :
  ∀ (now : Z) (voterSecret eligibilityProof other : string),
    let credentials :=
      fst (VoterRegistry.addEligibleVoter now voterSecret eligibilityProof
             VoterRegistry.new) in
    let registry :=
      snd (VoterRegistry.addEligibleVoter now voterSecret eligibilityProof
             VoterRegistry.new) in
    credentials
    = {| RegistryCredentials.voterSecret := voterSecret;
         RegistryCredentials.voterIndex := 0;
         RegistryCredentials.merkleProof := [];
         RegistryCredentials.merkleIndices := [] |}
    ∧ VoterRegistry.merkleRoot registry
      = VoterRegistry.hashVoterCredentials voterSecret
    ∧ VoterRegistry.verifyVoterEligibility voterSecret
        (RegistryCredentials.merkleProof credentials)
        (RegistryCredentials.merkleIndices credentials) registry = true
    ∧ (VoterRegistry.verifyVoterEligibility other [] [] registry = true
       ↔ VoterRegistry.hashVoterCredentials other
         = VoterRegistry.hashVoterCredentials voterSecret).
Proof.
  intros now voterSecret eligibilityProof other credentials registry.
  subst credentials registry.
  unfold VoterRegistry.addEligibleVoter, VoterRegistry.verifyVoterEligibility.
  cbv zeta.
  generalize (VoterRegistry.hashVoterCredentials other).
  generalize (VoterRegistry.hashVoterCredentials voterSecret).
  intros h0 h. cbn.
  split; [reflexivity|]. split; [reflexivity|].
  split; [by apply bool_decide_eq_true_2|].
  apply bool_decide_eq_true.
Qed.

(** X27 -- The proofs of a registry of two voters.  The root is the hash of
    the two leaves in their order.  The second voter receives the first
    leaf with index 0, for which [verifyMerkleProof] hashes the two leaves
    in the other order; the credentials that the first voter received are
    compared with the root as they are.  So each of the two is accepted
    only if two different hash computations agree. *)
Theorem second_voter_proof_swaps_the_leaves :
  ∀ (now0 now1 : Z) (secret0 secret1 proof0 proof1 : string),
    let h0 := VoterRegistry.hashVoterCredentials secret0 in
    let h1 := VoterRegistry.hashVoterCredentials secret1 in
    let first := VoterRegistry.addEligibleVoter now0 secret0 proof0 VoterRegistry.new in
    let second := VoterRegistry.addEligibleVoter now1 secret1 proof1 (snd first) in
    let registry := snd second in
    VoterRegistry.merkleRoot registry = VoterRegistry.combined h0 h1
    ∧ fst second
      = {| RegistryCredentials.voterSecret := secret1;
           RegistryCredentials.voterIndex := 1;
           RegistryCredentials.merkleProof := [h0];
           RegistryCredentials.merkleIndices := [0] |}
    ∧ VoterRegistry.verifyVoterEligibility secret1
        (RegistryCredentials.merkleProof (fst second))
        (RegistryCredentials.merkleIndices (fst second)) registry
      = bool_decide (VoterRegistry.combined h1 h0 = VoterRegistry.combined h0 h1)
    ∧ VoterRegistry.verifyVoterEligibility secret0
        (RegistryCredentials.merkleProof (fst first))
        (RegistryCredentials.merkleIndices (fst first)) registry
      = bool_decide (h0 = VoterRegistry.combined h0 h1).
Proof.
  intros now0 now1 secret0 secret1 proof0 proof1 h0 h1 first second registry.
  pose proof (VoterRegistryFacts.hashVoterCredentials_nonempty secret1) as Hne.
  fold h1 in Hne.
  subst registry second first.
  unfold VoterRegistry.addEligibleVoter, VoterRegistry.verifyVoterEligibility.
  cbv zeta. fold h0 h1. clearbody h0 h1.
  cbn. rewrite (decide_False (P := (h1 = ""))) by exact Hne.
  cbn. by repeat split.
Qed.

(** With the secrets alice and bob neither voter is accepted once both
    are registered. *)
Example two_voters_are_both_refused :
  let first := VoterRegistry.addEligibleVoter 0 "alice" "proof_0" VoterRegistry.new in
  let second := VoterRegistry.addEligibleVoter 1 "bob" "proof_1" (snd first) in
  VoterRegistry.verifyVoterEligibility "bob"
    (RegistryCredentials.merkleProof (fst second))
    (RegistryCredentials.merkleIndices (fst second)) (snd second) = false
  ∧ VoterRegistry.verifyVoterEligibility "alice"
      (RegistryCredentials.merkleProof (fst first))
      (RegistryCredentials.merkleIndices (fst first)) (snd second) = false.
Proof. vm_compute. by split. Qed.

(** ** The cache of hashes and proofs *)

Module CacheFacts.
Import CryptoPerformanceCache.

Lemma JsMap_get_tail {V : Type} (k : string) (m : JsMap.t V) :
  JsMap.get k m = None → JsMap.get k (tl m) = None.
Proof.
  destruct m as [|[k' v'] m]; simpl; [done|]. by destruct (decide (k = k')).
Qed.

Lemma JsMap_get_tail_Some {V : Type} (k : string) (v : V) (m : JsMap.t V) :
  NoDup (JsMap.keys m) → JsMap.get k (tl m) = Some v → JsMap.get k m = Some v.
Proof.
  destruct m as [|[k' v'] m]; simpl; [done|].
  intros Hnd Hget. destruct (decide (k = k')) as [->|]; [|exact Hget].
  apply NoDup_cons_1_1 in Hnd. exfalso. apply Hnd.
  clear -Hget. unfold JsMap.keys.
  induction m as [|[k1 v1] m IH]; simpl in *; [done|].
  destruct (decide (k' = k1)) as [->|]; [left | right; by apply IH].
Qed.

Lemma JsMap_keys_set_miss {V : Type} (k : string) (v : V) (m : JsMap.t V) :
  JsMap.get k m = None → JsMap.set k v m = m ++ [(k, v)].
Proof.
  induction m as [|[k' v'] m IH]; simpl; [done|].
  destruct (decide (k = k')); [done|]. intros H. by rewrite IH.
Qed.

(** Making room deletes the oldest entry of a full cache. *)
Lemma makeRoom_cases {A : Type} (cache : JsMap.t A) :
  (maxCacheSize ≤ Z.of_nat (JsMap.size cache) ∧ makeRoom cache = tl cache)
  ∨ (Z.of_nat (JsMap.size cache) < maxCacheSize ∧ makeRoom cache = cache).
Proof.
  unfold makeRoom. destruct (maxCacheSize <=? _) eqn:Hfull.
  - left. apply Z.leb_le in Hfull. split; [exact Hfull|].
    destruct cache as [|[k v] rest]; [reflexivity|].
    cbn [JsMap.firstKey JsMap.delete tl]. by rewrite decide_True.
  - right. apply Z.leb_gt in Hfull. by split.
Qed.

Lemma getHashCached_cases {V : Type} (input : string) (this : t V) :
  (∃ cached, JsMap.get input (hashCache this) = Some cached
             ∧ getHashCached input this = (cached, this))
  ∨ (JsMap.get input (hashCache this) = None
     ∧ getHashCached input this
       = (computeHash input,
          {| hashCache := makeRoom (hashCache this) ++ [(input, computeHash input)];
             proofCache := proofCache this |})).
Proof.
  unfold getHashCached. destruct (JsMap.get input (hashCache this)) as [cached|] eqn:Hget.
  - left. by exists cached.
  - right. split; [reflexivity|]. cbv zeta. rewrite JsMap_keys_set_miss; [reflexivity|].
    destruct (makeRoom_cases (hashCache this)) as [[_ ->] | [_ ->]];
      [by apply JsMap_get_tail | exact Hget].
Qed.

Lemma JsMap_get_app_miss {V : Type} (k k' : string) (v' : V) (m : JsMap.t V) :
  JsMap.get k (m ++ [(k', v')])
  = match JsMap.get k m with
    | Some v => Some v
    | None => if decide (k = k') then Some v' else None
    end.
Proof.
  induction m as [|[k1 v1] m IH]; simpl; [reflexivity|].
  by destruct (decide (k = k1)).
Qed.

Lemma JsMap_get_None_keys {V : Type} (k : string) (m : JsMap.t V) :
  JsMap.get k m = None → k ∉ JsMap.keys m.
Proof.
  unfold JsMap.keys. induction m as [|[k1 v1] m IH]; simpl; [intros _; apply not_elem_of_nil|].
  destruct (decide (k = k1)); [done|]. intros H. apply not_elem_of_cons. by split; [|apply IH].
Qed.

Lemma getHashCached_sound {V : Type} (input : string) (this : t V) :
  sound this →
  fst (getHashCached input this) = computeHash input
  ∧ sound (snd (getHashCached input this)).
Proof.
  intros (Hval & Hnd & Hsize).
  destruct (getHashCached_cases input this) as [(cached & Hget & ->) | (Hget & ->)];
    cbn [fst snd].
  - split; [by apply Hval | by repeat split].
  - split; [reflexivity|]. unfold sound. cbn [hashCache].
    destruct (makeRoom_cases (hashCache this)) as [[Hfull ->] | [Hroom ->]].
    + split; [|split].
      * intros k v. rewrite JsMap_get_app_miss.
        destruct (JsMap.get k (tl (hashCache this))) as [v0|] eqn:Hk.
        -- intros [= <-]. apply Hval. by apply JsMap_get_tail_Some.
        -- destruct (decide (k = input)) as [->|]; [by intros [= <-] | done].
      * unfold JsMap.keys in *. rewrite map_app. cbn [map fst].
        apply NoDup_app. split; [|split].
        -- destruct (hashCache this) as [|e rest]; [done|]. by apply NoDup_cons_1_2 in Hnd.
        -- intros x Hx Hx'. apply list_elem_of_singleton in Hx'. subst x.
           apply JsMap_get_tail in Hget. by apply JsMap_get_None_keys in Hget.
        -- apply NoDup_singleton.
      * unfold JsMap.size, maxCacheSize in *. rewrite length_app. cbn [List.length].
        destruct (hashCache this) as [|e rest]; simpl in *; lia.
    + split; [|split].
      * intros k v. rewrite JsMap_get_app_miss.
        destruct (JsMap.get k (hashCache this)) as [v0|] eqn:Hk.
        -- intros [= <-]. by apply Hval.
        -- destruct (decide (k = input)) as [->|]; [by intros [= <-] | done].
      * unfold JsMap.keys in *. rewrite map_app. cbn [map fst].
        apply NoDup_app. split; [exact Hnd|]. split; [|apply NoDup_singleton].
        intros x Hx Hx'. apply list_elem_of_singleton in Hx'. subst x.
        by apply JsMap_get_None_keys in Hget.
      * unfold JsMap.size in *. rewrite length_app. cbn [List.length]. lia.
Qed.

Lemma getAllHashCached_sound {V : Type} (inputs : list string) (this : t V) :
  sound this →
  fst (getAllHashCached inputs this) = map computeHash inputs
  ∧ sound (snd (getAllHashCached inputs this)).
Proof.
  revert this. induction inputs as [|input rest IH]; intros this Hsound;
    cbn [getAllHashCached]; [by split|].
  destruct (getHashCached_sound input this Hsound) as [Hfst Hsnd].
  destruct (getHashCached input this) as [h this1]. cbn [fst snd] in *.
  destruct (IH this1 Hsnd) as [IH1 IH2].
  destruct (getAllHashCached rest this1) as [hs this2]. cbn [fst snd map] in *.
  split; [by rewrite Hfst, IH1 | exact IH2].
Qed.

Lemma sound_initial {V : Type} : sound (@initial V).
Proof.
  unfold sound, initial. cbn. split; [done|]. split; [apply NoDup_nil_2 | done].
Qed.

End CacheFacts.

(** X28 -- The hash cache does not change what callers see.  After
    [clearCache], every sequence of calls of [getHashCached] returns what
    [computeHash] returns for each input, whatever was evicted in between;
    the cache never holds more than [maxCacheSize] entries and never holds
    a key twice. *)
Theorem hash_cache_is_transparent :
  ∀ (V : Type) (inputs : list string) (this : CryptoPerformanceCache.t V),
    let run :=
      CryptoPerformanceCache.getAllHashCached inputs
        (CryptoPerformanceCache.clearCache this) in
    fst run = map CryptoPerformanceCache.computeHash inputs
    ∧ Z.of_nat (CryptoPerformanceCache.hashCacheSize
                  (CryptoPerformanceCache.getCacheStats (snd run)))
      ≤ CryptoPerformanceCache.maxCacheSize
    ∧ NoDup (JsMap.keys (CryptoPerformanceCache.hashCache (snd run))).
Proof.
  intros V inputs this run. subst run.
  destruct (CacheFacts.getAllHashCached_sound inputs
              (CryptoPerformanceCache.clearCache this))
    as (Hfst & _ & Hnd & Hsize); [apply CacheFacts.sound_initial|].
  by repeat split.
Qed.

(** X29 -- A full hash cache evicts the entry that was inserted first.  When
    the input is not cached and the cache holds [maxCacheSize] entries or
    more, [getHashCached] drops the first key, appends the input as the
    last key and leaves the number of entries as it was; the proof cache is
    not touched. *)
Theorem full_hash_cache_evicts_oldest :
  ∀ (V : Type) (input : string) (this : CryptoPerformanceCache.t V),
    JsMap.get input (CryptoPerformanceCache.hashCache this) = None →
    CryptoPerformanceCache.maxCacheSize
    ≤ Z.of_nat (JsMap.size (CryptoPerformanceCache.hashCache this)) →
    let after := snd (CryptoPerformanceCache.getHashCached input this) in
    JsMap.keys (CryptoPerformanceCache.hashCache after)
    = tl (JsMap.keys (CryptoPerformanceCache.hashCache this)) ++ [input]
    ∧ JsMap.size (CryptoPerformanceCache.hashCache after)
      = JsMap.size (CryptoPerformanceCache.hashCache this)
    ∧ CryptoPerformanceCache.proofCache after = CryptoPerformanceCache.proofCache this.
Proof.
  intros V input this Hmiss Hfull after. subst after.
  destruct (CacheFacts.getHashCached_cases input this)
    as [(cached & Hget & _) | (_ & ->)]; [congruence|].
  cbn [snd CryptoPerformanceCache.hashCache CryptoPerformanceCache.proofCache].
  destruct (CacheFacts.makeRoom_cases (CryptoPerformanceCache.hashCache this))
    as [[_ ->] | [Hroom _]]; [|lia].
  unfold JsMap.keys, JsMap.size in *. rewrite map_app, length_app. cbn [map fst List.length].
  destruct (CryptoPerformanceCache.hashCache this) as [|e rest].
  - unfold CryptoPerformanceCache.maxCacheSize in Hfull. simpl in Hfull. lia.
  - cbn [tl map List.length]. split; [reflexivity|]. split; [lia | reflexivity].
Qed.

Lemma full_hash_cache_evicts_oldest_witness :
  let after := snd (CryptoPerformanceCache.getHashCached "vote" Scenario.fullCache) in
  JsMap.keys (CryptoPerformanceCache.hashCache after)
  = tl (JsMap.keys (CryptoPerformanceCache.hashCache Scenario.fullCache)) ++ ["vote"]
  ∧ JsMap.size (CryptoPerformanceCache.hashCache after)
    = JsMap.size (CryptoPerformanceCache.hashCache Scenario.fullCache)
  ∧ CryptoPerformanceCache.proofCache after
    = CryptoPerformanceCache.proofCache Scenario.fullCache.
Proof.
  apply (full_hash_cache_evicts_oldest unit "vote" Scenario.fullCache);
    [vm_compute; reflexivity | apply Z.leb_le; vm_compute; reflexivity].
Defined.

(** X30 -- The proof cache keeps the first proof of a key.  A second call
    of [getProofCached] with the same key returns what the first call
    returned and changes nothing, whatever its generator would produce. *)
Theorem proof_cache_keeps_first_proof :
  ∀ (V : Type) (key : string) (generator other : unit → V)
    (this : CryptoPerformanceCache.t V),
    let first := CryptoPerformanceCache.getProofCached key generator this in
    CryptoPerformanceCache.getProofCached key other (snd first) = first.
Proof.
  intros V key generator other this first. subst first.
  unfold CryptoPerformanceCache.getProofCached at 2 3.
  destruct (JsMap.get key (CryptoPerformanceCache.proofCache this)) as [cached|] eqn:Hget.
  - cbn [snd]. unfold CryptoPerformanceCache.getProofCached. by rewrite Hget.
  - cbv zeta. cbn [snd]. unfold CryptoPerformanceCache.getProofCached.
    cbn [CryptoPerformanceCache.proofCache]. by rewrite JsMap_get_set_eq.
Qed.

